(** * Statutes at Large: GPO MODS metadata to bill files

    A shallow embedding of [tasks/statutes.py]: the batch selection of
    [run], the per-volume driver [proc_statute] with its loop over the
    [relatedItem] elements of a MODS document, and the plaintext side
    output.  Python's effects are written out: logging, the files handed
    to the persistence helpers and the subprocess invocations are kept in
    an explicit state, exceptions and the loop's [continue] are results
    of a small monad, and the local variables of [proc_statute] that
    survive from one loop iteration to the next are part of the state. *)

From Stdlib Require Import ZArith List Bool Ascii String DecimalString Lia.
From Stdlib Require Import Sorting.Permutation Sorting.Sorted.
From stdpp Require Import base option strings gmap.
Import ListNotations.

Set Warnings "-register-all".

#[local] Open Scope string_scope.
#[local] Open Scope Z_scope.

(** ** Python strings *)

Module Py.

(** The double-quote character. *)
Definition dquote : ascii := ascii_of_nat 34.

Definition is_upper (c : ascii) : bool :=
  let n := nat_of_ascii c in (Nat.leb 65 n && Nat.leb n 90)%bool.

Definition is_lower (c : ascii) : bool :=
  let n := nat_of_ascii c in (Nat.leb 97 n && Nat.leb n 122)%bool.

Definition lower_char (c : ascii) : ascii :=
  if is_upper c then ascii_of_nat (nat_of_ascii c + 32) else c.

Definition upper_char (c : ascii) : ascii :=
  if is_lower c then ascii_of_nat (nat_of_ascii c - 32) else c.

(** [s.lower()] on a byte string. *)
Fixpoint lower (s : string) : string :=
  match s with
  | EmptyString => EmptyString
  | String c s' => String (lower_char c) (lower s')
  end.

(** [s.capitalize()]: first character upper-cased, the rest lower-cased. *)
Definition capitalize (s : string) : string :=
  match s with
  | EmptyString => EmptyString
  | String c s' => String (upper_char c) (lower s')
  end.

(** [s.replace(old, new)] where [old] is two double-quote characters
    and [new] is one: every non-overlapping pair of double quotes,
    scanning from the left, becomes a single double quote. *)
Fixpoint replace_dquotes (s : string) : string :=
  match s with
  | EmptyString => EmptyString
  | String a s' =>
      match s' with
      | EmptyString => String a EmptyString
      | String b s'' =>
          if (Ascii.eqb a dquote && Ascii.eqb b dquote)%bool
          then String dquote (replace_dquotes s'')
          else String a (replace_dquotes s')
      end
  end.

(** [s.split(sep)] for a one-character separator. *)
Fixpoint split (sep : ascii) (s : string) : list string :=
  match s with
  | EmptyString => [EmptyString]
  | String c s' =>
      if Ascii.eqb c sep then EmptyString :: split sep s'
      else match split sep s' with
           | h :: t => String c h :: t
           | [] => [String c EmptyString]
           end
  end.

(** [str(n)] for an integer. *)
Definition str (n : Z) : string := NilZero.string_of_int (Z.to_int n).

Definition is_space (c : ascii) : bool :=
  let n := nat_of_ascii c in
  (Nat.eqb n 32 || (Nat.leb 9 n && Nat.leb n 13))%bool.

Fixpoint lstrip (s : string) : string :=
  match s with
  | String c s' => if is_space c then lstrip s' else s
  | EmptyString => EmptyString
  end.

Fixpoint rstrip (s : string) : string :=
  match s with
  | EmptyString => EmptyString
  | String c s' =>
      match rstrip s' with
      | EmptyString => if is_space c then EmptyString else String c EmptyString
      | r => String c r
      end
  end.

(** [int(s)] for a string, base ten: surrounding white space is
    dropped, one sign is allowed, at least one digit must follow.
    [None] stands for [ValueError]. *)
Definition int (s : string) : option Z :=
  match rstrip (lstrip s) with
  | String "+" r => option_map Z.of_uint (NilZero.uint_of_string r)
  | t => option_map Z.of_int (NilZero.int_of_string t)
  end.

(** The [%s] conversion of a value that is a string or [None]. *)
Definition fmt (x : option string) : string :=
  match x with
  | Some s => s
  | None => "None"
  end.

End Py.

(** ** The MODS document: an element tree and the ElementPath queries used *)

Module Xml.

(** An element: qualified tag, attributes, text ([None] when the element
    has none) and child elements in document order. *)
Inductive element : Type :=
| Element (tag : string) (attrib : list (string * string))
          (text : option string) (children : list element).

Definition tag (e : element) : string :=
  match e with Element t _ _ _ => t end.
Definition attrib (e : element) : list (string * string) :=
  match e with Element _ a _ _ => a end.
Definition text (e : element) : option string :=
  match e with Element _ _ x _ => x end.
Definition children (e : element) : list element :=
  match e with Element _ _ _ c => c end.

(** [e.attrib[k]] as a lookup; [None] is Python's [KeyError]. *)
Fixpoint assoc (k : string) (kvs : list (string * string)) : option string :=
  match kvs with
  | [] => None
  | (k', v) :: rest => if String.eqb k k' then Some v else assoc k rest
  end.

Definition get_attr (k : string) (e : element) : option string :=
  assoc k (attrib e).

(** One step of a path.  Every tag of the paths in the source carries
    the prefix [mods:], bound to the MODS namespace; tags are kept here
    with that prefix. *)
Inductive step : Type :=
| Tag (t : string)                 (* mods:t *)
| TagAttr (t k v : string)         (* mods:t[@k='v'] *)
| TagPos (t : string) (i : nat).   (* mods:t[i], counted from one *)

Definition has_tag (t : string) (e : element) : bool := String.eqb (tag e) t.

Definition attr_is (k v : string) (e : element) : bool :=
  match get_attr k e with
  | Some v' => String.eqb v' v
  | None => false
  end.

Definition select (s : step) (e : element) : list element :=
  match s with
  | Tag t => List.filter (has_tag t) (children e)
  | TagAttr t k v =>
      List.filter (fun c => has_tag t c && attr_is k v c)%bool (children e)
  | TagPos t i =>
      match i with
      | O => []
      | S j => match nth_error (List.filter (has_tag t) (children e)) j with
               | Some c => [c]
               | None => []
               end
      end
  end.

(** [findall]: all matches of a relative path, in document order. *)
Fixpoint findall_from (ctx : list element) (p : list step) : list element :=
  match p with
  | [] => ctx
  | s :: p' => findall_from (flat_map (select s) ctx) p'
  end.

Definition findall (e : element) (p : list step) : list element :=
  findall_from [e] p.

(** [find]: the first match, or [None]. *)
Definition find (e : element) (p : list step) : option element :=
  head (findall e p).

End Xml.

(** ** Values, the environment and the state *)

(** Python values as the script builds them: dictionaries are association
    lists in the order of the source's dictionary displays. *)
Inductive value : Type :=
| VNone
| VBool (b : bool)
| VStr (s : string)
| VTime (t : Z)
| VList (l : list value)
| VDict (d : list (string * value)).

(** A string or [None], as a value. *)
Definition of_text (x : option string) : value :=
  match x with
  | Some s => VStr s
  | None => VNone
  end.

(** [d[k]] on a dictionary value. *)
Fixpoint lookup_key (k : string) (d : list (string * value)) : option value :=
  match d with
  | [] => None
  | (k', v) :: rest => if String.eqb k k' then Some v else lookup_key k rest
  end.

Definition get (k : string) (v : value) : option value :=
  match v with
  | VDict d => lookup_key k d
  | _ => None
  end.

(** A command-line option: [--key] stores [True], [--key=text] stores the
    text. *)
Inductive optval : Type :=
| OBool (b : bool)
| OStr (s : string).

Definition truthy (v : optval) : bool :=
  match v with
  | OBool b => b
  | OStr EmptyString => false
  | OStr _ => true
  end.

Inductive exn : Type :=
| AttributeError
| KeyError
| TypeError
| ValueError
| UnboundLocalError
| OverflowError
| OSError (errno : Z)
| CalledProcessError (msg : string)
| OtherError (msg : string).

(** What the run leaves behind: log lines, lines printed, and a batch
    failure recorded by the batch processor. *)
Inductive event : Type :=
| LogError (msg : string)
| LogWarn (msg : string)
| Printed (msg : string)
| BatchFailure (id : string) (e : exn).

(** Modelled from the spec: the persistence collaborator
    ([bill_info.output_bill], and [utils.write] at the path given by
    [bill_versions.output_for_bill_version]) is not among the sources; it
    accepts a Bill Record, or a Bill-Version Stub keyed by its version id,
    and writes it to storage.  A write is recorded as one [output]. *)
Inductive output : Type :=
| BillRecord (bill_data : value)
| BillVersion (bill_version_id : string) (bill_version : value).

Definition is_bill_record (o : output) : bool :=
  match o with
  | BillRecord _ => true
  | BillVersion _ _ => false
  end.

Definition is_error (e : event) : bool :=
  match e with
  | LogError _ => true
  | _ => false
  end.

(** The collaborators and library calls that are not part of the script:
    directory listing, the XML parser applied to a file, the helpers of
    [utils] and [bill_info], the subprocess call and the clock. *)
Record Env : Type := {
  data_dir : string;
  glob : string -> list string;
  maxint : Z;
  parse : string -> exn + Xml.element;
  fetch_committee_names :
    option string -> gmap string optval -> gmap string string -> gmap string string;
  latest_status : list value -> value * value;
  history_from_actions : list value -> value;
  slip_law_from : list value -> value;
  current_title_for : list value -> string -> value;
  split_bill_version_id : string -> exn + (string * string * string * string);
  check_output : list (option string) -> exn + string;
  time_time : nat -> Z;
}.

(** The state threaded through a run.  [law_congress] and [plaintext] are
    local variables of [proc_statute]: they keep their value from one
    iteration of the item loop to the next; [law_congress = None] says
    that the variable has not been assigned yet. *)
Record state : Type := {
  trace : list event;
  written : list output;
  invoked : list (list (option string));
  committee_names : gmap string string;
  law_congress : option string;
  plaintext : optval;
}.

Definition add_event (e : event) (s : state) : state :=
  {| trace := trace s ++ [e]; written := written s; invoked := invoked s;
     committee_names := committee_names s; law_congress := law_congress s;
     plaintext := plaintext s |}.

Definition add_output (o : output) (s : state) : state :=
  {| trace := trace s; written := written s ++ [o]; invoked := invoked s;
     committee_names := committee_names s; law_congress := law_congress s;
     plaintext := plaintext s |}.

Definition add_call (c : list (option string)) (s : state) : state :=
  {| trace := trace s; written := written s; invoked := invoked s ++ [c];
     committee_names := committee_names s; law_congress := law_congress s;
     plaintext := plaintext s |}.

Definition set_committee_names (m : gmap string string) (s : state) : state :=
  {| trace := trace s; written := written s; invoked := invoked s;
     committee_names := m; law_congress := law_congress s;
     plaintext := plaintext s |}.

Definition set_law_congress (c : option string) (s : state) : state :=
  {| trace := trace s; written := written s; invoked := invoked s;
     committee_names := committee_names s; law_congress := c;
     plaintext := plaintext s |}.

Definition set_plaintext (p : optval) (s : state) : state :=
  {| trace := trace s; written := written s; invoked := invoked s;
     committee_names := committee_names s; law_congress := law_congress s;
     plaintext := p |}.

(** ** The monad: state, exceptions and the loop's [continue] *)

Inductive result (A : Type) : Type :=
| Ret (a : A)
| Continue
| Raise (e : exn).
Arguments Ret {A} a.
Arguments Continue {A}.
Arguments Raise {A} e.

Definition M (A : Type) : Type := state -> result A * state.

Definition ret {A} (a : A) : M A := fun s => (Ret a, s).

Definition bind {A B} (m : M A) (k : A -> M B) : M B :=
  fun s =>
    match m s with
    | (Ret a, s') => k a s'
    | (Continue, s') => (Continue, s')
    | (Raise e, s') => (Raise e, s')
    end.

Notation "'let*' x ':=' m 'in' k" := (bind m (fun x => k))
  (at level 10, x pattern, m at level 100, k at level 200).
Notation "m ';;;' k" := (bind m (fun _ => k))
  (at level 100, k at level 200, right associativity).

Definition raise {A} (e : exn) : M A := fun s => (Raise e, s).
Definition continue {A} : M A := fun s => (Continue, s).
Definition gets {A} (f : state -> A) : M A := fun s => (Ret (f s), s).
Definition modify (f : state -> state) : M unit := fun s => (Ret tt, f s).

Definition logging_error (msg : string) : M unit := modify (add_event (LogError msg)).
Definition logging_warn (msg : string) : M unit := modify (add_event (LogWarn msg)).
Definition print (msg : string) : M unit := modify (add_event (Printed msg)).

(** An exception-or-value of the environment, lifted. *)
Definition lift {A} (r : exn + A) : M A :=
  match r with
  | inl e => raise e
  | inr a => ret a
  end.

(** [for x in xs: body]: a [continue] of the body ends the iteration, an
    exception ends the loop. *)
Fixpoint for_each {A} (xs : list A) (body : A -> M unit) : M unit :=
  match xs with
  | [] => ret tt
  | x :: xs' =>
      fun s =>
        match body x s with
        | (Raise e, s') => (Raise e, s')
        | (_, s') => for_each xs' body s'
        end
  end.

(** [try: m / except OSError: handler]. *)
Definition try_except_OSError {A} (m : M A) (handler : M A) : M A :=
  fun s =>
    match m s with
    | (Raise (OSError _), s') => handler s'
    | r => r
    end.

(** ** [tasks/statutes.py] *)

Import Xml.

Definition ext (t : string) : list step := [Tag "mods:extension"; Tag t].

(** [x in l] for a value that is a string or [None] and a list of strings. *)
Definition member (x : option string) (l : list string) : bool :=
  match x with
  | Some s => existsb (String.eqb s) l
  | None => false
  end.

(** [x == s] for a value that is a string or [None]. *)
Definition is_str (x : option string) (s : string) : bool :=
  match x with
  | Some s' => String.eqb s' s
  | None => false
  end.

(** [e == s] for an element [e] and a string [s].  The element class
    defines no comparison of its own, so [==] between an element and a
    string is Python's default comparison by identity: false, whatever
    the element's text is. *)
Definition element_eq_str (e : element) (s : string) : bool := false.

(** The dictionary [chambers] of the committee block. *)
Definition chambers (code : string) : option string :=
  if String.eqb code "H" then Some "House"
  else if String.eqb code "S" then Some "Senate"
  else if String.eqb code "J" then Some "Joint"
  else None.

(** The dictionary [other_chamber] of the vote action. *)
Definition other_chamber (origin : option string) : option string :=
  match origin with
  | Some o =>
      if String.eqb o "HOUSE" then Some "s"
      else if String.eqb o "SENATE" then Some "h"
      else None
  | None => None
  end.

(** The fields read at the top of the loop body. *)
Record header : Type := {
  titles : list value;
  title : string;
  subject : option string;
  granule_class : option string;
  access_id : option string;
  granule_date : option string;
}.

(** The bill reference of an item. *)
Record bill_ref : Type := {
  bill_congress : string;
  bill_type : string;
  bill_number : string;
  bill_id : string;
}.

(** [bill.find(p).text]: [AttributeError] when nothing matches. *)
Definition find_text (e : element) (p : list step) : M (option string) :=
  match find e p with
  | Some x => ret (text x)
  | None => raise AttributeError
  end.

(** [e.attrib[k]]. *)
Definition attr (e : element) (k : string) : M string :=
  match get_attr k e with
  | Some v => ret v
  | None => raise KeyError
  end.

(** [dict[k]] for a dictionary given as a partial function. *)
Definition subscript {A} (x : option A) : M A :=
  match x with
  | Some a => ret a
  | None => raise KeyError
  end.

Definition classes : list string :=
  ["PUBLICLAW"; "PRIVATELAW"; "HCONRES"; "SCONRES"; "CONSTAMEND"].

Definition resolution_classes : list string :=
  ["HCONRES"; "SCONRES"; "CONSTAMEND"].

(** Lines 113-132: title, subject, class, access id and date. *)
Definition read_item (bill : element) : M header :=
  let* t := find_text bill [Tag "mods:titleInfo"; Tag "mods:title"] in
  let* title :=
    match t with
    | Some s => ret (Py.replace_dquotes s)
    | None => raise AttributeError
    end in
  let titles :=
    [VDict [("title", VStr title); ("as", VStr "enacted"); ("type", VStr "official")]] in
  let subject :=
    match find bill (ext "mods:descriptor") with
    | Some descriptor => text descriptor
    | None => None
    end in
  let* granule_class := find_text bill (ext "mods:granuleClass") in
  let* access_id := find_text bill (ext "mods:accessId") in
  let* granule_date := find_text bill (ext "mods:granuleDate") in
  ret {| titles := titles; title := title; subject := subject;
         granule_class := granule_class; access_id := access_id;
         granule_date := granule_date |}.

(** Lines 134-145: the class filter and the amendment filter. *)
Definition classify (bill : element) (h : header) : M unit :=
  if negb (member (granule_class h) classes) then continue
  else if is_str (granule_class h) "CONSTAMEND" then
    let is_proposed_amendment := find bill (ext "mods:isProposedAmendment") in
    if match is_proposed_amendment with
       | None => true
       | Some e => element_eq_str e "false"
       end
    then logging_error ("Ratified: " ++ title h) ;;; continue
    else ret tt
  else ret tt.

(** Lines 147-162: the committee list. *)
Definition read_committees (bill : element) : M (list value) :=
  match find bill (ext "mods:congCommittee") with
  | None => ret []
  | Some cong_committee =>
      let* code := attr cong_committee "chamber" in
      let* chamber := subscript (chambers code) in
      let* name := find_text cong_committee [Tag "mods:name"] in
      let* committee :=
        match name with
        | Some n => ret (chamber ++ " " ++ n)
        | None => raise TypeError
        end in
      let* names := gets committee_names in
      ret [VDict [("committee", VStr committee);
                  ("activity", VList []);
                  ("committee_id", of_text (names !! committee))]]
  end.

(** Lines 164-176: the bill reference. *)
Definition read_bill_reference (bill : element) (h : header) : M bill_ref :=
  match findall bill (ext "mods:bill") with
  | [] =>
      logging_error ("Could not get bill data for " ++ Py.fmt (access_id h)
                     ++ ": " ++ title h) ;;;
      continue
  | b0 :: more =>
      (match more with
       | _ :: _ =>
           logging_error ("Multiple bills associated with " ++ Py.fmt (access_id h))
       | [] => ret tt
       end) ;;;
      let* bill_congress := attr b0 "congress" in
      let* type := attr b0 "type" in
      let bill_type := Py.lower type in
      let* bill_number := attr b0 "number" in
      ret {| bill_congress := bill_congress; bill_type := bill_type;
             bill_number := bill_number;
             bill_id := bill_type ++ bill_number ++ "-" ++ bill_congress |}
  end.

(** Lines 178-191: the source list. *)
Definition read_sources (package_id : option string) (bill : element) (h : header)
  : M (list value) :=
  let* source_url :=
    find_text bill [Tag "mods:location";
                    TagAttr "mods:url" "displayLabel" "Content Detail"] in
  let* volume := find_text bill (ext "mods:volume") in
  let* page :=
    find_text bill [TagAttr "mods:part" "type" "article";
                    TagAttr "mods:extent" "unit" "pages"; Tag "mods:start"] in
  let* position := find_text bill (ext "mods:pagePosition") in
  ret [VDict [("source", VStr "statutes");
              ("package_id", of_text package_id);
              ("access_id", of_text (access_id h));
              ("source_url", of_text source_url);
              ("volume", of_text volume);
              ("page", of_text page);
              ("position", of_text position)]].

(** Lines 199-210: the vote action of a resolution or amendment. *)
Definition vote_action (h : header) (where_ : string) : value :=
  VDict [("type", VStr "vote");
         ("vote_type", VStr "vote2");
         ("where", VStr where_);
         ("result", VStr "pass");
         ("how", VStr "unknown");
         ("acted_at", of_text (granule_date h));
         ("status", VStr (if is_str (granule_class h) "CONSTAMEND"
                          then "PASSED:CONSTAMEND"
                          else "PASSED:CONCURRENTRES"));
         ("references", VList [])].

(** Lines 222-232: the action of an enacted law. *)
Definition enacted_action (h : header) (law_congress law_number law_type : string)
  : value :=
  VDict [("congress", VStr law_congress);
         ("number", VStr law_number);
         ("type", VStr "enacted");
         ("law", VStr law_type);
         ("text", VStr ("Became " ++ Py.capitalize law_type ++ " Law No: "
                        ++ law_congress ++ "-" ++ law_number ++ "."));
         ("acted_at", of_text (granule_date h));
         ("status", VStr "ENACTED:SIGNED");
         ("references", VList [])].

(** Line 220. *)
Definition law_type_of (is_private : string) : string :=
  if String.eqb is_private "true" then "private" else "public".

(** Lines 193-232: the action.  The law branch assigns [law_congress];
    the vote branch leaves it as it was. *)
Definition derive_action (bill : element) (h : header) (b : bill_ref) : M value :=
  match findall bill (ext "mods:law") with
  | [] =>
      if member (granule_class h) resolution_classes then
        let* origin := find_text bill (ext "mods:originChamber") in
        let* where_ := subscript (other_chamber origin) in
        ret (vote_action h where_)
      else
        logging_error ("Could not get law data for " ++ bill_id b ++ ": " ++ title h) ;;;
        continue
  | l0 :: more =>
      (match more with
       | _ :: _ => logging_error ("Multiple laws associated with " ++ bill_id b)
       | [] => ret tt
       end) ;;;
      let* law_congress := attr l0 "congress" in
      modify (set_law_congress (Some law_congress)) ;;;
      let* law_number := attr l0 "number" in
      let* is_private := attr l0 "isPrivate" in
      let law_type := law_type_of is_private in
      ret (enacted_action h law_congress law_number law_type)
  end.

(** [sorted(l)] on strings: insertion sort by byte-wise order. *)
Fixpoint insert_sorted (x : string) (l : list string) : list string :=
  match l with
  | [] => [x]
  | y :: l' => if String.leb x y then x :: l else y :: insert_sorted x l'
  end.

Definition sorted (l : list string) : list string :=
  fold_right insert_sorted [] l.

(** The paths of the volume's congress and package id (lines 105, 110). *)
Definition volume_congress : list step :=
  [TagPos "mods:extension" 2; Tag "mods:congress"].
Definition volume_access_id : list step :=
  [TagPos "mods:extension" 2; Tag "mods:accessId"].

Section WithEnv.

Context (E : Env).

(** Lines 93-95.  [utils.split_bill_version_id] and [utils.data_dir]
    come from the environment. *)
Definition plaintext_output_for (bill_version_id : string) : M string :=
  let* (bill_type, number, congress, version_code) :=
    lift (split_bill_version_id E bill_version_id) in
  ret (data_dir E ++ "/" ++ congress ++ "/bills/" ++ bill_type ++ "/"
       ++ bill_type ++ number ++ "/text-versions/" ++ version_code
       ++ "/document.txt").

(** [subprocess.check_output(args)]: the invocation is recorded, its
    outcome is the environment's. *)
Definition subprocess_check_output (args : list (option string)) : M string :=
  modify (add_call args) ;;;
  lift (check_output E args).

(** Lines 68-84.  After a [CalledProcessError] the handler prints and
    falls through to [return plaintext], a variable that the failed
    assignment never bound. *)
Definition output_bill_plaintext (bill_version_id : string)
    (bill_pdf_url : option string) : M string :=
  fun s =>
    match (let* out := plaintext_output_for bill_version_id in
           subprocess_check_output [Some "pdftotext"; bill_pdf_url; Some out]) s with
    | (Raise (OSError errno), s') =>
        ((if errno =? 2 then logging_error "pdftotext not available" else ret tt) ;;;
         raise (OSError errno)) s'
    | (Raise (CalledProcessError msg), s') =>
        (print msg ;;; raise UnboundLocalError) s'
    | (Ret _, s') => (Ret EmptyString, s')
    | r => r
    end.

(** Lines 243-274: the dictionary [bill_data]. *)
Definition bill_data_of (h : header) (committees : list value) (b : bill_ref)
    (sources actions : list value) (status status_date : value) (tick : nat)
  : value :=
  VDict [("bill_id", VStr (bill_id b));
         ("bill_type", VStr (bill_type b));
         ("number", VStr (bill_number b));
         ("congress", VStr (bill_congress b));
         ("introduced_at", VNone);
         ("sponsor", VNone);
         ("cosponsors", VList []);
         ("actions", VList actions);
         ("history", history_from_actions E actions);
         ("status", status);
         ("status_at", status_date);
         ("enacted_as", slip_law_from E actions);
         ("titles", VList (titles h));
         ("official_title", current_title_for E (titles h) "official");
         ("short_title", current_title_for E (titles h) "short");
         ("popular_title", current_title_for E (titles h) "popular");
         ("subjects_top_term", of_text (subject h));
         ("subjects", VList []);
         ("related_bills", VList []);
         ("committees", VList committees);
         ("amendments", VList []);
         ("sources", VList sources);
         ("updated_at", VTime (time_time E tick))].

(** Line 280: the version id. *)
Definition bill_version_id_of (b : bill_ref) (version_code : string) : string :=
  bill_type b ++ bill_number b ++ "-" ++ bill_congress b ++ "-" ++ version_code.

(** Lines 282-287: the dictionary [bill_version]. *)
Definition bill_version_of (bill_version_id version_code : string)
    (status_date : value) (bill_pdf_url : option string) : value :=
  VDict [("bill_version_id", VStr bill_version_id);
         ("version_code", VStr version_code);
         ("issued_on", status_date);
         ("urls", VDict [("pdf", of_text bill_pdf_url)])].

Definition pdf_rendition : list step :=
  [Tag "mods:location"; TagAttr "mods:url" "displayLabel" "PDF rendition"].

(** Lines 234-301: the congress check, the bill record, the version
    stub and the optional plaintext. *)
Definition output_item (bill : element) (h : header) (committees : list value)
    (b : bill_ref) (sources : list value) (action : value) : M unit :=
  let actions := [action] in
  let* bound := gets law_congress in
  match bound with
  | None => raise UnboundLocalError
  | Some law_congress =>
      if negb (String.eqb law_congress (bill_congress b)) then
        logging_error ("Congress mismatch for " ++ bill_type b ++ bill_number b
                       ++ ": " ++ bill_congress b ++ " or " ++ law_congress ++ "?") ;;;
        continue
      else
        let status := fst (latest_status E actions) in
        let status_date := snd (latest_status E actions) in
        let* tick := gets (fun s => length (written s)) in
        let bill_data :=
          bill_data_of h committees b sources actions status status_date tick in
        modify (add_output (BillRecord bill_data)) ;;;
        let version_code := "enr" in
        let bill_version_id := bill_version_id_of b version_code in
        let* bill_pdf_url := find_text bill pdf_rendition in
        let bill_version :=
          bill_version_of bill_version_id version_code status_date bill_pdf_url in
        modify (add_output (BillVersion bill_version_id bill_version)) ;;;
        let* requested := gets plaintext in
        if truthy requested then
          try_except_OSError
            (output_bill_plaintext bill_version_id bill_pdf_url ;;; ret tt)
            (modify (set_plaintext (OBool false)))
        else ret tt
  end.

(** The body of the loop of [proc_statute], lines 113-301. *)
Definition proc_item (package_id : option string) (bill : element) : M unit :=
  let* h := read_item bill in
  classify bill h ;;;
  let* committees := read_committees bill in
  let* b := read_bill_reference bill h in
  let* sources := read_sources package_id bill h in
  let* action := derive_action bill h b in
  output_item bill h committees b sources action.

(** Lines 97-303.  A call starts with fresh locals: [law_congress]
    unbound and [plaintext] read from the options. *)
Definition proc_statute (path : string) (options : gmap string optval) : M value :=
  modify (set_law_congress None) ;;;
  let* mods := lift (parse E (path ++ "/mods.xml")) in
  modify (set_plaintext (default (OBool false) (options !! "plaintext"))) ;;;
  let* congress := find_text mods volume_congress in
  modify (fun s => set_committee_names
                     (fetch_committee_names E congress options (committee_names s)) s) ;;;
  logging_warn ("Processing " ++ path ++ " (Congress " ++ Py.fmt congress ++ ")") ;;;
  let* package_id := find_text mods volume_access_id in
  for_each (findall mods [Tag "mods:relatedItem"]) (proc_item package_id) ;;;
  ret (VDict [("ok", VBool true); ("saved", VBool true)]).

(** Modelled from the spec: [utils.process_set] is not among the
    sources.  The Batch Processor invokes the per-batch function on
    each batch in order, catches and logs any per-batch failure without
    aborting the remaining batches, and returns the count of attempted
    and of succeeded batches. *)
Fixpoint process_set (to_fetch : list string) (fetch_func : string -> M value)
  : M (nat * nat) :=
  match to_fetch with
  | [] => ret (O, O)
  | id :: rest =>
      fun s =>
        match fetch_func id s with
        | (Raise e, s') =>
            (let* (attempted, ok) := process_set rest fetch_func in
             ret (S attempted, ok)) (add_event (BatchFailure id e) s')
        | (_, s') =>
            (let* (attempted, ok) := process_set rest fetch_func in
             ret (S attempted, S ok)) s'
        end
  end.

(** [int(v)] for an option value. *)
Definition int_of (v : optval) : M Z :=
  match v with
  | OBool b => ret (if b then 1 else 0)
  | OStr s => match Py.int s with
              | Some n => ret n
              | None => raise ValueError
              end
  end.

(** [xrange(start, stop)]: both bounds and the length must fit a
    machine integer. *)
Definition fits (n : Z) : bool := (- maxint E - 1 <=? n) && (n <=? maxint E).

Definition xrange (start stop : Z) : M (list Z) :=
  if fits start && fits stop && (stop - start <=? maxint E)
  then ret (map (fun i => start + Z.of_nat i) (seq 0 (Z.to_nat (stop - start))))
  else raise OverflowError.

(** [start, end = v.split("-")] followed by
    [xrange(int(start), int(end)+1)]. *)
Definition range_of (v : optval) : M (list Z) :=
  let* parts :=
    match v with
    | OStr s => ret (Py.split "-" s)
    | OBool _ => raise AttributeError
    end in
  let* (start, end_) :=
    match parts with
    | [a; b] => ret (a, b)
    | _ => raise ValueError
    end in
  let* lo := int_of (OStr start) in
  let* hi := int_of (OStr end_) in
  xrange lo (hi + 1).

Definition root_dir : string := data_dir E ++ "/fdsys/STATUTE".

Definition volume_pattern (v : Z) : string :=
  root_dir ++ "/*/STATUTE-" ++ Py.str v.

Definition year_pattern (y : Z) : string :=
  root_dir ++ "/" ++ Py.str y ++ "/STATUTE-*".

(** Lines 45-62: the batches selected by the options. *)
Definition to_fetch (options : gmap string optval) : M (list string) :=
  match options !! "volume" with
  | Some v =>
      let* n := int_of v in
      ret (glob E (volume_pattern n))
  | None =>
  match options !! "volumes" with
  | Some v =>
      let* r := range_of v in
      ret (flat_map (fun v => glob E (volume_pattern v)) r)
  | None =>
  match options !! "year" with
  | Some v =>
      let* n := int_of v in
      ret (glob E (year_pattern n))
  | None =>
  match options !! "years" with
  | Some v =>
      let* r := range_of v in
      ret (flat_map (fun y => glob E (year_pattern y)) r)
  | None =>
      ret (sorted (glob E (root_dir ++ "/*/STATUTE-*")))
  end end end end.

(** Lines 44-66.  The counts of the batch processor are dropped: [run]
    returns nothing. *)
Definition run (options : gmap string optval) : M unit :=
  let* selected := to_fetch options in
  logging_warn ("Going to process " ++ Py.str (Z.of_nat (length selected))
                ++ " volumes") ;;;
  process_set selected (fun path => proc_statute path options) ;;;
  ret tt.

End WithEnv.

(** ** A small environment and sample documents *)

Module Demo.

(** A wildcard match in the style of [glob]: a star stands for any run
    of characters other than the path separator. *)
Fixpoint wildcard (p : string) : string -> bool :=
  match p with
  | EmptyString => fun s => match s with EmptyString => true | _ => false end
  | String c p' =>
      if Ascii.eqb c "*" then
        fix star (s : string) : bool :=
          wildcard p' s
          || match s with
             | String d s' => negb (Ascii.eqb d "/") && star s'
             | EmptyString => false
             end
      else
        fun s => match s with
                 | String d s' => Ascii.eqb c d && wildcard p' s'
                 | EmptyString => false
                 end
  end.

(** The volume directories on disk. *)
Definition disk : list string :=
  ["data/fdsys/STATUTE/1951/STATUTE-65";
   "data/fdsys/STATUTE/1952/STATUTE-66";
   "data/fdsys/STATUTE/1953/STATUTE-67"].

Definition el (t x : string) : element := Element t [] (Some x) [].

Definition url (label x : string) : element :=
  Element "mods:url" [("displayLabel", label)] (Some x) [].

(** An embedded item of class [cls]; [more] is appended to its
    extension block. *)
Definition item (cls title : string) (more : list element) : element :=
  Element "mods:relatedItem" [] None
    [Element "mods:titleInfo" [] None [el "mods:title" title];
     Element "mods:extension" [] None
       ([el "mods:granuleClass" cls;
         el "mods:accessId" "STATUTE-66-Pg3";
         el "mods:granuleDate" "1952-01-02";
         el "mods:volume" "66";
         el "mods:pagePosition" "1"] ++ more);
     Element "mods:location" [] None
       [url "Content Detail" "http://www.gpo.gov/fdsys/granule/STATUTE-66/STATUTE-66-Pg3";
        url "PDF rendition" "http://www.gpo.gov/fdsys/pkg/STATUTE-66/pdf/STATUTE-66-Pg3.pdf"];
     Element "mods:part" [("type", "article")] None
       [Element "mods:extent" [("unit", "pages")] None [el "mods:start" "3"]]].

Definition bill_el (congress type number : string) : element :=
  Element "mods:bill"
    [("congress", congress); ("type", type); ("number", number)] None [].

Definition law_el (congress number is_private : string) : element :=
  Element "mods:law"
    [("congress", congress); ("number", number); ("isPrivate", is_private)] None [].

Definition document (congress : string) (items : list element) : element :=
  Element "mods:mods" [] None
    ([Element "mods:extension" [] None [];
      Element "mods:extension" [] None
        [el "mods:congress" congress; el "mods:accessId" "STATUTE-66"]]
     ++ items).

Definition public_law : element :=
  item "PUBLICLAW" "An Act To amend the Act."
    [bill_el "82" "hr" "1"; law_el "82" "100" "false"].

Definition front_matter : element := item "FRONTMATTER" "Title page" [].

Definition two_bills_mismatch : element :=
  item "PUBLICLAW" "An Act With a typo in its metadata."
    [bill_el "82" "HR" "2"; bill_el "82" "S" "3"; law_el "83" "101" "false"].

Definition senate_resolution : element :=
  item "SCONRES" "Concurrent resolution."
    [bill_el "82" "SCONRES" "7"; el "mods:originChamber" "SENATE"].

Definition ratification_notice : element :=
  item "CONSTAMEND" "Amendment to the Constitution."
    [el "mods:isProposedAmendment" "false"; bill_el "82" "SJRES" "5";
     el "mods:originChamber" "SENATE"].

Definition private_law : element :=
  item "PRIVATELAW" "An Act For the relief of a claimant."
    [bill_el "82" "S" "20"; law_el "82" "5" "true"].

Definition no_bill : element := item "PUBLICLAW" "An Act Without a bill." [].

(** What the stages read from an [item]. *)
Definition header_of (cls title : string) : header :=
  {| titles := [VDict [("title", VStr title); ("as", VStr "enacted");
                       ("type", VStr "official")]];
     title := title; subject := None; granule_class := Some cls;
     access_id := Some "STATUTE-66-Pg3"; granule_date := Some "1952-01-02" |}.

Definition ref (congress type number : string) : bill_ref :=
  {| bill_congress := congress; bill_type := Py.lower type; bill_number := number;
     bill_id := Py.lower type ++ number ++ "-" ++ congress |}.

Definition sources : list value :=
  [VDict [("source", VStr "statutes");
          ("package_id", VStr "STATUTE-66");
          ("access_id", VStr "STATUTE-66-Pg3");
          ("source_url",
           VStr "http://www.gpo.gov/fdsys/granule/STATUTE-66/STATUTE-66-Pg3");
          ("volume", VStr "66");
          ("page", VStr "3");
          ("position", VStr "1")]].

(** Status and date of the last action that has a status. *)
Definition last_status (actions : list value) : value * value :=
  fold_left
    (fun acc a =>
       match get "status" a with
       | Some st => (st, default VNone (get "acted_at" a))
       | None => acc
       end)
    actions (VNone, VNone).

Definition letters_then_digits (s : string) : string * string :=
  (fix go (acc s : string) : string * string :=
     match s with
     | String c s' =>
         if Py.is_lower c then go (acc ++ String c EmptyString) s' else (acc, s)
     | EmptyString => (acc, EmptyString)
     end) EmptyString s.

Definition split_id (id : string) : exn + (string * string * string * string) :=
  match Py.split "-" id with
  | [tn; congress; version_code] =>
      let (t, n) := letters_then_digits tn in
      inr (t, n, congress, version_code)
  | _ => inl AttributeError
  end.

(** The documents found under each volume directory. *)
Definition documents (path : string) : exn + element :=
  if String.eqb path "data/fdsys/STATUTE/1951/STATUTE-65/mods.xml"
  then inr (document "82" [front_matter; public_law])
  else if String.eqb path "data/fdsys/STATUTE/1952/STATUTE-66/mods.xml"
  then inr (document "82" [private_law; ratification_notice])
  else if String.eqb path "data/fdsys/STATUTE/1953/STATUTE-67/mods.xml"
  then inr (document "82" [senate_resolution; public_law])
  else inl (OtherError "cannot read the file").

(** An environment whose text-extraction tool answers [tool]. *)
Definition env (tool : list (option string) -> exn + string) : Env :=
  {| data_dir := "data";
     glob := fun p => List.filter (wildcard p) disk;
     maxint := 2 ^ 63 - 1;
     parse := documents;
     fetch_committee_names := fun _ _ names => names;
     latest_status := last_status;
     history_from_actions := fun _ => VDict [];
     slip_law_from := fun _ => VNone;
     current_title_for := fun _ _ => VNone;
     split_bill_version_id := split_id;
     check_output := tool;
     time_time := fun _ => 0 |}.

Definition tool_missing (args : list (option string)) : exn + string :=
  inl (OSError 2).

Definition tool_present (args : list (option string)) : exn + string :=
  inr EmptyString.

Definition start : state :=
  {| trace := []; written := []; invoked := [];
     committee_names := ∅; law_congress := None; plaintext := OBool false |}.

Definition law_without_law : element :=
  item "PRIVATELAW" "An Act Whose law number is missing." [bill_el "82" "HR" "9"].

Definition E : Env := env tool_present.
Definition E_missing : Env := env tool_missing.
Definition pid : option string := Some "STATUTE-66".
Definition volume_65 : string := "data/fdsys/STATUTE/1951/STATUTE-65".
Definition volume_66 : string := "data/fdsys/STATUTE/1952/STATUTE-66".
Definition volume_67 : string := "data/fdsys/STATUTE/1953/STATUTE-67".

End Demo.

(** ** Statements about one item *)

(** The item passes the class filter, the amendment filter and the
    committee block: it reaches the bill reference (line 164). *)
Definition reaches_bill_reference (bill : element) (st : state)
    (h : header) (committees : list value) : Prop :=
  read_item bill st = (Ret h, st)
  /\ classify bill h st = (Ret tt, st)
  /\ read_committees bill st = (Ret committees, st).

(** The item reaches the law sub-records (line 193) with bill reference
    [b], in state [st1]. *)
Definition reaches_action (package_id : option string) (bill : element) (st : state)
    (h : header) (committees : list value) (b : bill_ref) (sources : list value)
    (st1 : state) : Prop :=
  reaches_bill_reference bill st h committees
  /\ read_bill_reference bill h st = (Ret b, st1)
  /\ read_sources package_id bill h st1 = (Ret sources, st1).

(** The line logged when a list of sub-records has more than one
    element. *)
Definition anomaly (l : list element) (msg : string) : list event :=
  match l with
  | _ :: _ :: _ => [LogError msg]
  | _ => []
  end.

(** The number of error lines in a trace. *)
Definition errors (t : list event) : nat := length (List.filter is_error t).

(** The number of bill records among the outputs. *)
Definition bill_records (w : list output) : nat :=
  length (List.filter is_bill_record w).

(** The record and the stub written for an item. *)
Definition record_of (E : Env) (h : header) (cs : list value) (b : bill_ref)
    (srcs : list value) (action : value) (s : state) : output :=
  BillRecord (bill_data_of E h cs b srcs [action]
                (fst (latest_status E [action])) (snd (latest_status E [action]))
                (length (written s))).

Definition stub_of (E : Env) (b : bill_ref) (action : value) (u : element) : output :=
  BillVersion (bill_version_id_of b "enr")
    (bill_version_of (bill_version_id_of b "enr") "enr"
       (snd (latest_status E [action])) (text u)).

(** A computation that only reads: it answers without touching the
    state, and its answer does not depend on the state. *)
Definition pure {A} (m : M A) : Prop :=
  exists r, forall s, m s = (r, s).

(** [keeps f m]: whatever [m] answers, the component [f] of the state is
    as it was. *)
Definition keeps {A B} (f : state -> B) (m : M A) : Prop :=
  forall s r s', m s = (r, s') -> f s' = f s.

(** C1 as the claim words it: a congress mismatch between the law and
    the bill reference skips the item, writes nothing and logs exactly
    one error. *)
Definition mismatch_logs_one_error (E : Env) (pid : option string)
    (bill : element) (st : state) : Prop :=
  forall h cs b srcs st1 l0 more lc ln lp,
    reaches_action pid bill st h cs b srcs st1 ->
    findall bill (ext "mods:law") = l0 :: more ->
    get_attr "congress" l0 = Some lc ->
    get_attr "number" l0 = Some ln ->
    get_attr "isPrivate" l0 = Some lp ->
    lc <> bill_congress b ->
    exists st',
      proc_item E pid bill st = (Continue, st')
      /\ written st' = written st
      /\ errors (trace st') = S (errors (trace st)).

(** The state in which [proc_statute] enters its loop: the locals are
    fresh, the committee names are fetched and the volume is announced. *)
Definition loop_entry (E : Env) (path : string) (options : gmap string optval)
    (congress : option string) (st : state) : state :=
  add_event (LogWarn ("Processing " ++ path ++ " (Congress " ++ Py.fmt congress ++ ")"))
    (set_committee_names
       (fetch_committee_names E congress options (committee_names st))
       (set_plaintext (default (OBool false) (options !! "plaintext"))
          (set_law_congress None st))).

(** A component of the state that logging does not touch. *)
Definition unlogged {B} (f : state -> B) : Prop :=
  forall e s, f (add_event e s) = f s.

(** C8 as the claim words it: with the tool missing, plaintext
    extraction is switched off for the rest of the whole run, so a run
    invokes the tool at most once. *)
Definition degrades_for_the_run (E : Env) (options : gmap string optval)
    (st : state) : Prop :=
  (forall args, check_output E args = inl (OSError 2)) ->
  forall r st',
    run E options st = (r, st') ->
    (length (invoked st') <= S (length (invoked st)))%nat.

(** The stub that goes with a record: its version id is the record's
    bill id followed by the version code [enr]. *)
Definition stub_for (bd : value) (o : output) : Prop :=
  exists bid v,
    get "bill_id" bd = Some (VStr bid)
    /\ o = BillVersion (bid ++ "-enr") v
    /\ get "bill_version_id" v = Some (VStr (bid ++ "-enr"))
    /\ get "issued_on" v = get "status_at" bd.


(** What one item may add to the outputs, by the way the item ends. *)
Definition item_outputs (r : result unit) (new : list output) : Prop :=
  match r with
  | Continue => new = []
  | Ret _ => exists bd o, new = [BillRecord bd; o] /\ stub_for bd o
  | Raise _ =>
      new = []
      \/ (exists bd, new = [BillRecord bd])
      \/ (exists bd o, new = [BillRecord bd; o] /\ stub_for bd o)
  end.

(** The status codes the script gives to an action. *)
Definition statuses : list string :=
  ["ENACTED:SIGNED"; "PASSED:CONSTAMEND"; "PASSED:CONCURRENTRES"].

(** No double quote at all. *)
Fixpoint no_quote (s : string) : bool :=
  match s with
  | EmptyString => true
  | String a s' => negb (Ascii.eqb a Py.dquote) && no_quote s'
  end.

(** No two double quotes in a row. *)
Fixpoint no_doubled_quotes (s : string) : bool :=
  match s with
  | EmptyString => true
  | String a s' =>
      match s' with
      | EmptyString => true
      | String b _ =>
          negb (Ascii.eqb a Py.dquote && Ascii.eqb b Py.dquote) && no_doubled_quotes s'
      end
  end.

(** The first Bill Record of a list of outputs. *)
Definition first_record (w : list output) : value :=
  match List.filter is_bill_record w with
  | BillRecord bd :: _ => bd
  | _ => VNone
  end.

(** The item reaches the plaintext step (line 294) with plaintext
    requested: every stage answered, the congress check passed, the PDF
    rendition is there and the version id splits; [s2] is the state after
    the action stage and [args] the command line of the tool. *)
Definition reaches_plaintext (E : Env) (pid : option string) (bill : element)
    (st : state) (h : header) (cs : list value) (b : bill_ref) (srcs : list value)
    (action : value) (s2 : state) (u : element) (args : list (option string)) : Prop :=
  exists st1 ty num cong ver,
    reaches_action pid bill st h cs b srcs st1
    /\ derive_action bill h b st1 = (Ret action, s2)
    /\ law_congress s2 = Some (bill_congress b)
    /\ find bill pdf_rendition = Some u
    /\ truthy (plaintext s2) = true
    /\ split_bill_version_id E (bill_version_id_of b "enr") = inr (ty, num, cong, ver)
    /\ args = [Some "pdftotext"; text u;
               Some (data_dir E ++ "/" ++ cong ++ "/bills/" ++ ty ++ "/" ++ ty ++ num
                     ++ "/text-versions/" ++ ver ++ "/document.txt")].

(** The state when the tool has been called: record and stub written,
    the call recorded. *)
Definition after_call (E : Env) (h : header) (cs : list value) (b : bill_ref)
    (srcs : list value) (action : value) (s2 : state) (u : element)
    (args : list (option string)) : state :=
  add_call args
    (add_output (stub_of E b action u)
       (add_output (record_of E h cs b srcs action s2) s2)).

(** More sample data. *)
Module Sample.

Definition tool_failing (args : list (option string)) : exn + string :=
  inl (CalledProcessError "Command pdftotext returned non-zero exit status 1").

Definition tool_denied (args : list (option string)) : exn + string :=
  inl (OSError 13).

Definition tool_talking (args : list (option string)) : exn + string :=
  inr "some output".

Definition requested : state := set_plaintext (OBool true) Demo.start.

Definition public_law_header : header :=
  Demo.header_of "PUBLICLAW" "An Act To amend the Act.".

Definition public_law_action : value :=
  enacted_action public_law_header "82" "100" "public".

Definition pdf : element :=
  Demo.url "PDF rendition"
    "http://www.gpo.gov/fdsys/pkg/STATUTE-66/pdf/STATUTE-66-Pg3.pdf".

Definition pdftotext_hr1 : list (option string) :=
  [Some "pdftotext";
   Some "http://www.gpo.gov/fdsys/pkg/STATUTE-66/pdf/STATUTE-66-Pg3.pdf";
   Some "data/82/bills/hr/hr1/text-versions/enr/document.txt"].

Definition with_plaintext : gmap string optval := {["plaintext" := OBool true]}.

(** The state a run with the tool missing is in after volume 65. *)
Definition after_volume_65 : state :=
  snd (proc_statute Demo.E_missing Demo.volume_65 with_plaintext Demo.start).

Definition pdftotext_s20 : list (option string) :=
  [Some "pdftotext";
   Some "http://www.gpo.gov/fdsys/pkg/STATUTE-66/pdf/STATUTE-66-Pg3.pdf";
   Some "data/82/bills/s/s20/text-versions/enr/document.txt"].

(** A law item whose location block has no PDF rendition. *)
Definition law_without_pdf : element :=
  Element "mods:relatedItem" [] None
    [Element "mods:titleInfo" [] None [Demo.el "mods:title" "An Act Without a rendition."];
     Element "mods:extension" [] None
       [Demo.el "mods:granuleClass" "PUBLICLAW";
        Demo.el "mods:accessId" "STATUTE-66-Pg9";
        Demo.el "mods:granuleDate" "1952-01-02";
        Demo.el "mods:volume" "66";
        Demo.el "mods:pagePosition" "1";
        Demo.bill_el "82" "hr" "30";
        Demo.law_el "82" "31" "false"];
     Element "mods:location" [] None
       [Demo.url "Content Detail"
          "http://www.gpo.gov/fdsys/granule/STATUTE-66/STATUTE-66-Pg9"];
     Element "mods:part" [("type", "article")] None
       [Element "mods:extent" [("unit", "pages")] None [Demo.el "mods:start" "9"]]].

(** A title as the document escapes it, with doubled double quotes
    around one word, and the same title unescaped. *)
Definition escaped_title : string :=
  "An Act To name the "
  ++ String Py.dquote (String Py.dquote
       ("Capitol" ++ String Py.dquote (String Py.dquote " building."))).

Definition unescaped_title : string :=
  "An Act To name the "
  ++ String Py.dquote ("Capitol" ++ String Py.dquote " building.").

Definition quoted : element :=
  Demo.item "PUBLICLAW" escaped_title
    [Demo.bill_el "82" "hr" "40"; Demo.law_el "82" "41" "false"].

Definition committee (chamber : string) : element :=
  Element "mods:congCommittee" [("chamber", chamber)] None
    [Demo.el "mods:name" "Committee on the Judiciary"].

Definition odd_committee : element :=
  Demo.item "PUBLICLAW" "An Act With an odd committee."
    [committee "X"; Demo.bill_el "82" "hr" "4"; Demo.law_el "82" "7" "false"].

Definition bill_without_number : element :=
  Demo.item "PUBLICLAW" "An Act With half a bill."
    [Element "mods:bill" [("congress", "82"); ("type", "HR")] None [];
     Demo.law_el "82" "8" "false"].

Definition untitled : element := Element "mods:relatedItem" [] None [].

Definition one_extension : element :=
  Element "mods:mods" [] None
    [Element "mods:extension" [] None
       [Demo.el "mods:congress" "82"; Demo.el "mods:accessId" "STATUTE-66"];
     Demo.public_law].

(** A volume of front matter only, next to the volumes of [Demo]. *)
Definition volume_64 : string := "data/fdsys/STATUTE/1950/STATUTE-64".

Definition documents (path : string) : exn + element :=
  if String.eqb path (volume_64 ++ "/mods.xml")
  then inr (Demo.document "81" [Demo.front_matter; Demo.front_matter])
  else if String.eqb path "data/fdsys/STATUTE/1949/STATUTE-63/mods.xml"
  then inr one_extension
  else Demo.documents path.

Definition E : Env :=
  {| data_dir := "data";
     glob := glob Demo.E;
     maxint := maxint Demo.E;
     parse := documents;
     fetch_committee_names := fetch_committee_names Demo.E;
     latest_status := latest_status Demo.E;
     history_from_actions := history_from_actions Demo.E;
     slip_law_from := slip_law_from Demo.E;
     current_title_for := current_title_for Demo.E;
     split_bill_version_id := split_bill_version_id Demo.E;
     check_output := Demo.tool_present;
     time_time := time_time Demo.E |}.

End Sample.

(** C9 as the claim words it: every Bill Record an item writes comes
    with a Bill-Version Stub written by the same item. *)
Definition record_always_with_stub (E : Env) (pid : option string)
    (bill : element) (st : state) : Prop :=
  forall new bd,
    written (snd (proc_item E pid bill st)) = (written st ++ new)%list ->
    In (BillRecord bd) new ->
    exists id v, In (BillVersion id v) new.

(** ** Proofs *)

(** *** The monad *)

Lemma bind_ret {A B} (m : M A) (k : A -> M B) (a : A) (s s' : state) :
  m s = (Ret a, s') -> bind m k s = k a s'.
Proof. intros H. unfold bind. now rewrite H. Qed.

Lemma bind_continue {A B} (m : M A) (k : A -> M B) (s s' : state) :
  m s = (Continue, s') -> bind m k s = (Continue, s').
Proof. intros H. unfold bind. now rewrite H. Qed.

Lemma bind_raise {A B} (m : M A) (k : A -> M B) (e : exn) (s s' : state) :
  m s = (Raise e, s') -> bind m k s = (Raise e, s').
Proof. intros H. unfold bind. now rewrite H. Qed.


Lemma pure_ret {A} (a : A) : pure (ret a).
Proof. now exists (Ret a). Qed.

Lemma pure_raise {A} (e : exn) : pure (@raise A e).
Proof. now exists (Raise e). Qed.

Lemma pure_bind {A B} (m : M A) (k : A -> M B) :
  pure m -> (forall a, pure (k a)) -> pure (bind m k).
Proof.
  intros [r Hr] Hk. destruct r as [a| |e].
  - destruct (Hk a) as [r' Hr']. exists r'. intros s.
    unfold bind. now rewrite Hr, Hr'.
  - exists Continue. intros s. unfold bind. now rewrite Hr.
  - exists (Raise e). intros s. unfold bind. now rewrite Hr.
Qed.

Lemma pure_find_text (e : element) (p : list step) : pure (find_text e p).
Proof. unfold find_text. destruct (find e p); [apply pure_ret | apply pure_raise]. Qed.

Lemma pure_read_item (bill : element) : pure (read_item bill).
Proof.
  unfold read_item.
  apply pure_bind; [apply pure_find_text | intros t].
  apply pure_bind; [destruct t; [apply pure_ret | apply pure_raise] | intros ttl].
  repeat (apply pure_bind; [apply pure_find_text | intros ?]).
  apply pure_ret.
Qed.

Lemma read_item_any_state (bill : element) (h : header) (s s' : state) :
  read_item bill s = (Ret h, s) -> read_item bill s' = (Ret h, s').
Proof.
  destruct (pure_read_item bill) as [r Hr]. rewrite !Hr. congruence.
Qed.

(** *** Items of other classes *)

Lemma skipped_class (E : Env) (pid : option string) (bill : element)
    (st : state) (h : header) :
  read_item bill st = (Ret h, st) ->
  member (granule_class h) classes = false ->
  proc_item E pid bill st = (Continue, st).
Proof.
  intros Hh Hc. unfold proc_item.
  rewrite (bind_ret _ _ _ _ _ Hh).
  apply bind_continue. unfold classify. now rewrite Hc.
Qed.

(** *** Frame properties: what a stage leaves alone *)


Section Keeps.

Context {B : Type} (f : state -> B).

Lemma keeps_ret {A} (a : A) : keeps f (ret a).
Proof. intros s r s' H. inversion H. reflexivity. Qed.

Lemma keeps_raise {A} (e : exn) : keeps f (@raise A e).
Proof. intros s r s' H. inversion H. reflexivity. Qed.

Lemma keeps_continue {A} : keeps f (@continue A).
Proof. intros s r s' H. inversion H. reflexivity. Qed.

Lemma keeps_gets {A} (g : state -> A) : keeps f (gets g).
Proof. intros s r s' H. inversion H. reflexivity. Qed.

Lemma keeps_modify (g : state -> state) :
  (forall s, f (g s) = f s) -> keeps f (modify g).
Proof. intros Hg s r s' H. inversion H. apply Hg. Qed.

Lemma keeps_bind {A C} (m : M A) (k : A -> M C) :
  keeps f m -> (forall a, keeps f (k a)) -> keeps f (bind m k).
Proof.
  intros Hm Hk s r s' H. unfold bind in H.
  destruct (m s) as [[a| |e] s1] eqn:Hms.
  - rewrite (Hk a _ _ _ H). eapply Hm; eassumption.
  - inversion H; subst. eapply Hm; eassumption.
  - inversion H; subst. eapply Hm; eassumption.
Qed.

End Keeps.

Ltac keeps_step :=
  first
    [ apply keeps_ret | apply keeps_raise | apply keeps_continue | apply keeps_gets
    | apply keeps_modify; intros; reflexivity
    | apply keeps_bind; [| intros ?]
    | match goal with
      | |- keeps _ (match ?x with _ => _ end) => destruct x
      end ].

Ltac keeps_tac :=
  unfold find_text, attr, subscript, lift, logging_error, logging_warn, print;
  repeat keeps_step.

(** The stages before the congress check change nothing but the trace
    and, for the law branch, [law_congress]. *)
Lemma keeps_read_item {B} (f : state -> B) bill :
  unlogged f -> keeps f (read_item bill).
Proof. intros _. unfold read_item. keeps_tac. Qed.

Lemma keeps_classify {B} (f : state -> B) bill h :
  unlogged f -> keeps f (classify bill h).
Proof. intros Hf. unfold classify. keeps_tac; try apply keeps_modify; auto. Qed.

Lemma keeps_read_committees {B} (f : state -> B) bill :
  unlogged f -> keeps f (read_committees bill).
Proof. intros _. unfold read_committees. keeps_tac. Qed.

Lemma keeps_read_bill_reference {B} (f : state -> B) bill h :
  unlogged f -> keeps f (read_bill_reference bill h).
Proof.
  intros Hf. unfold read_bill_reference. keeps_tac; try apply keeps_modify; auto.
Qed.

Lemma keeps_read_sources {B} (f : state -> B) pid bill h :
  unlogged f -> keeps f (read_sources pid bill h).
Proof. intros _. unfold read_sources. keeps_tac. Qed.

Lemma keeps_derive_action {B} (f : state -> B) bill h b :
  unlogged f ->
  (forall c s, f (set_law_congress c s) = f s) ->
  keeps f (derive_action bill h b).
Proof.
  intros Hf Hset. unfold derive_action.
  keeps_tac; try apply keeps_modify; auto.
Qed.

(** *** The output stage *)

Section Output.

Context (E : Env).

Lemma keeps_plaintext_output_for {B} (f : state -> B) id :
  keeps f (plaintext_output_for E id).
Proof.
  unfold plaintext_output_for. keeps_tac.
Qed.

Lemma keeps_output_bill_plaintext {B} (f : state -> B) id url :
  (forall e s, f (add_event e s) = f s) ->
  (forall c s, f (add_call c s) = f s) ->
  keeps f (output_bill_plaintext E id url).
Proof.
  intros Hev Hcall s r s' H. unfold output_bill_plaintext in H.
  match type of H with
  | (match ?m s with _ => _ end) = _ =>
      assert (Hin : keeps f m);
      [ apply keeps_bind; [apply keeps_plaintext_output_for | intros out];
        apply keeps_bind; [apply keeps_modify; auto | intros _]; keeps_tac
      | destruct (m s) as [[a| |e] s1] eqn:Hm; pose proof (Hin _ _ _ Hm) as Hf ]
  end.
  - inversion H; subst. assumption.
  - inversion H; subst. assumption.
  - destruct e; try (inversion H; subst; assumption).
    + assert (Hk : keeps f
        ((if errno =? 2 then logging_error "pdftotext not available" else ret tt) ;;;
         raise (A:=string) (OSError errno))).
      { destruct (errno =? 2); keeps_tac; apply keeps_modify; auto. }
      rewrite <- Hf. exact (Hk _ _ _ H).
    + assert (Hk : keeps f (print msg ;;; raise (A:=string) UnboundLocalError)).
      { keeps_tac. apply keeps_modify; auto. }
      rewrite <- Hf. exact (Hk _ _ _ H).
Qed.

Lemma keeps_plaintext_step {B} (f : state -> B) id url :
  (forall e s, f (add_event e s) = f s) ->
  (forall c s, f (add_call c s) = f s) ->
  (forall p s, f (set_plaintext p s) = f s) ->
  keeps f (try_except_OSError
             (output_bill_plaintext E id url ;;; ret tt)
             (modify (set_plaintext (OBool false)))).
Proof.
  intros Hev Hcall Hset s r s' H. unfold try_except_OSError in H.
  assert (Hin : keeps f (output_bill_plaintext E id url ;;; ret tt)).
  { apply keeps_bind; [now apply keeps_output_bill_plaintext | intros; apply keeps_ret]. }
  destruct ((output_bill_plaintext E id url ;;; ret tt) s) as [[a| |e] s1] eqn:Hm;
    pose proof (Hin _ _ _ Hm) as Hf.
  - inversion H; subst. assumption.
  - inversion H; subst. assumption.
  - destruct e; try (inversion H; subst; assumption).
    unfold modify in H. inversion H; subst. now rewrite Hset.
Qed.


(** The four ways the output stage can go. *)
Lemma output_item_cases bill h cs b srcs action s r s' :
  output_item E bill h cs b srcs action s = (r, s') ->
  (law_congress s = None /\ r = Raise UnboundLocalError /\ s' = s)
  \/ (exists lc, law_congress s = Some lc /\ lc <> bill_congress b /\ r = Continue
       /\ s' = add_event
                (LogError ("Congress mismatch for " ++ bill_type b ++ bill_number b
                           ++ ": " ++ bill_congress b ++ " or " ++ lc ++ "?")) s)
  \/ (law_congress s = Some (bill_congress b)
       /\ find bill pdf_rendition = None /\ r = Raise AttributeError
       /\ s' = add_output (record_of E h cs b srcs action s) s)
  \/ (law_congress s = Some (bill_congress b)
       /\ exists u, find bill pdf_rendition = Some u
       /\ written s' = (written s ++ [record_of E h cs b srcs action s; stub_of E b action u])%list).
Proof.
  intros H. unfold output_item in H.
unfold bind at 1, gets at 1 in H. cbv beta iota in H.
destruct (law_congress s) as [lc|] eqn:Hlc.
- destruct (String.eqb lc (bill_congress b)) eqn:Heq; cbn [negb] in H; cbv beta iota in H.
  + apply String.eqb_eq in Heq. subst lc.
    unfold bind at 1, gets at 1 in H. cbv beta iota in H.
    unfold bind at 1, modify at 1 in H. cbv beta iota in H.
    unfold bind at 1, find_text in H.
    destruct (find bill pdf_rendition) as [u|] eqn:Hu.
    * right. right. right. split; [reflexivity|]. exists u. split; [reflexivity|].
      unfold ret at 1 in H. cbv beta iota in H.
      unfold bind at 1, modify at 1 in H. cbv beta iota in H.
      unfold bind at 1, gets at 1 in H. cbv beta iota in H.
      match type of H with
      | (if ?c then _ else _) ?st = _ => destruct c; set (s2 := st) in *
      end.
      -- rewrite (keeps_plaintext_step written _ _
                    (fun _ _ => eq_refl) (fun _ _ => eq_refl) (fun _ _ => eq_refl)
                    _ _ _ H).
         unfold s2. simpl. now rewrite <- app_assoc.
      -- inversion H; subst. unfold s2. simpl. now rewrite <- app_assoc.
    * right. right. left. inversion H; subst. repeat split; reflexivity.
  + right. left. exists lc. apply String.eqb_neq in Heq.
    unfold bind, logging_error, modify, continue in H. inversion H; subst.
    repeat split; auto.
- left. unfold raise in H. inversion H; subst. repeat split; reflexivity.
Qed.

End Output.

(** *** The loop body as a whole *)

Section Body.

Context (E : Env) (pid : option string).

(** An item that reaches the law sub-records goes on with the action
    stage and the output stage. *)
Lemma proc_item_reaches bill st h cs b srcs st1 :
  reaches_action pid bill st h cs b srcs st1 ->
  proc_item E pid bill st
  = (let* action := derive_action bill h b in
     output_item E bill h cs b srcs action) st1.
Proof.
  intros [[H1 [H2 H3]] [H4 H5]]. unfold proc_item.
  rewrite (bind_ret _ _ _ _ _ H1), (bind_ret _ _ _ _ _ H2),
    (bind_ret _ _ _ _ _ H3), (bind_ret _ _ _ _ _ H4), (bind_ret _ _ _ _ _ H5).
  reflexivity.
Qed.

(** Either the item stops before the output stage, leaving [f] as it
    was, or every stage answered and the output stage decides. *)
Lemma proc_item_inv {B} (f : state -> B) bill s r s' :
  unlogged f ->
  (forall c s, f (set_law_congress c s) = f s) ->
  proc_item E pid bill s = (r, s') ->
  f s' = f s
  \/ exists h cs b srcs action s1 s2 s3,
       read_bill_reference bill h s1 = (Ret b, s2)
       /\ derive_action bill h b s2 = (Ret action, s3)
       /\ f s3 = f s
       /\ output_item E bill h cs b srcs action s3 = (r, s').
Proof.
  intros Hf Hset H. unfold proc_item in H.
  unfold bind at 1 in H.
  destruct (read_item bill s) as [[h| |e] sa] eqn:Ha;
    pose proof (keeps_read_item f _ Hf _ _ _ Ha) as Fa;
    [| left; inversion H; subst; assumption ..].
  unfold bind at 1 in H.
  destruct (classify bill h sa) as [[[]| |e] sb] eqn:Hb;
    pose proof (keeps_classify f _ _ Hf _ _ _ Hb) as Fb; rewrite Fa in Fb;
    [| left; inversion H; subst; assumption ..].
  unfold bind at 1 in H.
  destruct (read_committees bill sb) as [[cs| |e] sc] eqn:Hc;
    pose proof (keeps_read_committees f _ Hf _ _ _ Hc) as Fc; rewrite Fb in Fc;
    [| left; inversion H; subst; assumption ..].
  unfold bind at 1 in H.
  destruct (read_bill_reference bill h sc) as [[b| |e] sd] eqn:Hd;
    pose proof (keeps_read_bill_reference f _ _ Hf _ _ _ Hd) as Fd; rewrite Fc in Fd;
    [| left; inversion H; subst; assumption ..].
  unfold bind at 1 in H.
  destruct (read_sources pid bill h sd) as [[srcs| |e] se] eqn:He;
    pose proof (keeps_read_sources f _ _ _ Hf _ _ _ He) as Fe; rewrite Fd in Fe;
    [| left; inversion H; subst; assumption ..].
  unfold bind at 1 in H.
  destruct (derive_action bill h b se) as [[action| |e] sf] eqn:Hg;
    pose proof (keeps_derive_action f _ _ _ Hf Hset _ _ _ Hg) as Fg; rewrite Fe in Fg;
    [| left; inversion H; subst; assumption ..].
  right. exists h, cs, b, srcs, action, sc, sd, sf.
  assert (se = sd) as ->.
  { assert (K : keeps (fun s => s) (read_sources pid bill h))
      by (unfold read_sources; keeps_tac).
    exact (K _ _ _ He). }
  auto.
Qed.

End Body.

Lemma bill_id_shape (bill : element) (h : header) (b : bill_ref) (s s' : state) :
  read_bill_reference bill h s = (Ret b, s') ->
  bill_id b = bill_type b ++ bill_number b ++ "-" ++ bill_congress b.
Proof.
  unfold read_bill_reference. destruct (findall bill (ext "mods:bill")) as [|b0 more].
  - unfold bind, logging_error, modify, continue. discriminate.
  - intros H. unfold bind at 1 in H.
    destruct more; unfold logging_error, modify, ret in H; cbv beta iota in H.
    all: unfold bind, attr in H.
    all: destruct (get_attr "congress" b0); try discriminate.
    all: destruct (get_attr "type" b0); try discriminate.
    all: destruct (get_attr "number" b0); try discriminate.
    all: unfold ret in H; inversion H; reflexivity.
Qed.

(** C9, amended.  Whenever processing an item writes a Bill Record and
    the item has a PDF rendition location, what the item writes is exactly that
    record followed by one Bill-Version Stub: the stub's id is the
    record's type, number and congress joined as [type+number-congress]
    with the fixed version code [enr] appended, its [version_code] is
    [enr], its [issued_on] is the record's status date [status_at], and
    its [urls.pdf] is the text of the PDF rendition location. *)
Theorem version_stub_accompanies_record
    (E : Env) (pid : option string) (bill : element) (st st' : state)
    (r : result unit) (new : list output) (bd : value) (u : element) :
  proc_item E pid bill st = (r, st') ->
  written st' = (written st ++ new)%list ->
  In (BillRecord bd) new ->
  find bill pdf_rendition = Some u ->
  exists ty num cong status_date,
    get "bill_type" bd = Some (VStr ty)
    /\ get "number" bd = Some (VStr num)
    /\ get "congress" bd = Some (VStr cong)
    /\ get "bill_id" bd = Some (VStr (ty ++ num ++ "-" ++ cong))
    /\ get "status_at" bd = Some status_date
    /\ new =
         [BillRecord bd;
          BillVersion (ty ++ num ++ "-" ++ cong ++ "-enr")
            (VDict [("bill_version_id", VStr (ty ++ num ++ "-" ++ cong ++ "-enr"));
                    ("version_code", VStr "enr");
                    ("issued_on", status_date);
                    ("urls", VDict [("pdf", of_text (text u))])])].
Proof.
  intros Hrun Hnew Hin Hu.
  destruct (proc_item_inv E pid written bill st r st'
              (fun _ _ => eq_refl) (fun _ _ => eq_refl) Hrun)
    as [Hsame | (h & cs & b & srcs & action & s1 & s2 & s3 & Hb & _ & Hw & Hout)].
  - rewrite Hsame in Hnew. rewrite <- (app_nil_r (written st)) in Hnew at 1.
    apply app_inv_head in Hnew. subst new. destruct Hin.
  - assert (Hnil : written st' = written s3 -> False).
    { intros Heq. rewrite Heq, Hw in Hnew.
      rewrite <- (app_nil_r (written st)) in Hnew at 1.
      apply app_inv_head in Hnew. subst new. destruct Hin. }
    destruct (output_item_cases E _ _ _ _ _ _ _ _ _ Hout)
      as [(_ & _ & ->) | [(lc & _ & _ & _ & ->) | [(_ & Hnone & _) | (_ & u' & Hu' & Hw')]]].
    + exfalso. now apply Hnil.
    + exfalso. now apply Hnil.
    + congruence.
    + rewrite Hu in Hu'. injection Hu' as <-.
      rewrite Hw', Hw in Hnew. apply app_inv_head in Hnew. subst new.
      destruct Hin as [Hin | [Hin | []]]; [| discriminate Hin].
      injection Hin as <-.
      exists (bill_type b), (bill_number b), (bill_congress b),
        (snd (latest_status E [action])).
      rewrite <- (bill_id_shape _ _ _ _ _ Hb).
      repeat split; reflexivity.
Qed.

(** *** The bill reference *)

(** What [read_bill_reference] answers is read off the first bill
    sub-record; a second sub-record only adds a line to the trace. *)
Lemma read_bill_reference_first (bill : element) (h : header) (s s' : state)
    (b : bill_ref) (b0 : element) (more : list element) :
  findall bill (ext "mods:bill") = b0 :: more ->
  read_bill_reference bill h s = (Ret b, s') ->
  trace s' = (trace s ++ anomaly (b0 :: more)
                ("Multiple bills associated with " ++ Py.fmt (access_id h)))%list
  /\ s' = match more with
          | [] => s
          | _ :: _ => add_event (LogError ("Multiple bills associated with "
                                           ++ Py.fmt (access_id h))) s
          end
  /\ exists t,
       get_attr "congress" b0 = Some (bill_congress b)
       /\ get_attr "type" b0 = Some t
       /\ get_attr "number" b0 = Some (bill_number b)
       /\ b = {| bill_congress := bill_congress b; bill_type := Py.lower t;
                 bill_number := bill_number b;
                 bill_id := Py.lower t ++ bill_number b ++ "-" ++ bill_congress b |}.
Proof.
  intros Hf H. unfold read_bill_reference in H. rewrite Hf in H.
  unfold bind at 1 in H.
  destruct more; unfold logging_error, modify, ret in H; cbv beta iota in H.
  all: unfold bind, attr in H.
  all: destruct (get_attr "congress" b0) as [c|]; try discriminate.
  all: destruct (get_attr "type" b0) as [t|]; try discriminate.
  all: destruct (get_attr "number" b0) as [n|]; try discriminate.
  all: unfold ret in H; inversion H; subst; simpl.
  all: split; [try reflexivity | split; [reflexivity | exists t; auto]].
  now rewrite app_nil_r.
Qed.

Lemma read_bill_reference_many (bill : element) (h : header) (s : state)
    (b0 b1 : element) (more : list element) (c t n : string) :
  findall bill (ext "mods:bill") = b0 :: b1 :: more ->
  get_attr "congress" b0 = Some c ->
  get_attr "type" b0 = Some t ->
  get_attr "number" b0 = Some n ->
  read_bill_reference bill h s
  = (Ret {| bill_congress := c; bill_type := Py.lower t; bill_number := n;
            bill_id := Py.lower t ++ n ++ "-" ++ c |},
     add_event (LogError ("Multiple bills associated with " ++ Py.fmt (access_id h))) s).
Proof.
  intros Hf Hc Ht Hn. unfold read_bill_reference. rewrite Hf.
  unfold bind, logging_error, modify, attr. rewrite Hc, Ht, Hn. reflexivity.
Qed.

(** C6.  For an item that reaches the bill reference: with no bill
    sub-record the item is skipped, one error is logged and nothing is
    written; with more than one, the anomaly is logged, the reference is
    built from the first sub-record alone (congress, lower-cased type and
    number, and the id [type+number-congress]), the item goes on with
    that reference, and every Bill Record the item writes carries it. *)
Theorem bill_reference_extraction
    (E : Env) (pid : option string) (bill : element) (st : state)
    (h : header) (cs : list value) :
  reaches_bill_reference bill st h cs ->
  (findall bill (ext "mods:bill") = [] ->
   proc_item E pid bill st
   = (Continue,
      add_event (LogError ("Could not get bill data for " ++ Py.fmt (access_id h)
                           ++ ": " ++ title h)) st))
  /\ (forall b0 b1 more c t n,
        findall bill (ext "mods:bill") = b0 :: b1 :: more ->
        get_attr "congress" b0 = Some c ->
        get_attr "type" b0 = Some t ->
        get_attr "number" b0 = Some n ->
        let b := {| bill_congress := c; bill_type := Py.lower t; bill_number := n;
                    bill_id := Py.lower t ++ n ++ "-" ++ c |} in
        let st1 := add_event (LogError ("Multiple bills associated with "
                                        ++ Py.fmt (access_id h))) st in
        read_bill_reference bill h st = (Ret b, st1)
        /\ proc_item E pid bill st
           = (let* srcs := read_sources pid bill h in
              let* action := derive_action bill h b in
              output_item E bill h cs b srcs action) st1
        /\ forall r st' new bd,
             proc_item E pid bill st = (r, st') ->
             written st' = (written st ++ new)%list ->
             In (BillRecord bd) new ->
             get "bill_id" bd = Some (VStr (Py.lower t ++ n ++ "-" ++ c))
             /\ get "bill_type" bd = Some (VStr (Py.lower t))
             /\ get "number" bd = Some (VStr n)
             /\ get "congress" bd = Some (VStr c)).
Proof.
  intros (H1 & H2 & H3). split.
  - intros Hnone. unfold proc_item.
    rewrite (bind_ret _ _ _ _ _ H1), (bind_ret _ _ _ _ _ H2), (bind_ret _ _ _ _ _ H3).
    apply bind_continue. unfold read_bill_reference. now rewrite Hnone.
  - intros b0 b1 more c t n Hf Hc Ht Hn b st1.
    pose proof (read_bill_reference_many bill h st _ _ _ _ _ _ Hf Hc Ht Hn) as Hb.
    split; [exact Hb | split].
    + unfold proc_item.
      rewrite (bind_ret _ _ _ _ _ H1), (bind_ret _ _ _ _ _ H2),
        (bind_ret _ _ _ _ _ H3), (bind_ret _ _ _ _ _ Hb). reflexivity.
    + intros r st' new bd Hrun Hnew Hin.
      destruct (proc_item_inv E pid written bill st r st'
                  (fun _ _ => eq_refl) (fun _ _ => eq_refl) Hrun)
        as [Hsame | (h' & cs' & b' & srcs & action & s1 & s2 & s3 & Hb' & _ & Hw & Hout)].
      * rewrite Hsame in Hnew. rewrite <- (app_nil_r (written st)) in Hnew at 1.
        apply app_inv_head in Hnew. subst new. destruct Hin.
      * assert (Hnil : written st' = written s3 -> False).
        { intros Heq. rewrite Heq, Hw in Hnew.
          rewrite <- (app_nil_r (written st)) in Hnew at 1.
          apply app_inv_head in Hnew. subst new. destruct Hin. }
        destruct (read_bill_reference_first _ _ _ _ _ _ _ Hf Hb')
          as (_ & _ & t' & Hc' & Ht' & Hn' & Hrec).
        rewrite Hc in Hc'. rewrite Ht in Ht'. rewrite Hn in Hn'.
        injection Hc' as Hc'. injection Ht' as <-. injection Hn' as Hn'.
        rewrite <- Hc', <- Hn' in Hrec.
        assert (Hfields : forall o,
                  o = record_of E h' cs' b' srcs action s3 ->
                  In (BillRecord bd) [o] \/ False ->
                  get "bill_id" bd = Some (VStr (Py.lower t ++ n ++ "-" ++ c))
                  /\ get "bill_type" bd = Some (VStr (Py.lower t))
                  /\ get "number" bd = Some (VStr n)
                  /\ get "congress" bd = Some (VStr c)).
        { intros o -> [[Ho | []] | []]. injection Ho as <-.
          rewrite Hrec. repeat split; reflexivity. }
        destruct (output_item_cases E _ _ _ _ _ _ _ _ _ Hout)
          as [(_ & _ & ->) | [(lc & _ & _ & _ & ->)
             | [(_ & _ & _ & ->) | (_ & u' & Hu' & Hw')]]].
        -- exfalso. now apply Hnil.
        -- exfalso. now apply Hnil.
        -- simpl in Hnew. rewrite Hw in Hnew. apply app_inv_head in Hnew. subst new.
           apply (Hfields _ eq_refl). now left.
        -- rewrite Hw', Hw in Hnew. apply app_inv_head in Hnew. subst new.
           apply (Hfields _ eq_refl). left.
           destruct Hin as [Hin | [Hin | []]]; [ now left | discriminate Hin ].
Qed.

(** *** The law reference and the congress check *)

Lemma derive_action_law (bill : element) (h : header) (b : bill_ref) (s : state)
    (l0 : element) (more : list element) (lc ln lp : string) :
  findall bill (ext "mods:law") = l0 :: more ->
  get_attr "congress" l0 = Some lc ->
  get_attr "number" l0 = Some ln ->
  get_attr "isPrivate" l0 = Some lp ->
  derive_action bill h b s
  = (Ret (enacted_action h lc ln (law_type_of lp)),
     set_law_congress (Some lc)
       match more with
       | [] => s
       | _ :: _ => add_event (LogError ("Multiple laws associated with " ++ bill_id b)) s
       end).
Proof.
  intros Hf Hc Hn Hp. unfold derive_action. rewrite Hf.
  destruct more; unfold bind, logging_error, modify, attr, ret;
    rewrite Hc, Hn, Hp; reflexivity.
Qed.

Lemma errors_app (t1 t2 : list event) :
  errors (t1 ++ t2) = (errors t1 + errors t2)%nat.
Proof. unfold errors. now rewrite List.filter_app, length_app. Qed.

(** C1, amended.  When a law reference was extracted and its congress
    differs from the bill reference's, the item is skipped and writes
    nothing; the trace grows by the congress-mismatch error, preceded by
    one anomaly line for the bill sub-records and one for the law
    sub-records when there is more than one of them; so exactly one error
    is logged when the item has a single bill and a single law
    sub-record.  The loop goes on with the next item. *)
Theorem congress_mismatch_skips
    (E : Env) (pid : option string) (bill : element) (st : state)
    (h : header) (cs : list value) (b : bill_ref) (srcs : list value) (st1 : state)
    (b0 : element) (bmore : list element)
    (l0 : element) (more : list element) (lc ln lp : string) :
  reaches_action pid bill st h cs b srcs st1 ->
  findall bill (ext "mods:bill") = b0 :: bmore ->
  findall bill (ext "mods:law") = l0 :: more ->
  get_attr "congress" l0 = Some lc ->
  get_attr "number" l0 = Some ln ->
  get_attr "isPrivate" l0 = Some lp ->
  lc <> bill_congress b ->
  exists st',
    proc_item E pid bill st = (Continue, st')
    /\ written st' = written st
    /\ trace st'
       = (trace st
          ++ anomaly (b0 :: bmore)
               ("Multiple bills associated with " ++ Py.fmt (access_id h))
          ++ anomaly (l0 :: more) ("Multiple laws associated with " ++ bill_id b)
          ++ [LogError ("Congress mismatch for " ++ bill_type b ++ bill_number b
                        ++ ": " ++ bill_congress b ++ " or " ++ lc ++ "?")])%list
    /\ (bmore = [] -> more = [] -> errors (trace st') = S (errors (trace st)))
    /\ forall rest,
         for_each (bill :: rest) (proc_item E pid) st
         = for_each rest (proc_item E pid) st'.
Proof.
  intros Hreach Hbills Hlaws Hc Hn Hp Hne.
  pose proof (proc_item_reaches E pid _ _ _ _ _ _ _ Hreach) as Hrun.
  destruct Hreach as (_ & Hb & _).
  destruct (read_bill_reference_first _ _ _ _ _ _ _ Hbills Hb) as (Htr & Hst1 & _).
  pose proof (keeps_read_bill_reference written bill h (fun _ _ => eq_refl) _ _ _ Hb) as Hw.
  rewrite (bind_ret _ _ _ _ _ (derive_action_law bill h b st1 _ _ _ _ _ Hlaws Hc Hn Hp))
    in Hrun.
  unfold output_item in Hrun. unfold bind at 1, gets at 1 in Hrun.
  cbn [law_congress set_law_congress] in Hrun. cbv beta iota in Hrun.
  apply String.eqb_neq in Hne. rewrite Hne in Hrun. cbn [negb] in Hrun.
  cbv beta iota in Hrun.
  unfold bind, logging_error, modify, continue in Hrun.
  eexists. split; [exact Hrun |]. split; [| split; [| split]].
  - destruct more; simpl; exact Hw.
  - destruct more; simpl; rewrite Htr, <- !app_assoc; reflexivity.
  - intros -> ->. simpl. rewrite Htr. simpl. rewrite app_nil_r.
    rewrite errors_app. unfold errors at 2. simpl. lia.
  - intros rest. simpl. now rewrite Hrun.
Qed.

(** *** Items without a law sub-record *)

Lemma derive_action_vote (bill : element) (h : header) (b : bill_ref) (s : state)
    (oc : element) (w : string) :
  findall bill (ext "mods:law") = [] ->
  member (granule_class h) resolution_classes = true ->
  find bill (ext "mods:originChamber") = Some oc ->
  other_chamber (text oc) = Some w ->
  derive_action bill h b s = (Ret (vote_action h w), s).
Proof.
  intros Hf Hm Ho Hw. unfold derive_action. rewrite Hf, Hm.
  unfold bind, find_text, subscript. rewrite Ho. unfold ret at 1.
  cbv beta iota. rewrite Hw. reflexivity.
Qed.

(** The record written by the output stage is the one assembled from the
    stage's arguments. *)
Lemma output_item_record (E : Env) bill h cs b srcs action s r s' new bd :
  output_item E bill h cs b srcs action s = (r, s') ->
  written s' = (written s ++ new)%list ->
  In (BillRecord bd) new ->
  BillRecord bd = record_of E h cs b srcs action s.
Proof.
  intros Hout Hnew Hin.
  assert (Hnil : written s' = written s -> False).
  { intros Heq. rewrite Heq in Hnew.
    rewrite <- (app_nil_r (written s)) in Hnew at 1.
    apply app_inv_head in Hnew. subst new. destruct Hin. }
  destruct (output_item_cases E _ _ _ _ _ _ _ _ _ Hout)
    as [(_ & _ & ->) | [(lc & _ & _ & _ & ->)
       | [(_ & _ & _ & ->) | (_ & u' & Hu' & Hw')]]].
  - exfalso. now apply Hnil.
  - exfalso. now apply Hnil.
  - simpl in Hnew. apply app_inv_head in Hnew. subst new.
    destruct Hin as [Hin | []]. now symmetry.
  - rewrite Hw' in Hnew. apply app_inv_head in Hnew. subst new.
    destruct Hin as [Hin | [Hin | []]]; [now symmetry | discriminate Hin].
Qed.

(** C3.  For an item of class HCONRES, SCONRES or CONSTAMEND with no law
    sub-record whose origin chamber is HOUSE or SENATE, the action
    produced is a vote: [where] is [s] for origin HOUSE and [h] for
    origin SENATE, [result] is [pass], [how] is [unknown], and [status]
    is [PASSED:CONSTAMEND] for a constitutional amendment and
    [PASSED:CONCURRENTRES] otherwise.  It is the action handed to the
    output stage, and the only action of any Bill Record the item
    writes. *)
Theorem resolution_vote_action
    (E : Env) (pid : option string) (bill : element) (st : state)
    (h : header) (cs : list value) (b : bill_ref) (srcs : list value) (st1 : state)
    (c : string) (oc : element) :
  reaches_action pid bill st h cs b srcs st1 ->
  granule_class h = Some c ->
  In c ["HCONRES"; "SCONRES"; "CONSTAMEND"] ->
  findall bill (ext "mods:law") = [] ->
  find bill (ext "mods:originChamber") = Some oc ->
  text oc = Some "HOUSE" \/ text oc = Some "SENATE" ->
  exists action,
    derive_action bill h b st1 = (Ret action, st1)
    /\ proc_item E pid bill st = output_item E bill h cs b srcs action st1
    /\ get "type" action = Some (VStr "vote")
    /\ (text oc = Some "HOUSE" -> get "where" action = Some (VStr "s"))
    /\ (text oc = Some "SENATE" -> get "where" action = Some (VStr "h"))
    /\ get "result" action = Some (VStr "pass")
    /\ get "how" action = Some (VStr "unknown")
    /\ get "status" action
       = Some (VStr (if String.eqb c "CONSTAMEND"
                     then "PASSED:CONSTAMEND" else "PASSED:CONCURRENTRES"))
    /\ forall r st' new bd,
         proc_item E pid bill st = (r, st') ->
         written st' = (written st ++ new)%list ->
         In (BillRecord bd) new ->
         get "actions" bd = Some (VList [action]).
Proof.
  intros Hreach Hc Hin Hlaws Ho Horigin.
  assert (Hm : member (granule_class h) resolution_classes = true).
  { rewrite Hc. simpl in Hin.
    destruct Hin as [<- | [<- | [<- | []]]]; reflexivity. }
  assert (Hw : exists w, other_chamber (text oc) = Some w
                         /\ (text oc = Some "HOUSE" -> w = "s")
                         /\ (text oc = Some "SENATE" -> w = "h")).
  { destruct Horigin as [-> | ->]; eexists; (split; [reflexivity |]);
      split; intros Heq; try reflexivity; discriminate Heq. }
  destruct Hw as (w & Hw & Hhouse & Hsenate).
  pose proof (derive_action_vote bill h b st1 oc w Hlaws Hm Ho Hw) as Hd.
  pose proof (proc_item_reaches E pid _ _ _ _ _ _ _ Hreach) as Hrun.
  rewrite (bind_ret _ _ _ _ _ Hd) in Hrun.
  exists (vote_action h w). split; [exact Hd | split; [exact Hrun |]].
  split; [reflexivity |].
  split; [intros Heq; now rewrite (Hhouse Heq) |].
  split; [intros Heq; now rewrite (Hsenate Heq) |].
  split; [reflexivity |]. split; [reflexivity |].
  split; [simpl; unfold is_str; now rewrite Hc |].
  intros r st' new bd Hr Hnew Hbd. rewrite Hrun in Hr.
  destruct Hreach as (_ & Hb & _).
  rewrite <- (keeps_read_bill_reference written bill h (fun _ _ => eq_refl) _ _ _ Hb)
    in Hnew.
  pose proof (output_item_record E _ _ _ _ _ _ _ _ _ _ _ Hr Hnew Hbd) as Hrec.
  injection Hrec as ->. reflexivity.
Qed.

Lemma output_item_writes (E : Env) bill h cs b srcs action s :
  law_congress s = Some (bill_congress b) ->
  exists r s' rest,
    output_item E bill h cs b srcs action s = (r, s')
    /\ written s' = (written s ++ record_of E h cs b srcs action s :: rest)%list.
Proof.
  intros Hlc.
  destruct (output_item E bill h cs b srcs action s) as [r s'] eqn:Hout.
  exists r, s'.
  destruct (output_item_cases E _ _ _ _ _ _ _ _ _ Hout)
    as [(Hn & _) | [(lc & Hsome & Hne & _)
       | [(_ & _ & _ & ->) | (_ & u' & Hu' & Hw')]]].
  - congruence.
  - rewrite Hlc in Hsome. injection Hsome as <-. now contradiction Hne.
  - exists []. split; reflexivity.
  - eexists. split; [reflexivity | exact Hw'].
Qed.

Lemma append_assoc (s1 s2 s3 : string) : (s1 ++ s2) ++ s3 = s1 ++ (s2 ++ s3).
Proof.
  induction s1 as [|a s IH]; [reflexivity |].
  change (String a ((s ++ s2) ++ s3) = String a (s ++ (s2 ++ s3))).
  now rewrite IH.
Qed.

(** *** Law items *)

(** C4.  For an item that reaches the law sub-records with a bill
    reference and a law reference of the same congress, a Bill Record is
    written whose only action has type [enacted], status
    [ENACTED:SIGNED] and a non-empty text in which the law number
    occurs; the record's id is the lower-cased bill type, the number, a
    dash and the congress.  In particular a bill reference (82, hr, 1)
    with a law reference (82, 100, not private) gives the id [hr1-82] and
    the text [Became Public Law No: 82-100.]. *)
Theorem enacted_law_action (E : Env) (pid : option string) :
  (forall bill st h cs b srcs st1 b0 bmore bc bt bn l0 more lc ln lp,
     reaches_action pid bill st h cs b srcs st1 ->
     findall bill (ext "mods:bill") = b0 :: bmore ->
     get_attr "congress" b0 = Some bc ->
     get_attr "type" b0 = Some bt ->
     get_attr "number" b0 = Some bn ->
     findall bill (ext "mods:law") = l0 :: more ->
     get_attr "congress" l0 = Some lc ->
     get_attr "number" l0 = Some ln ->
     get_attr "isPrivate" l0 = Some lp ->
     lc = bc ->
     exists r st' bd rest action txt,
       proc_item E pid bill st = (r, st')
       /\ written st' = (written st ++ BillRecord bd :: rest)%list
       /\ get "bill_id" bd = Some (VStr (Py.lower bt ++ bn ++ "-" ++ bc))
       /\ get "actions" bd = Some (VList [action])
       /\ get "type" action = Some (VStr "enacted")
       /\ get "status" action = Some (VStr "ENACTED:SIGNED")
       /\ get "text" action = Some (VStr txt)
       /\ txt = "Became " ++ Py.capitalize (law_type_of lp) ++ " Law No: "
                ++ lc ++ "-" ++ ln ++ "."
       /\ txt <> EmptyString
       /\ exists pre post, txt = pre ++ ln ++ post)
  /\ (forall bill st h cs b srcs st1 b0 bmore l0 more,
        reaches_action pid bill st h cs b srcs st1 ->
        findall bill (ext "mods:bill") = b0 :: bmore ->
        get_attr "congress" b0 = Some "82" ->
        get_attr "type" b0 = Some "hr" ->
        get_attr "number" b0 = Some "1" ->
        findall bill (ext "mods:law") = l0 :: more ->
        get_attr "congress" l0 = Some "82" ->
        get_attr "number" l0 = Some "100" ->
        get_attr "isPrivate" l0 = Some "false" ->
        exists r st' bd rest action,
          proc_item E pid bill st = (r, st')
          /\ written st' = (written st ++ BillRecord bd :: rest)%list
          /\ get "bill_id" bd = Some (VStr "hr1-82")
          /\ get "actions" bd = Some (VList [action])
          /\ get "type" action = Some (VStr "enacted")
          /\ get "text" action = Some (VStr "Became Public Law No: 82-100.")
          /\ get "status" action = Some (VStr "ENACTED:SIGNED")).
Proof.
  assert (General : forall bill st h cs b srcs st1 b0 bmore bc bt bn l0 more lc ln lp,
     reaches_action pid bill st h cs b srcs st1 ->
     findall bill (ext "mods:bill") = b0 :: bmore ->
     get_attr "congress" b0 = Some bc ->
     get_attr "type" b0 = Some bt ->
     get_attr "number" b0 = Some bn ->
     findall bill (ext "mods:law") = l0 :: more ->
     get_attr "congress" l0 = Some lc ->
     get_attr "number" l0 = Some ln ->
     get_attr "isPrivate" l0 = Some lp ->
     lc = bc ->
     exists r st' rest,
       proc_item E pid bill st = (r, st')
       /\ written st'
          = (written st
             ++ BillRecord
                  (bill_data_of E h cs
                     {| bill_congress := bc; bill_type := Py.lower bt;
                        bill_number := bn;
                        bill_id := Py.lower bt ++ bn ++ "-" ++ bc |}
                     srcs [enacted_action h lc ln (law_type_of lp)]
                     (fst (latest_status E [enacted_action h lc ln (law_type_of lp)]))
                     (snd (latest_status E [enacted_action h lc ln (law_type_of lp)]))
                     (length (written st))) :: rest)%list).
  { intros bill st h cs b srcs st1 b0 bmore bc bt bn l0 more lc ln lp
      Hreach Hbills Hbc Hbt Hbn Hlaws Hlc Hln Hlp ->.
    pose proof (proc_item_reaches E pid _ _ _ _ _ _ _ Hreach) as Hrun.
    destruct Hreach as (_ & Hb & _).
    destruct (read_bill_reference_first _ _ _ _ _ _ _ Hbills Hb)
      as (_ & _ & t & Hc' & Ht' & Hn' & Hrec).
    rewrite Hbc in Hc'. rewrite Hbt in Ht'. rewrite Hbn in Hn'.
    injection Hc' as Hc'. injection Ht' as <-. injection Hn' as Hn'.
    rewrite <- Hc', <- Hn' in Hrec.
    pose proof (keeps_read_bill_reference written bill h (fun _ _ => eq_refl) _ _ _ Hb)
      as Hw.
    rewrite (bind_ret _ _ _ _ _ (derive_action_law bill h b st1 _ _ _ _ _ Hlaws Hlc Hln Hlp))
      in Hrun.
    match type of Hrun with
    | _ = output_item _ _ _ _ _ _ _ ?s2 =>
        destruct (output_item_writes E bill h cs b srcs
                    (enacted_action h bc ln (law_type_of lp)) s2)
          as (r & st' & rest & Hout & Hwr);
        [ simpl; now rewrite Hc' | ]
    end.
    exists r, st', rest. split; [now rewrite Hrun |].
    rewrite Hwr. unfold record_of. rewrite <- Hrec.
    destruct more; simpl; rewrite Hw; reflexivity. }
  split.
  - intros bill st h cs b srcs st1 b0 bmore bc bt bn l0 more lc ln lp
      Hreach Hbills Hbc Hbt Hbn Hlaws Hlc Hln Hlp Heq.
    destruct (General _ _ _ _ _ _ _ _ _ _ _ _ _ _ _ _ _
                Hreach Hbills Hbc Hbt Hbn Hlaws Hlc Hln Hlp Heq)
      as (r & st' & rest & Hrun & Hwr).
    do 4 eexists. exists (enacted_action h lc ln (law_type_of lp)). eexists.
    split; [exact Hrun |]. split; [exact Hwr |].
    repeat (split; [reflexivity |]).
    split; [discriminate |].
    exists ("Became " ++ Py.capitalize (law_type_of lp) ++ " Law No: " ++ lc ++ "-"), ".".
    now rewrite !append_assoc.
  - intros bill st h cs b srcs st1 b0 bmore l0 more
      Hreach Hbills Hbc Hbt Hbn Hlaws Hlc Hln Hlp.
    destruct (General _ _ _ _ _ _ _ _ _ _ _ _ _ _ _ _ _
                Hreach Hbills Hbc Hbt Hbn Hlaws Hlc Hln Hlp eq_refl)
      as (r & st' & rest & Hrun & Hwr).
    do 4 eexists. exists (enacted_action h "82" "100" (law_type_of "false")).
    split; [exact Hrun |]. split; [exact Hwr |].
    repeat split; reflexivity.
Qed.

(** The output stage never assigns [law_congress]. *)
Lemma output_item_keeps_law_congress (E : Env) bill h cs b srcs action :
  keeps law_congress (output_item E bill h cs b srcs action).
Proof.
  unfold output_item. cbv zeta. keeps_tac.
  apply keeps_plaintext_step; reflexivity.
Qed.

(** With plaintext off, the output stage runs no subprocess and leaves
    plaintext off. *)
Lemma output_item_plaintext_off (E : Env) bill h cs b srcs action s r s' :
  truthy (plaintext s) = false ->
  output_item E bill h cs b srcs action s = (r, s') ->
  invoked s' = invoked s /\ plaintext s' = plaintext s.
Proof.
  intros Hoff H. unfold output_item in H.
  unfold bind at 1, gets at 1 in H. cbv beta iota zeta in H.
  destruct (law_congress s) as [lc|].
  - destruct (negb (String.eqb lc (bill_congress b))).
    + unfold bind, logging_error, modify, continue in H. inversion H; subst.
      split; reflexivity.
    + unfold bind at 1, gets at 1 in H. cbv beta iota in H.
      unfold bind at 1, modify at 1 in H. cbv beta iota in H.
      unfold bind at 1, find_text in H.
      destruct (find bill pdf_rendition) as [u|].
      * unfold ret at 1 in H. cbv beta iota in H.
        unfold bind at 1, modify at 1 in H. cbv beta iota in H.
        unfold bind at 1, gets at 1 in H. cbv beta iota in H.
        cbn [plaintext add_output] in H. rewrite Hoff in H.
        inversion H; subst. split; reflexivity.
      * inversion H; subst. split; reflexivity.
  - inversion H; subst. split; reflexivity.
Qed.

(** *** The volume driver *)

Lemma proc_statute_loop (E : Env) (path : string) (options : gmap string optval)
    (st : state) (mods ce ae : element) :
  parse E (path ++ "/mods.xml") = inr mods ->
  find mods volume_congress = Some ce ->
  find mods volume_access_id = Some ae ->
  proc_statute E path options st
  = (for_each (findall mods [Tag "mods:relatedItem"]) (proc_item E (text ae)) ;;;
     ret (VDict [("ok", VBool true); ("saved", VBool true)]))
      (loop_entry E path options (text ce) st).
Proof.
  intros Hp Hc Ha. unfold proc_statute.
  unfold bind at 1, modify at 1. cbv beta iota.
  unfold bind at 1, lift. rewrite Hp. unfold ret at 1. cbv beta iota.
  unfold bind at 1, modify at 1. cbv beta iota.
  unfold bind at 1, find_text at 1. rewrite Hc. unfold ret at 1. cbv beta iota.
  unfold bind at 1, modify at 1. cbv beta iota.
  unfold bind at 1, logging_warn, modify at 1. cbv beta iota.
  unfold bind at 1, find_text at 1. rewrite Ha. unfold ret at 1. cbv beta iota.
  reflexivity.
Qed.

(** C10.  The congress check runs on every item that reaches it.  For an
    item of a resolution class with no law sub-record the variable
    [law_congress] is not assigned: the check reads what an earlier item
    of the volume left there.  Unbound, the item raises
    [UnboundLocalError]; bound to another congress than the bill's, the
    item is skipped with a mismatch error; bound to the bill's congress,
    a Bill Record is written.  An item with a law sub-record leaves the
    variable bound to its first law's congress, and a volume starts with
    the variable unbound: a volume whose first item is such a law-less
    item ends in [UnboundLocalError]. *)
Theorem congress_check_on_lawless_item (E : Env) :
  (forall pid bill st h cs b srcs st1 oc w,
     reaches_action pid bill st h cs b srcs st1 ->
     member (granule_class h) resolution_classes = true ->
     findall bill (ext "mods:law") = [] ->
     find bill (ext "mods:originChamber") = Some oc ->
     other_chamber (text oc) = Some w ->
     proc_item E pid bill st = output_item E bill h cs b srcs (vote_action h w) st1
     /\ law_congress st1 = law_congress st
     /\ (forall r st', proc_item E pid bill st = (r, st') ->
            law_congress st' = law_congress st)
     /\ (law_congress st = None ->
           proc_item E pid bill st = (Raise UnboundLocalError, st1)
           /\ written st1 = written st)
     /\ (forall lc, law_congress st = Some lc -> lc <> bill_congress b ->
           proc_item E pid bill st
           = (Continue,
              add_event
                (LogError ("Congress mismatch for " ++ bill_type b ++ bill_number b
                           ++ ": " ++ bill_congress b ++ " or " ++ lc ++ "?")) st1)
           /\ written st1 = written st)
     /\ (law_congress st = Some (bill_congress b) ->
           exists r st' bd rest,
             proc_item E pid bill st = (r, st')
             /\ written st' = (written st ++ BillRecord bd :: rest)%list))
  /\ (forall pid bill st h cs b srcs st1 l0 more lc r st',
        reaches_action pid bill st h cs b srcs st1 ->
        findall bill (ext "mods:law") = l0 :: more ->
        get_attr "congress" l0 = Some lc ->
        proc_item E pid bill st = (r, st') ->
        law_congress st' = Some lc)
  /\ (forall path options st mods ce ae bill rest h cs b srcs st1 oc w,
        parse E (path ++ "/mods.xml") = inr mods ->
        find mods volume_congress = Some ce ->
        find mods volume_access_id = Some ae ->
        findall mods [Tag "mods:relatedItem"] = bill :: rest ->
        reaches_action (text ae) bill (loop_entry E path options (text ce) st)
          h cs b srcs st1 ->
        member (granule_class h) resolution_classes = true ->
        findall bill (ext "mods:law") = [] ->
        find bill (ext "mods:originChamber") = Some oc ->
        other_chamber (text oc) = Some w ->
        proc_statute E path options st = (Raise UnboundLocalError, st1)).
Proof.
  assert (Lawless : forall pid bill st h cs b srcs st1 oc w,
     reaches_action pid bill st h cs b srcs st1 ->
     member (granule_class h) resolution_classes = true ->
     findall bill (ext "mods:law") = [] ->
     find bill (ext "mods:originChamber") = Some oc ->
     other_chamber (text oc) = Some w ->
     proc_item E pid bill st = output_item E bill h cs b srcs (vote_action h w) st1
     /\ law_congress st1 = law_congress st /\ written st1 = written st).
  { intros pid bill st h cs b srcs st1 oc w Hreach Hm Hlaws Ho Hw.
    pose proof (proc_item_reaches E pid _ _ _ _ _ _ _ Hreach) as Hrun.
    rewrite (bind_ret _ _ _ _ _ (derive_action_vote bill h b st1 oc w Hlaws Hm Ho Hw))
      in Hrun.
    destruct Hreach as (_ & Hb & _).
    split; [exact Hrun |]. split.
    - exact (keeps_read_bill_reference law_congress bill h (fun _ _ => eq_refl) _ _ _ Hb).
    - exact (keeps_read_bill_reference written bill h (fun _ _ => eq_refl) _ _ _ Hb). }
  assert (Unbound : forall bill h cs b srcs action s,
            law_congress s = None ->
            output_item E bill h cs b srcs action s = (Raise UnboundLocalError, s)).
  { intros bill h cs b srcs action s Hs. unfold output_item, bind, gets.
    now rewrite Hs. }
  split; [| split].
  - intros pid bill st h cs b srcs st1 oc w Hreach Hm Hlaws Ho Hw.
    destruct (Lawless _ _ _ _ _ _ _ _ _ _ Hreach Hm Hlaws Ho Hw) as (Hrun & Hlc & Hwr).
    split; [exact Hrun |]. split; [exact Hlc |]. split; [| split; [| split]].
    + intros r st' Hr. rewrite Hrun in Hr.
      rewrite (output_item_keeps_law_congress E _ _ _ _ _ _ _ _ _ Hr). exact Hlc.
    + intros Hnone. split; [| exact Hwr]. rewrite Hrun. apply Unbound. congruence.
    + intros lc Hsome Hne. split; [| exact Hwr]. rewrite Hrun.
      unfold output_item, bind, gets. rewrite Hlc, Hsome.
      apply String.eqb_neq in Hne. rewrite Hne. reflexivity.
    + intros Hsome.
      destruct (output_item_writes E bill h cs b srcs (vote_action h w) st1)
        as (r & st' & rest & Hout & Hw'); [congruence |].
      exists r, st'. eexists. exists rest. split; [now rewrite Hrun |].
      rewrite Hw', Hwr. reflexivity.
  - intros pid bill st h cs b srcs st1 l0 more lc r st' Hreach Hlaws Hc Hr.
    rewrite (proc_item_reaches E pid _ _ _ _ _ _ _ Hreach) in Hr.
    unfold bind at 1 in Hr.
    destruct (derive_action bill h b st1) as [[action| |e] s2] eqn:Hd.
    + rewrite (output_item_keeps_law_congress E _ _ _ _ _ _ _ _ _ Hr).
      revert Hd. unfold derive_action. rewrite Hlaws.
      unfold bind, attr, logging_error, modify, ret. rewrite Hc.
      destruct more, (get_attr "number" l0), (get_attr "isPrivate" l0);
        intros Hd; inversion Hd; reflexivity.
    + inversion Hr; subst. revert Hd. unfold derive_action. rewrite Hlaws.
      unfold bind, attr, logging_error, modify, ret. rewrite Hc.
      destruct more, (get_attr "number" l0), (get_attr "isPrivate" l0);
        intros Hd; inversion Hd; reflexivity.
    + inversion Hr; subst. revert Hd. unfold derive_action. rewrite Hlaws.
      unfold bind, attr, logging_error, modify, ret, raise. rewrite Hc.
      destruct more, (get_attr "number" l0), (get_attr "isPrivate" l0);
        intros Hd; inversion Hd; reflexivity.
  - intros path options st mods ce ae bill rest h cs b srcs st1 oc w
      Hp Hce Hae Hitems Hreach Hm Hlaws Ho Hw.
    rewrite (proc_statute_loop E path options st mods ce ae Hp Hce Hae).
    destruct (Lawless _ _ _ _ _ _ _ _ _ _ Hreach Hm Hlaws Ho Hw) as (Hrun & Hlc & _).
    rewrite Hitems. apply bind_raise. simpl for_each.
    rewrite Hrun, Unbound; [reflexivity |].
    rewrite Hlc. reflexivity.
Qed.

(** *** Other classes *)

Lemma not_member (x : option string) (l : list string) :
  (forall c, x = Some c -> ~ In c l) -> member x l = false.
Proof.
  intros H. destruct x as [s|]; [| reflexivity]. simpl.
  destruct (existsb (String.eqb s) l) eqn:Hex; [| reflexivity].
  apply existsb_exists in Hex. destruct Hex as (c & Hin & Heq).
  apply String.eqb_eq in Heq. subst c. exfalso. exact (H s eq_refl Hin).
Qed.

Lemma written_loop_entry (E : Env) path options congress st :
  written (loop_entry E path options congress st) = written st.
Proof. reflexivity. Qed.

(** C5.  An item whose class is none of PUBLICLAW, PRIVATELAW, HCONRES,
    SCONRES, CONSTAMEND is skipped: the state is untouched, so nothing
    is written and nothing is logged.  Hence a loop over such an item
    and one other item does what the loop over the other item alone
    does, in either order; and a volume made of one such item followed
    by an item that writes exactly one Bill Record writes exactly one
    Bill Record. *)
Theorem other_classes_are_skipped (E : Env) :
  (forall pid bill st h,
     read_item bill st = (Ret h, st) ->
     (forall c, granule_class h = Some c -> ~ In c classes) ->
     proc_item E pid bill st = (Continue, st))
  /\ (forall pid front law st h,
        read_item front st = (Ret h, st) ->
        (forall c, granule_class h = Some c -> ~ In c classes) ->
        for_each [front; law] (proc_item E pid) st = for_each [law] (proc_item E pid) st
        /\ for_each [law; front] (proc_item E pid) st
           = for_each [law] (proc_item E pid) st)
  /\ (forall path options st mods ce ae front law h,
        parse E (path ++ "/mods.xml") = inr mods ->
        find mods volume_congress = Some ce ->
        find mods volume_access_id = Some ae ->
        findall mods [Tag "mods:relatedItem"] = [front; law] ->
        read_item front st = (Ret h, st) ->
        (forall c, granule_class h = Some c -> ~ In c classes) ->
        bill_records
          (written (snd (proc_item E (text ae) law
                           (loop_entry E path options (text ce) st))))
        = S (bill_records (written st)) ->
        bill_records (written (snd (proc_statute E path options st)))
        = S (bill_records (written st))).
Proof.
  assert (Skip : forall pid bill st h,
     read_item bill st = (Ret h, st) ->
     (forall c, granule_class h = Some c -> ~ In c classes) ->
     proc_item E pid bill st = (Continue, st)).
  { intros pid bill st h Hh Hc. apply (skipped_class E pid bill st h Hh).
    now apply not_member. }
  split; [exact Skip | split].
  - intros pid front law st h Hh Hc. split.
    + simpl. now rewrite (Skip pid front st h Hh Hc).
    + simpl. destruct (proc_item E pid law st) as [[[]| |e] s1] eqn:Hl;
        try reflexivity;
        now rewrite (Skip pid front s1 h (read_item_any_state _ _ _ _ Hh) Hc).
  - intros path options st mods ce ae front law h Hp Hce Hae Hitems Hh Hc Hone.
    rewrite (proc_statute_loop E path options st mods ce ae Hp Hce Hae), Hitems.
    unfold bind. simpl for_each.
    rewrite (Skip (text ae) front _ h (read_item_any_state _ _ _ _ Hh) Hc).
    destruct (proc_item E (text ae) law (loop_entry E path options (text ce) st))
      as [[[]| |e] s1]; exact Hone.
Qed.

(** *** Batch selection *)

Lemma in_range (lo n : Z) (len : nat) :
  In n (map (fun i => lo + Z.of_nat i) (seq 0 len)) <-> lo <= n < lo + Z.of_nat len.
Proof.
  rewrite in_map_iff. split.
  - intros (i & <- & Hi). apply in_seq in Hi. lia.
  - intros Hn. exists (Z.to_nat (n - lo)). split; [lia |].
    apply in_seq. lia.
Qed.

Lemma range_of_ok (E : Env) (v a b : string) (lo hi : Z) (st : state) :
  Py.split "-" v = [a; b] ->
  Py.int a = Some lo ->
  Py.int b = Some hi ->
  - maxint E - 1 <= lo <= maxint E ->
  - maxint E - 1 <= hi + 1 <= maxint E ->
  hi + 1 - lo <= maxint E ->
  exists r, range_of E (OStr v) st = (Ret r, st)
            /\ forall n, In n r <-> lo <= n <= hi.
Proof.
  intros Hs Ha Hb Hlo Hhi Hlen. unfold range_of.
  unfold bind at 1, ret at 1. cbv beta iota. rewrite Hs.
  unfold bind at 1, ret at 1. cbv beta iota.
  unfold bind at 1, int_of. rewrite Ha. unfold ret at 1. cbv beta iota.
  unfold bind at 1. rewrite Hb. unfold ret at 1. cbv beta iota.
  unfold xrange, fits.
  replace (_ && _ && _) with true; cycle 1.
  { symmetry. rewrite !andb_true_iff, !Z.leb_le. lia. }
  eexists. split; [reflexivity |].
  intros n. rewrite in_range. lia.
Qed.

(** C7.  A volume range or a year range with endpoints [lo] and [hi]
    (both within the machine integers that [xrange] accepts) selects
    exactly the batches that the directory listing gives for the numbers
    [n] with [lo <= n <= hi]: for a volume range the directories
    [STATUTE-n] under any year of [data_dir/fdsys/STATUTE], for a year
    range the directories [STATUTE-*] under the year [n].  The selection
    itself raises nothing, and a run over an empty selection logs the
    count and ends without error. *)
Theorem range_selection_inclusive
    (E : Env) (options : gmap string optval) (st : state) :
  (forall v a b lo hi,
     options !! "volume" = None ->
     options !! "volumes" = Some (OStr v) ->
     Py.split "-" v = [a; b] ->
     Py.int a = Some lo ->
     Py.int b = Some hi ->
     - maxint E - 1 <= lo <= maxint E ->
     - maxint E - 1 <= hi + 1 <= maxint E ->
     hi + 1 - lo <= maxint E ->
     exists sel,
       to_fetch E options st = (Ret sel, st)
       /\ (forall p, In p sel
                     <-> exists n,
                           lo <= n <= hi
                           /\ In p (glob E ((data_dir E ++ "/fdsys/STATUTE")
                                            ++ "/*/STATUTE-" ++ Py.str n)))
       /\ (sel = [] ->
           run E options st
           = (Ret tt, add_event (LogWarn "Going to process 0 volumes") st)))
  /\ (forall v a b lo hi,
        options !! "volume" = None ->
        options !! "volumes" = None ->
        options !! "year" = None ->
        options !! "years" = Some (OStr v) ->
        Py.split "-" v = [a; b] ->
        Py.int a = Some lo ->
        Py.int b = Some hi ->
        - maxint E - 1 <= lo <= maxint E ->
        - maxint E - 1 <= hi + 1 <= maxint E ->
        hi + 1 - lo <= maxint E ->
        exists sel,
          to_fetch E options st = (Ret sel, st)
          /\ (forall p, In p sel
                        <-> exists n,
                              lo <= n <= hi
                              /\ In p (glob E ((data_dir E ++ "/fdsys/STATUTE")
                                               ++ "/" ++ Py.str n ++ "/STATUTE-*")))
          /\ (sel = [] ->
              run E options st
              = (Ret tt, add_event (LogWarn "Going to process 0 volumes") st))).
Proof.
  assert (Empty : forall sel,
            to_fetch E options st = (Ret sel, st) -> sel = [] ->
            run E options st
            = (Ret tt, add_event (LogWarn "Going to process 0 volumes") st)).
  { intros sel Hsel ->. unfold run. rewrite (bind_ret _ _ _ _ _ Hsel). reflexivity. }
  split.
  - intros v a b lo hi Hv Hvs Hs Ha Hb Hlo Hhi Hlen.
    destruct (range_of_ok E v a b lo hi st Hs Ha Hb Hlo Hhi Hlen) as (r & Hr & Hin).
    exists (flat_map (fun v => glob E (volume_pattern E v)) r).
    assert (Hsel : to_fetch E options st
                   = (Ret (flat_map (fun v => glob E (volume_pattern E v)) r), st)).
    { unfold to_fetch. rewrite Hv, Hvs. now rewrite (bind_ret _ _ _ _ _ Hr). }
    split; [exact Hsel | split; [| exact (Empty _ Hsel)]].
    intros p. rewrite in_flat_map. split.
    + intros (n & Hn & Hp). exists n. split; [now apply Hin | exact Hp].
    + intros (n & Hn & Hp). exists n. split; [now apply Hin | exact Hp].
  - intros v a b lo hi Hv Hvs Hy Hys Hs Ha Hb Hlo Hhi Hlen.
    destruct (range_of_ok E v a b lo hi st Hs Ha Hb Hlo Hhi Hlen) as (r & Hr & Hin).
    exists (flat_map (fun y => glob E (year_pattern E y)) r).
    assert (Hsel : to_fetch E options st
                   = (Ret (flat_map (fun y => glob E (year_pattern E y)) r), st)).
    { unfold to_fetch. rewrite Hv, Hvs, Hy, Hys. now rewrite (bind_ret _ _ _ _ _ Hr). }
    split; [exact Hsel | split; [| exact (Empty _ Hsel)]].
    intros p. rewrite in_flat_map. split.
    + intros (n & Hn & Hp). exists n. split; [now apply Hin | exact Hp].
    + intros (n & Hn & Hp). exists n. split; [now apply Hin | exact Hp].
Qed.

(** *** Plaintext extraction *)

(** With plaintext off, an item runs no subprocess and leaves plaintext
    off, however it ends. *)
Lemma proc_item_plaintext_off (E : Env) (pid : option string) bill s r s' :
  truthy (plaintext s) = false ->
  proc_item E pid bill s = (r, s') ->
  invoked s' = invoked s /\ plaintext s' = plaintext s.
Proof.
  intros Hoff H.
  destruct (proc_item_inv E pid (fun s => (invoked s, plaintext s)) bill s r s'
              (fun _ _ => eq_refl) (fun _ _ => eq_refl) H)
    as [Hsame | (h & cs & b & srcs & action & s1 & s2 & s3 & _ & _ & Hf & Hout)].
  - now injection Hsame.
  - injection Hf as Hi Hp.
    destruct (output_item_plaintext_off E _ _ _ _ _ _ _ _ _
                ltac:(rewrite Hp; exact Hoff) Hout) as [Hi' Hp'].
    split; congruence.
Qed.

Lemma loop_plaintext_off (E : Env) (pid : option string) items :
  forall s r s',
    truthy (plaintext s) = false ->
    for_each items (proc_item E pid) s = (r, s') ->
    invoked s' = invoked s /\ plaintext s' = plaintext s.
Proof.
  induction items as [|bill items IH]; intros s r s' Hoff H.
  - inversion H; subst. split; reflexivity.
  - simpl in H.
    destruct (proc_item E pid bill s) as [res s1] eqn:Hb.
    destruct (proc_item_plaintext_off E pid bill s res s1 Hoff Hb) as [Hi Hp].
    destruct res as [[]| |e].
    + destruct (IH s1 r s' ltac:(rewrite Hp; exact Hoff) H) as [Hi' Hp'].
      split; congruence.
    + destruct (IH s1 r s' ltac:(rewrite Hp; exact Hoff) H) as [Hi' Hp'].
      split; congruence.
    + inversion H; subst. split; assumption.
Qed.

(** C8, amended.  When the text-extraction tool is missing (every call
    ends in [OSError] with errno 2) and an item reaches the plaintext
    step with plaintext requested, the failure is logged and not raised:
    the item ends normally, with plaintext switched off.  From then on,
    for the rest of the volume, no item runs the tool and plaintext stays
    off.  The switch is a local of [proc_statute]: a volume processed
    with the plaintext option reads it again, whatever an earlier volume
    left, so a volume whose first item reaches the plaintext step runs
    the tool exactly once, for that item, and ends with plaintext off. *)
Theorem tool_missing_degrades_volume (E : Env) (pid : option string) :
  (forall args, check_output E args = inl (OSError 2)) ->
  (forall bill st h cs b srcs st1 action s2 u tup,
     reaches_action pid bill st h cs b srcs st1 ->
     derive_action bill h b st1 = (Ret action, s2) ->
     law_congress s2 = Some (bill_congress b) ->
     find bill pdf_rendition = Some u ->
     truthy (plaintext s2) = true ->
     split_bill_version_id E (bill_version_id_of b "enr") = inr tup ->
     exists st' call,
       proc_item E pid bill st = (Ret tt, st')
       /\ plaintext st' = OBool false
       /\ trace st' = (trace s2 ++ [LogError "pdftotext not available"])%list
       /\ invoked st' = (invoked s2 ++ [call])%list
       /\ written st'
          = (written s2 ++ [record_of E h cs b srcs action s2; stub_of E b action u])%list)
  /\ (forall items st r st',
        truthy (plaintext st) = false ->
        for_each items (proc_item E pid) st = (r, st') ->
        invoked st' = invoked st /\ plaintext st' = plaintext st)
  /\ (forall path options st mods ce ae bill rest h cs b srcs st1 action s2 u tup,
        truthy (default (OBool false) (options !! "plaintext")) = true ->
        parse E (path ++ "/mods.xml") = inr mods ->
        find mods volume_congress = Some ce ->
        find mods volume_access_id = Some ae ->
        findall mods [Tag "mods:relatedItem"] = bill :: rest ->
        reaches_action (text ae) bill (loop_entry E path options (text ce) st)
          h cs b srcs st1 ->
        derive_action bill h b st1 = (Ret action, s2) ->
        law_congress s2 = Some (bill_congress b) ->
        find bill pdf_rendition = Some u ->
        split_bill_version_id E (bill_version_id_of b "enr") = inr tup ->
        exists call,
          invoked (snd (proc_statute E path options st)) = (invoked st ++ [call])%list
          /\ plaintext (snd (proc_statute E path options st)) = OBool false).
Proof.
  intros Htool.
  assert (Item : forall pid' bill st h cs b srcs st1 action s2 u tup,
     reaches_action pid' bill st h cs b srcs st1 ->
     derive_action bill h b st1 = (Ret action, s2) ->
     law_congress s2 = Some (bill_congress b) ->
     find bill pdf_rendition = Some u ->
     truthy (plaintext s2) = true ->
     split_bill_version_id E (bill_version_id_of b "enr") = inr tup ->
     exists st' call,
       proc_item E pid' bill st = (Ret tt, st')
       /\ plaintext st' = OBool false
       /\ trace st' = (trace s2 ++ [LogError "pdftotext not available"])%list
       /\ invoked st' = (invoked s2 ++ [call])%list
       /\ written st'
          = (written s2 ++ [record_of E h cs b srcs action s2; stub_of E b action u])%list).
  { intros pid' bill st h cs b srcs st1 action s2 u tup Hreach Hd Hlc Hu Hon Hsplit.
    rewrite (proc_item_reaches E pid' _ _ _ _ _ _ _ Hreach), (bind_ret _ _ _ _ _ Hd).
    unfold output_item.
    unfold bind at 1, gets at 1. cbv beta iota zeta. rewrite Hlc.
    rewrite String.eqb_refl. cbn [negb]. cbv beta iota.
    unfold bind at 1, gets at 1. cbv beta iota.
    unfold bind at 1, modify at 1. cbv beta iota.
    unfold bind at 1, find_text. rewrite Hu. unfold ret at 1. cbv beta iota.
    unfold bind at 1, modify at 1. cbv beta iota.
    unfold bind at 1, gets at 1. cbv beta iota.
    cbn [plaintext add_output]. rewrite Hon.
    unfold try_except_OSError, output_bill_plaintext, plaintext_output_for.
    unfold bind at 1. unfold bind at 1. unfold bind at 1. unfold lift at 1.
    rewrite Hsplit. destruct tup as [[[ty num] cong] ver].
    unfold ret at 1. cbv beta iota. unfold ret at 1. cbv beta iota.
    unfold subprocess_check_output, bind at 1, modify at 1. cbv beta iota.
    unfold lift. rewrite Htool. unfold raise at 1. cbv beta iota.
    change (2 =? 2) with true. cbv beta iota.
    unfold bind, logging_error, modify, raise.
    do 2 eexists. split; [reflexivity |].
    simpl. rewrite <- app_assoc. repeat split; reflexivity. }
  split; [apply Item | split].
  - intros items st r st'. apply loop_plaintext_off.
  - intros path options st mods ce ae bill rest h cs b srcs st1 action s2 u tup
      Hopt Hp Hce Hae Hitems Hreach Hd Hlc Hu Hsplit.
    (* the flag at the plaintext step is the one read from the options *)
    assert (Hon : truthy (plaintext s2) = true).
    { destruct Hreach as (_ & Hb & _).
      rewrite (keeps_derive_action plaintext bill h b
                 (fun _ _ => eq_refl) (fun _ _ => eq_refl) _ _ _ Hd).
      rewrite (keeps_read_bill_reference plaintext bill h (fun _ _ => eq_refl) _ _ _ Hb).
      exact Hopt. }
    assert (Hinv : invoked s2 = invoked st).
    { destruct Hreach as (_ & Hb & _).
      rewrite (keeps_derive_action invoked bill h b
                 (fun _ _ => eq_refl) (fun _ _ => eq_refl) _ _ _ Hd).
      now rewrite (keeps_read_bill_reference invoked bill h (fun _ _ => eq_refl) _ _ _ Hb). }
    destruct (Item _ _ _ _ _ _ _ _ _ _ _ _ Hreach Hd Hlc Hu Hon Hsplit)
      as (s3 & call & Hrun & Hoff & Htr & Hcall & _).
    exists call.
    rewrite (proc_statute_loop E path options st mods ce ae Hp Hce Hae), Hitems.
    unfold bind. simpl for_each. rewrite Hrun.
    destruct (for_each rest (proc_item E (text ae)) s3) as [res s4] eqn:Hloop.
    destruct (loop_plaintext_off E (text ae) rest s3 res s4
                ltac:(rewrite Hoff; reflexivity) Hloop) as [Hi Hpl].
    rewrite <- Hinv, <- Hcall, <- Hoff.
    destruct res as [[]| |e]; simpl; split; assumption.
Qed.

(** *** Constitutional amendments *)

(** An amendment item without the proposed-amendment flag is logged and
    skipped. *)
Lemma ratification_without_flag_skipped
    (E : Env) (pid : option string) (bill : element) (st : state) (h : header) :
  read_item bill st = (Ret h, st) ->
  granule_class h = Some "CONSTAMEND" ->
  find bill (ext "mods:isProposedAmendment") = None ->
  proc_item E pid bill st
  = (Continue, add_event (LogError ("Ratified: " ++ title h)) st).
Proof.
  intros Hh Hc Hflag. unfold proc_item. rewrite (bind_ret _ _ _ _ _ Hh).
  apply bind_continue. unfold classify. rewrite Hc, Hflag. reflexivity.
Qed.

(** An amendment item that has the flag passes the filter, whatever the
    flag's text: the filter compares the element, not its text, with the
    string. *)
Lemma amendment_with_flag_passes
    (bill : element) (st : state) (h : header) (e : element) :
  granule_class h = Some "CONSTAMEND" ->
  find bill (ext "mods:isProposedAmendment") = Some e ->
  classify bill h st = (Ret tt, st).
Proof. intros Hc Hflag. unfold classify. rewrite Hc, Hflag. reflexivity. Qed.

(** C2, at the failing input.  The second item of the sample volume 66
    is a constitutional amendment whose proposed-amendment flag is
    present with the text [false].  The filter lets it through without a
    log line, and the volume writes a Bill Record for it. *)
Theorem ratification_flag_false_is_processed :
  (exists e, find Demo.ratification_notice (ext "mods:isProposedAmendment") = Some e
             /\ text e = Some "false")
  /\ (forall st,
        let h := Demo.header_of "CONSTAMEND" "Amendment to the Constitution." in
        read_item Demo.ratification_notice st = (Ret h, st)
        /\ classify Demo.ratification_notice h st = (Ret tt, st))
  /\ parse Demo.E (Demo.volume_66 ++ "/mods.xml")
     = inr (Demo.document "82" [Demo.private_law; Demo.ratification_notice])
  /\ exists r st' bd,
       proc_statute Demo.E Demo.volume_66 ∅ Demo.start = (r, st')
       /\ In (BillRecord bd) (written st')
       /\ get "bill_id" bd = Some (VStr "sjres5-82")
       /\ get "status" bd = Some (VStr "PASSED:CONSTAMEND")
       /\ bill_records (written st') = 2%nat
       /\ errors (trace st') = O.
Proof.
  split; [eexists; split; reflexivity |].
  split; [intros st; split; reflexivity |].
  split; [reflexivity |].
  destruct (proc_statute Demo.E Demo.volume_66 ∅ Demo.start) as [r st'] eqn:Hrun.
  vm_compute in Hrun. injection Hrun as <- <-.
  do 3 eexists. split; [reflexivity |].
  split; [right; right; left; reflexivity |].
  repeat split; reflexivity.
Qed.

(** *** Counterexamples to the claims as worded *)

(** C1 as worded fails: an item with two bill sub-records and a law of
    another congress logs two errors, the anomaly and the mismatch. *)
Lemma mismatch_logs_two_errors :
  ~ mismatch_logs_one_error Demo.E Demo.pid Demo.two_bills_mismatch Demo.start.
Proof.
  intros H.
  destruct (H (Demo.header_of "PUBLICLAW" "An Act With a typo in its metadata.")
              [] (Demo.ref "82" "HR" "2") Demo.sources
              (add_event (LogError "Multiple bills associated with STATUTE-66-Pg3")
                 Demo.start)
              (Demo.law_el "83" "101" "false") [] "83" "101" "false")
    as (st' & Hrun & _ & Herr).
  - repeat split; reflexivity.
  - reflexivity.
  - reflexivity.
  - reflexivity.
  - reflexivity.
  - discriminate.
  - vm_compute in Hrun. injection Hrun as <-. vm_compute in Herr. discriminate Herr.
Qed.

(** C9 as worded fails: a law item without a PDF rendition location
    writes its Bill Record (line 276) and then ends in [AttributeError]
    on the missing location (line 281), before any stub is written. *)
Lemma record_without_stub :
  ~ record_always_with_stub Demo.E Demo.pid Sample.law_without_pdf Demo.start.
Proof.
  intros H.
  destruct (H (written (snd (proc_item Demo.E Demo.pid Sample.law_without_pdf
                               Demo.start)))
              (first_record
                 (written (snd (proc_item Demo.E Demo.pid Sample.law_without_pdf
                                  Demo.start))))
              eq_refl (or_introl eq_refl)) as (id & v & Hin).
  vm_compute in Hin. destruct Hin as [Hin | []]. discriminate Hin.
Qed.

(** The run behind it: one record, no stub, [AttributeError]. *)
Example law_without_pdf_run :
  fst (proc_item Demo.E Demo.pid Sample.law_without_pdf Demo.start)
  = Raise AttributeError
  /\ find Sample.law_without_pdf pdf_rendition = None
  /\ exists bd,
       written (snd (proc_item Demo.E Demo.pid Sample.law_without_pdf Demo.start))
       = [BillRecord bd]
       /\ get "bill_id" bd = Some (VStr "hr30-82").
Proof.
  split; [reflexivity | split; [reflexivity |]].
  eexists. split; reflexivity.
Qed.

(** C8 as worded fails: with the tool missing and plaintext requested,
    a run over volumes 65 and 66 invokes the tool once in each volume. *)
Lemma tool_invoked_again_in_next_volume :
  ~ degrades_for_the_run Demo.E_missing
      (<["plaintext" := OBool true]> {["volumes" := OStr "65-66"]}) Demo.start.
Proof.
  intros H.
  destruct (run Demo.E_missing
              (<["plaintext" := OBool true]> {["volumes" := OStr "65-66"]})
              Demo.start) as [r st'] eqn:Hrun.
  specialize (H (fun _ => eq_refl) r st' Hrun).
  vm_compute in Hrun. injection Hrun as <- <-.
  vm_compute in H. lia.
Qed.

(** The two invocations: one for the law of volume 65, one for the law
    of volume 66, and the tool-missing error logged twice. *)
Example run_65_66_with_tool_missing :
  let st' := snd (run Demo.E_missing
                    (<["plaintext" := OBool true]> {["volumes" := OStr "65-66"]})
                    Demo.start) in
  invoked st'
  = [[Some "pdftotext";
      Some "http://www.gpo.gov/fdsys/pkg/STATUTE-66/pdf/STATUTE-66-Pg3.pdf";
      Some "data/82/bills/hr/hr1/text-versions/enr/document.txt"];
     [Some "pdftotext";
      Some "http://www.gpo.gov/fdsys/pkg/STATUTE-66/pdf/STATUTE-66-Pg3.pdf";
      Some "data/82/bills/s/s20/text-versions/enr/document.txt"]]
  /\ trace st'
     = [LogWarn "Going to process 2 volumes";
        LogWarn "Processing data/fdsys/STATUTE/1951/STATUTE-65 (Congress 82)";
        LogError "pdftotext not available";
        LogWarn "Processing data/fdsys/STATUTE/1952/STATUTE-66 (Congress 82)";
        LogError "pdftotext not available"].
Proof. vm_compute. split; reflexivity. Qed.

(** *** The theorems at the sample documents *)

Lemma congress_mismatch_skips_witness :
  exists st',
    proc_item Demo.E Demo.pid Demo.two_bills_mismatch Demo.start = (Continue, st')
    /\ written st' = []
    /\ trace st'
       = [LogError "Multiple bills associated with STATUTE-66-Pg3";
          LogError "Congress mismatch for hr2: 82 or 83?"].
Proof.
  destruct (congress_mismatch_skips Demo.E Demo.pid Demo.two_bills_mismatch Demo.start
              (Demo.header_of "PUBLICLAW" "An Act With a typo in its metadata.")
              [] (Demo.ref "82" "HR" "2") Demo.sources
              (add_event (LogError "Multiple bills associated with STATUTE-66-Pg3")
                 Demo.start)
              (Demo.bill_el "82" "HR" "2") [Demo.bill_el "82" "S" "3"]
              (Demo.law_el "83" "101" "false") [] "83" "101" "false")
    as (st' & Hrun & Hw & Ht & _).
  - repeat split; reflexivity.
  - reflexivity.
  - reflexivity.
  - reflexivity.
  - reflexivity.
  - reflexivity.
  - discriminate.
  - exists st'. split; [exact Hrun | split; [exact Hw | exact Ht]].
Defined.

Lemma resolution_vote_action_witness :
  exists action,
    proc_item Demo.E Demo.pid Demo.senate_resolution Demo.start
    = output_item Demo.E Demo.senate_resolution
        (Demo.header_of "SCONRES" "Concurrent resolution.") []
        (Demo.ref "82" "SCONRES" "7") Demo.sources action Demo.start
    /\ get "type" action = Some (VStr "vote")
    /\ get "where" action = Some (VStr "h")
    /\ get "status" action = Some (VStr "PASSED:CONCURRENTRES").
Proof.
  destruct (resolution_vote_action Demo.E Demo.pid Demo.senate_resolution Demo.start
              (Demo.header_of "SCONRES" "Concurrent resolution.") []
              (Demo.ref "82" "SCONRES" "7") Demo.sources Demo.start
              "SCONRES" (Demo.el "mods:originChamber" "SENATE"))
    as (action & _ & Hrun & Hty & _ & Hw & _ & _ & Hst & _).
  - repeat split; reflexivity.
  - reflexivity.
  - right; left; reflexivity.
  - reflexivity.
  - reflexivity.
  - right; reflexivity.
  - exists action. split; [exact Hrun | split; [exact Hty | split; [| exact Hst]]].
    apply Hw. reflexivity.
Defined.

Lemma enacted_law_action_witness :
  exists r st' bd rest action,
    proc_item Demo.E Demo.pid Demo.public_law Demo.start = (r, st')
    /\ written st' = (written Demo.start ++ BillRecord bd :: rest)%list
    /\ get "bill_id" bd = Some (VStr "hr1-82")
    /\ get "actions" bd = Some (VList [action])
    /\ get "type" action = Some (VStr "enacted")
    /\ get "text" action = Some (VStr "Became Public Law No: 82-100.")
    /\ get "status" action = Some (VStr "ENACTED:SIGNED").
Proof.
  apply (proj2 (enacted_law_action Demo.E Demo.pid)
           Demo.public_law Demo.start
           (Demo.header_of "PUBLICLAW" "An Act To amend the Act.") []
           (Demo.ref "82" "hr" "1") Demo.sources Demo.start
           (Demo.bill_el "82" "hr" "1") [] (Demo.law_el "82" "100" "false") []).
  - repeat split; reflexivity.
  - reflexivity.
  - reflexivity.
  - reflexivity.
  - reflexivity.
  - reflexivity.
  - reflexivity.
  - reflexivity.
  - reflexivity.
Defined.

Lemma other_classes_are_skipped_witness :
  proc_item Demo.E Demo.pid Demo.front_matter Demo.start = (Continue, Demo.start)
  /\ bill_records (written (snd (proc_statute Demo.E Demo.volume_65 ∅ Demo.start)))
     = 1%nat.
Proof.
  assert (Hclass : forall c,
            granule_class (Demo.header_of "FRONTMATTER" "Title page") = Some c ->
            ~ In c classes).
  { intros c Hc. injection Hc as <-. simpl.
    intros [H | [H | [H | [H | [H | []]]]]]; discriminate H. }
  split.
  - apply (proj1 (other_classes_are_skipped Demo.E) Demo.pid Demo.front_matter
             Demo.start (Demo.header_of "FRONTMATTER" "Title page"));
      [reflexivity | exact Hclass].
  - apply (proj2 (proj2 (other_classes_are_skipped Demo.E))
             Demo.volume_65 ∅ Demo.start
             (Demo.document "82" [Demo.front_matter; Demo.public_law])
             (Demo.el "mods:congress" "82") (Demo.el "mods:accessId" "STATUTE-66")
             Demo.front_matter Demo.public_law
             (Demo.header_of "FRONTMATTER" "Title page"));
      [reflexivity | reflexivity | reflexivity | reflexivity | reflexivity
      | exact Hclass | vm_compute; reflexivity].
Defined.

Lemma bill_reference_extraction_witness :
  proc_item Demo.E Demo.pid Demo.no_bill Demo.start
  = (Continue,
     add_event
       (LogError "Could not get bill data for STATUTE-66-Pg3: An Act Without a bill.")
       Demo.start)
  /\ read_bill_reference Demo.two_bills_mismatch
       (Demo.header_of "PUBLICLAW" "An Act With a typo in its metadata.") Demo.start
     = (Ret (Demo.ref "82" "HR" "2"),
        add_event (LogError "Multiple bills associated with STATUTE-66-Pg3") Demo.start).
Proof.
  split.
  - apply (proj1 (bill_reference_extraction Demo.E Demo.pid Demo.no_bill Demo.start
                    (Demo.header_of "PUBLICLAW" "An Act Without a bill.") []
                    ltac:(repeat split; reflexivity))).
    reflexivity.
  - apply (proj2 (bill_reference_extraction Demo.E Demo.pid Demo.two_bills_mismatch
                    Demo.start
                    (Demo.header_of "PUBLICLAW" "An Act With a typo in its metadata.")
                    [] ltac:(repeat split; reflexivity))
             (Demo.bill_el "82" "HR" "2") (Demo.bill_el "82" "S" "3") []
             "82" "HR" "2");
      reflexivity.
Defined.

Lemma range_selection_inclusive_witness :
  (to_fetch Demo.E {["volumes" := OStr "66-67"]} Demo.start
   = (Ret ["data/fdsys/STATUTE/1952/STATUTE-66"; "data/fdsys/STATUTE/1953/STATUTE-67"],
      Demo.start)
   /\ forall p,
        In p ["data/fdsys/STATUTE/1952/STATUTE-66"; "data/fdsys/STATUTE/1953/STATUTE-67"]
        <-> exists n,
              66 <= n <= 67
              /\ In p (glob Demo.E ("data/fdsys/STATUTE/*/STATUTE-" ++ Py.str n)))
  /\ (to_fetch Demo.E {["years" := OStr "1951-1952"]} Demo.start
      = (Ret ["data/fdsys/STATUTE/1951/STATUTE-65"; "data/fdsys/STATUTE/1952/STATUTE-66"],
         Demo.start)
      /\ forall p,
           In p ["data/fdsys/STATUTE/1951/STATUTE-65";
                 "data/fdsys/STATUTE/1952/STATUTE-66"]
           <-> exists n,
                 1951 <= n <= 1952
                 /\ In p (glob Demo.E ("data/fdsys/STATUTE/" ++ Py.str n
                                       ++ "/STATUTE-*"))).
Proof.
  split.
  - destruct (proj1 (range_selection_inclusive Demo.E {["volumes" := OStr "66-67"]}
                       Demo.start)
                "66-67" "66" "67" 66 67) as (sel & Hsel & Hin & _).
    + reflexivity.
    + reflexivity.
    + reflexivity.
    + reflexivity.
    + reflexivity.
    + simpl. lia.
    + simpl. lia.
    + simpl. lia.
    + pose proof Hsel as Hval. vm_compute in Hval. injection Hval as Hval.
      rewrite <- Hval in Hsel, Hin. split; [exact Hsel | exact Hin].
  - destruct (proj2 (range_selection_inclusive Demo.E {["years" := OStr "1951-1952"]}
                       Demo.start)
                "1951-1952" "1951" "1952" 1951 1952) as (sel & Hsel & Hin & _).
    + reflexivity.
    + reflexivity.
    + reflexivity.
    + reflexivity.
    + reflexivity.
    + reflexivity.
    + reflexivity.
    + simpl. lia.
    + simpl. lia.
    + simpl. lia.
    + pose proof Hsel as Hval. vm_compute in Hval. injection Hval as Hval.
      rewrite <- Hval in Hsel, Hin. split; [exact Hsel | exact Hin].
Defined.

Lemma tool_missing_degrades_volume_witness :
  (exists st' call,
     proc_item Demo.E_missing Demo.pid Demo.public_law
       (set_plaintext (OBool true) Demo.start) = (Ret tt, st')
     /\ plaintext st' = OBool false
     /\ trace st' = [LogError "pdftotext not available"]
     /\ invoked st' = [call])
  /\ plaintext Sample.after_volume_65 = OBool false
  /\ invoked Sample.after_volume_65 = [Sample.pdftotext_hr1]
  /\ invoked (snd (proc_statute Demo.E_missing Demo.volume_66 Sample.with_plaintext
                     Sample.after_volume_65))
     = [Sample.pdftotext_hr1; Sample.pdftotext_s20]
  /\ plaintext (snd (proc_statute Demo.E_missing Demo.volume_66 Sample.with_plaintext
                       Sample.after_volume_65))
     = OBool false.
Proof.
  split; [| split; [reflexivity | split; [reflexivity |]]].
  - destruct (proj1 (tool_missing_degrades_volume Demo.E_missing Demo.pid
                       (fun _ => eq_refl))
                Demo.public_law (set_plaintext (OBool true) Demo.start)
                (Demo.header_of "PUBLICLAW" "An Act To amend the Act.") []
                (Demo.ref "82" "hr" "1") Demo.sources
                (set_plaintext (OBool true) Demo.start)
                (enacted_action (Demo.header_of "PUBLICLAW" "An Act To amend the Act.")
                   "82" "100" "public")
                (set_law_congress (Some "82") (set_plaintext (OBool true) Demo.start))
                (Demo.url "PDF rendition"
                   "http://www.gpo.gov/fdsys/pkg/STATUTE-66/pdf/STATUTE-66-Pg3.pdf")
                ("hr", "1", "82", "enr"))
      as (st' & call & Hrun & Hp & Ht & Hi & _).
    + repeat split; reflexivity.
    + reflexivity.
    + reflexivity.
    + reflexivity.
    + reflexivity.
    + reflexivity.
    + exists st', call.
      split; [exact Hrun | split; [exact Hp | split; [exact Ht | exact Hi]]].
  - destruct (proj2 (proj2 (tool_missing_degrades_volume Demo.E_missing Demo.pid
                              (fun _ => eq_refl)))
                Demo.volume_66 Sample.with_plaintext Sample.after_volume_65
                (Demo.document "82" [Demo.private_law; Demo.ratification_notice])
                (Demo.el "mods:congress" "82") (Demo.el "mods:accessId" "STATUTE-66")
                Demo.private_law [Demo.ratification_notice]
                (Demo.header_of "PRIVATELAW" "An Act For the relief of a claimant.") []
                (Demo.ref "82" "S" "20") Demo.sources
                (loop_entry Demo.E_missing Demo.volume_66 Sample.with_plaintext
                   (Some "82") Sample.after_volume_65)
                (enacted_action
                   (Demo.header_of "PRIVATELAW" "An Act For the relief of a claimant.")
                   "82" "5" "private")
                (set_law_congress (Some "82")
                   (loop_entry Demo.E_missing Demo.volume_66 Sample.with_plaintext
                      (Some "82") Sample.after_volume_65))
                Sample.pdf ("s", "20", "82", "enr"))
      as (call & Hi & Hp).
    + reflexivity.
    + reflexivity.
    + reflexivity.
    + reflexivity.
    + reflexivity.
    + repeat split; reflexivity.
    + reflexivity.
    + reflexivity.
    + reflexivity.
    + reflexivity.
    + split; [| exact Hp]. rewrite Hi.
      pose proof Hi as Hval. vm_compute in Hval. injection Hval as <-.
      reflexivity.
Defined.

Lemma version_stub_accompanies_record_witness :
  exists bd ty num cong status_date,
    written (snd (proc_item Demo.E Demo.pid Demo.public_law Demo.start))
    = [BillRecord bd;
       BillVersion (ty ++ num ++ "-" ++ cong ++ "-enr")
         (VDict [("bill_version_id", VStr (ty ++ num ++ "-" ++ cong ++ "-enr"));
                 ("version_code", VStr "enr");
                 ("issued_on", status_date);
                 ("urls",
                  VDict [("pdf",
                          VStr "http://www.gpo.gov/fdsys/pkg/STATUTE-66/pdf/STATUTE-66-Pg3.pdf")])])]
    /\ get "bill_id" bd = Some (VStr "hr1-82")
    /\ get "bill_id" bd = Some (VStr (ty ++ num ++ "-" ++ cong))
    /\ get "status_at" bd = Some status_date.
Proof.
  destruct (proc_item Demo.E Demo.pid Demo.public_law Demo.start) as [r st'] eqn:Hrun.
  pose proof Hrun as Hval. vm_compute in Hval. injection Hval as _ Hst.
  assert (Hw : exists bd rest,
             written st' = BillRecord bd :: rest
             /\ get "bill_id" bd = Some (VStr "hr1-82")).
  { rewrite <- Hst. do 2 eexists. split; reflexivity. }
  destruct Hw as (bd & rest & Hw & Hid).
  destruct (version_stub_accompanies_record Demo.E Demo.pid Demo.public_law
              Demo.start st' r (BillRecord bd :: rest) bd
              (Demo.url "PDF rendition"
                 "http://www.gpo.gov/fdsys/pkg/STATUTE-66/pdf/STATUTE-66-Pg3.pdf")
              Hrun Hw (or_introl eq_refl) eq_refl)
    as (ty & num & cong & sd & _ & _ & _ & Hbid & Hsd & Hnew).
  exists bd, ty, num, cong, sd.
  split; [simpl; rewrite Hw; exact Hnew |].
  split; [exact Hid | split; [exact Hbid | exact Hsd]].
Defined.

Lemma congress_check_on_lawless_item_witness :
  proc_statute Demo.E Demo.volume_67 ∅ Demo.start
  = (Raise UnboundLocalError, loop_entry Demo.E Demo.volume_67 ∅ (Some "82") Demo.start).
Proof.
  apply (proj2 (proj2 (congress_check_on_lawless_item Demo.E))
           Demo.volume_67 ∅ Demo.start
           (Demo.document "82" [Demo.senate_resolution; Demo.public_law])
           (Demo.el "mods:congress" "82") (Demo.el "mods:accessId" "STATUTE-66")
           Demo.senate_resolution [Demo.public_law]
           (Demo.header_of "SCONRES" "Concurrent resolution.") []
           (Demo.ref "82" "SCONRES" "7") Demo.sources
           (loop_entry Demo.E Demo.volume_67 ∅ (Some "82") Demo.start)
           (Demo.el "mods:originChamber" "SENATE") "h").
  - reflexivity.
  - reflexivity.
  - reflexivity.
  - reflexivity.
  - repeat split; reflexivity.
  - reflexivity.
  - reflexivity.
  - reflexivity.
  - reflexivity.
Defined.

(** ** Further properties of the item loop *)

(** *** What an item writes *)

Lemma version_id_is_bill_id (bill : element) (h : header) (b : bill_ref) (s s' : state) :
  read_bill_reference bill h s = (Ret b, s') ->
  bill_version_id_of b "enr" = bill_id b ++ "-enr".
Proof.
  intros H. rewrite (bill_id_shape _ _ _ _ _ H). unfold bill_version_id_of.
  now rewrite !append_assoc.
Qed.

Lemma stub_for_item (E : Env) bill h cs b srcs action (s s1 s2 : state) (u : element) :
  read_bill_reference bill h s1 = (Ret b, s2) ->
  match record_of E h cs b srcs action s with
  | BillRecord bd => stub_for bd (stub_of E b action u)
  | BillVersion _ _ => False
  end.
Proof.
  intros Hb. simpl. exists (bill_id b). eexists.
  split; [reflexivity |]. unfold stub_of.
  rewrite (version_id_is_bill_id _ _ _ _ _ Hb).
  repeat split; reflexivity.
Qed.

(** The plaintext helper ends with a value or an exception, never with
    the loop's [continue]. *)
Lemma output_bill_plaintext_result (E : Env) id url s r s' :
  output_bill_plaintext E id url s = (r, s') -> r <> Continue.
Proof.
  unfold output_bill_plaintext, plaintext_output_for, subprocess_check_output.
  unfold bind at 1. unfold bind at 1. unfold lift at 1.
  destruct (split_bill_version_id E id) as [e | [[[ty num] cong] ver]].
  - unfold raise. destruct e; intros H; inversion H; subst; try discriminate.
    + revert H1. unfold bind, logging_error, modify, raise, ret.
      destruct (errno =? 2); intros H1; now inversion H1.
  - unfold ret at 1. cbv beta iota. unfold ret at 1. cbv beta iota.
    unfold bind at 1, modify at 1. cbv beta iota. unfold lift.
    destruct (check_output E _) as [e | out].
    + unfold raise at 1. destruct e; intros H; inversion H; subst; try discriminate.
      * revert H1. unfold bind, logging_error, modify, raise, ret.
        destruct (errno =? 2); intros H1; now inversion H1.
    + unfold ret. intros H; inversion H. discriminate.
Qed.

(** The output stage ends in [continue] only on a congress mismatch,
    before anything is written. *)
Lemma output_item_continue (E : Env) bill h cs b srcs action s s' :
  output_item E bill h cs b srcs action s = (Continue, s') ->
  written s' = written s.
Proof.
  intros H. unfold output_item in H.
  unfold bind at 1, gets at 1 in H. cbv beta iota zeta in H.
  destruct (law_congress s) as [lc|]; [| discriminate H].
  destruct (negb (String.eqb lc (bill_congress b))).
  - unfold bind, logging_error, modify, continue in H. now inversion H.
  - exfalso.
    unfold bind at 1, gets at 1 in H. cbv beta iota in H.
    unfold bind at 1, modify at 1 in H. cbv beta iota in H.
    unfold bind at 1, find_text in H.
    destruct (find bill pdf_rendition) as [u|]; [| discriminate H].
    unfold ret at 1 in H. cbv beta iota in H.
    unfold bind at 1, modify at 1 in H. cbv beta iota in H.
    unfold bind at 1, gets at 1 in H. cbv beta iota in H.
    match type of H with
    | (if ?c then _ else _) _ = _ => destruct c
    end; [| discriminate H].
    unfold try_except_OSError, bind in H.
    match type of H with
    | context [output_bill_plaintext E ?i ?x ?st] =>
        destruct (output_bill_plaintext E i x st) as [[out| |e] s3] eqn:Hp
    end.
    + discriminate H.
    + now apply (output_bill_plaintext_result E _ _ _ _ _ Hp).
    + destruct e; discriminate H.
Qed.

(** As [proc_item_inv], and an item that stops before the output stage
    does not end normally. *)
Lemma proc_item_stages {B} (E : Env) (pid : option string) (f : state -> B)
    bill s r s' :
  unlogged f ->
  (forall c s, f (set_law_congress c s) = f s) ->
  proc_item E pid bill s = (r, s') ->
  (f s' = f s /\ r <> Ret tt)
  \/ exists h cs b srcs action s1 s2 s3,
       read_bill_reference bill h s1 = (Ret b, s2)
       /\ derive_action bill h b s2 = (Ret action, s3)
       /\ f s3 = f s
       /\ output_item E bill h cs b srcs action s3 = (r, s').
Proof.
  intros Hf Hset H. unfold proc_item in H.
  unfold bind at 1 in H.
  destruct (read_item bill s) as [[h| |e] sa] eqn:Ha;
    pose proof (keeps_read_item f _ Hf _ _ _ Ha) as Fa;
    [| left; inversion H; subst; split; [assumption | discriminate] ..].
  unfold bind at 1 in H.
  destruct (classify bill h sa) as [[[]| |e] sb] eqn:Hb;
    pose proof (keeps_classify f _ _ Hf _ _ _ Hb) as Fb; rewrite Fa in Fb;
    [| left; inversion H; subst; split; [assumption | discriminate] ..].
  unfold bind at 1 in H.
  destruct (read_committees bill sb) as [[cs| |e] sc] eqn:Hc;
    pose proof (keeps_read_committees f _ Hf _ _ _ Hc) as Fc; rewrite Fb in Fc;
    [| left; inversion H; subst; split; [assumption | discriminate] ..].
  unfold bind at 1 in H.
  destruct (read_bill_reference bill h sc) as [[b| |e] sd] eqn:Hd;
    pose proof (keeps_read_bill_reference f _ _ Hf _ _ _ Hd) as Fd; rewrite Fc in Fd;
    [| left; inversion H; subst; split; [assumption | discriminate] ..].
  unfold bind at 1 in H.
  destruct (read_sources pid bill h sd) as [[srcs| |e] se] eqn:He;
    pose proof (keeps_read_sources f _ _ _ Hf _ _ _ He) as Fe; rewrite Fd in Fe;
    [| left; inversion H; subst; split; [assumption | discriminate] ..].
  unfold bind at 1 in H.
  destruct (derive_action bill h b se) as [[action| |e] sf] eqn:Hg;
    pose proof (keeps_derive_action f _ _ _ Hf Hset _ _ _ Hg) as Fg; rewrite Fe in Fg;
    [| left; inversion H; subst; split; [assumption | discriminate] ..].
  right. exists h, cs, b, srcs, action, sc, sd, sf.
  assert (se = sd) as ->.
  { assert (K : keeps (fun s => s) (read_sources pid bill h))
      by (unfold read_sources; keeps_tac).
    exact (K _ _ _ He). }
  auto.
Qed.

(** X1.  Whatever the item and the state, an item adds to the outputs
    nothing, or one Bill Record, or one Bill Record followed by its
    stub.  An item that is skipped adds nothing; an item that ends
    normally adds exactly the record and the stub; a record without its
    stub is left only by an exception. *)
Theorem item_writes_record_then_stub
    (E : Env) (pid : option string) (bill : element) (st : state) :
  exists new,
    written (snd (proc_item E pid bill st)) = (written st ++ new)%list
    /\ item_outputs (fst (proc_item E pid bill st)) new.
Proof.
  destruct (proc_item E pid bill st) as [r st'] eqn:Hrun. simpl.
  destruct (proc_item_stages E pid written bill st r st'
              (fun _ _ => eq_refl) (fun _ _ => eq_refl) Hrun)
    as [[Hsame Hr] | (h & cs & b & srcs & action & s1 & s2 & s3 & Hb & _ & Hw & Hout)].
  - exists []. rewrite app_nil_r. split; [exact Hsame |].
    destruct r as [[]| |e]; simpl; auto. now contradiction Hr.
  - rewrite <- Hw.
    destruct (output_item_cases E _ _ _ _ _ _ _ _ _ Hout)
      as [(_ & -> & ->) | [(lc & _ & _ & -> & ->)
         | [(_ & _ & -> & ->) | (_ & u & Hu & Hw')]]].
    + exists []. rewrite app_nil_r. split; [reflexivity | now left].
    + exists []. rewrite app_nil_r. split; reflexivity.
    + eexists. split; [reflexivity |]. right. left. eexists. reflexivity.
    + pose proof (stub_for_item E bill h cs b srcs action s3 s1 s2 u Hb) as Hstub.
      unfold record_of in Hw', Hstub.
      eexists. split; [exact Hw' |].
      destruct r as [[]| |e]; simpl.
      * do 2 eexists. split; [reflexivity | exact Hstub].
      * apply output_item_continue in Hout. rewrite Hout in Hw'.
        rewrite <- (app_nil_r (written s3)) in Hw' at 1.
        apply app_inv_head in Hw'. discriminate Hw'.
      * right. right. do 2 eexists. split; [reflexivity | exact Hstub].
Qed.

(** *** What a volume writes *)




(** *** The action of a record *)

(** What the action stage answers: a vote action, with the state as it
    was, or an enacted action, with [law_congress] bound to the
    congress the action names. *)
Lemma derive_action_ret (bill : element) (h : header) (b : bill_ref)
    (s s' : state) (action : value) :
  derive_action bill h b s = (Ret action, s') ->
  (exists w, action = vote_action h w /\ (w = "s" \/ w = "h") /\ s' = s
             /\ findall bill (ext "mods:law") = [])
  \/ (exists lc ln lp,
        action = enacted_action h lc ln (law_type_of lp)
        /\ law_congress s' = Some lc
        /\ findall bill (ext "mods:law") <> []).
Proof.
  unfold derive_action. destruct (findall bill (ext "mods:law")) as [|l0 more].
  - destruct (member (granule_class h) resolution_classes).
    + unfold bind, find_text, subscript.
      destruct (find bill (ext "mods:originChamber")) as [oc|];
        [| unfold raise; discriminate].
      unfold ret at 1. cbv beta iota. unfold other_chamber.
      destruct (text oc) as [o|]; [| unfold raise; discriminate].
      destruct (String.eqb o "HOUSE");
        [| destruct (String.eqb o "SENATE"); [| unfold raise; discriminate]].
      all: unfold ret; intros H; inversion H; subst; left; eexists; auto.
    + unfold bind, logging_error, modify, continue. discriminate.
  - intros H. right. revert H. unfold bind, attr, logging_error, modify, ret, raise.
    destruct more, (get_attr "congress" l0) as [lc|], (get_attr "number" l0) as [ln|],
      (get_attr "isPrivate" l0) as [lp|];
      intros H; inversion H; subst; exists lc, ln, lp; repeat split; discriminate.
Qed.

(** A record written by an item is the one assembled from a bill
    reference and an action that the earlier stages answered. *)
Lemma written_record_inv (E : Env) (pid : option string) (bill : element)
    (st : state) (new : list output) (bd : value) :
  written (snd (proc_item E pid bill st)) = (written st ++ new)%list ->
  In (BillRecord bd) new ->
  exists h cs b srcs action s1 s2 s3,
    read_bill_reference bill h s1 = (Ret b, s2)
    /\ derive_action bill h b s2 = (Ret action, s3)
    /\ law_congress s3 = Some (bill_congress b)
    /\ BillRecord bd = record_of E h cs b srcs action s3.
Proof.
  intros Hnew Hin.
  destruct (proc_item E pid bill st) as [r st'] eqn:Hrun. simpl in Hnew.
  destruct (proc_item_inv E pid written bill st r st'
              (fun _ _ => eq_refl) (fun _ _ => eq_refl) Hrun)
    as [Hsame | (h & cs & b & srcs & action & s1 & s2 & s3 & Hb & Hd & Hw & Hout)].
  - rewrite Hsame in Hnew. rewrite <- (app_nil_r (written st)) in Hnew at 1.
    apply app_inv_head in Hnew. subst new. destruct Hin.
  - exists h, cs, b, srcs, action, s1, s2, s3.
    split; [exact Hb | split; [exact Hd |]].
    rewrite <- Hw in Hnew.
    split; [| exact (output_item_record E _ _ _ _ _ _ _ _ _ _ _ Hout Hnew Hin)].
    destruct (output_item_cases E _ _ _ _ _ _ _ _ _ Hout)
      as [(_ & _ & ->) | [(lc & _ & _ & _ & ->) | [(Hlc & _) | (Hlc & _)]]];
      try exact Hlc.
    + rewrite <- (app_nil_r (written s3)) in Hnew at 1.
      apply app_inv_head in Hnew. subst new. destruct Hin.
    + simpl in Hnew. rewrite <- (app_nil_r (written s3)) in Hnew at 1.
      apply app_inv_head in Hnew. subst new. destruct Hin.
Qed.

(** X3.  Every Bill Record an item writes has exactly one action; its
    type is [vote] or [enacted] and its status is one of
    [ENACTED:SIGNED], [PASSED:CONSTAMEND], [PASSED:CONCURRENTRES]. *)
Theorem record_has_one_known_action
    (E : Env) (pid : option string) (bill : element) (st : state)
    (new : list output) (bd : value) :
  written (snd (proc_item E pid bill st)) = (written st ++ new)%list ->
  In (BillRecord bd) new ->
  exists a ty status,
    get "actions" bd = Some (VList [a])
    /\ get "type" a = Some (VStr ty) /\ In ty ["vote"; "enacted"]
    /\ get "status" a = Some (VStr status) /\ In status statuses.
Proof.
  intros Hnew Hin.
  destruct (written_record_inv E pid bill st new bd Hnew Hin)
    as (h & cs & b & srcs & action & s1 & s2 & s3 & _ & Hd & _ & Hrec).
  injection Hrec as ->. exists action.
  destruct (derive_action_ret _ _ _ _ _ _ Hd)
    as [(w & -> & _) | (lc & ln & lp & -> & _)].
  - do 2 eexists. split; [reflexivity |]. split; [reflexivity |].
    split; [now left |]. split; [reflexivity |].
    simpl. destruct (is_str (granule_class h) "CONSTAMEND"); auto.
  - do 2 eexists. split; [reflexivity |]. split; [reflexivity |].
    split; [right; now left |]. split; [reflexivity | now left].
Qed.

(** X4.  In every Bill Record written with an [enacted] action, the
    congress named by the action is the congress of the record: no
    record is written for a law of another congress than its bill. *)
Theorem enacted_record_congress_agrees
    (E : Env) (pid : option string) (bill : element) (st : state)
    (new : list output) (bd a : value) :
  written (snd (proc_item E pid bill st)) = (written st ++ new)%list ->
  In (BillRecord bd) new ->
  get "actions" bd = Some (VList [a]) ->
  get "type" a = Some (VStr "enacted") ->
  exists c, get "congress" a = Some (VStr c) /\ get "congress" bd = Some (VStr c).
Proof.
  intros Hnew Hin Hact Hty.
  destruct (written_record_inv E pid bill st new bd Hnew Hin)
    as (h & cs & b & srcs & action & s1 & s2 & s3 & _ & Hd & Hlc & Hrec).
  injection Hrec as ->. simpl in Hact. injection Hact as <-.
  destruct (derive_action_ret _ _ _ _ _ _ Hd)
    as [(w & -> & _) | (lc & ln & lp & -> & Hs3 & _)].
  - discriminate Hty.
  - rewrite Hs3 in Hlc. injection Hlc as ->.
    exists (bill_congress b). split; reflexivity.
Qed.

(** X5.  An item of a law class (any class but the three resolution
    classes) that reaches the law sub-records and has none is skipped:
    one error is logged, nothing is written and [law_congress] stays as
    it was. *)
Theorem law_item_without_law_is_skipped
    (E : Env) (pid : option string) (bill : element) (st : state)
    (h : header) (cs : list value) (b : bill_ref) (srcs : list value) (st1 : state) :
  reaches_action pid bill st h cs b srcs st1 ->
  member (granule_class h) resolution_classes = false ->
  findall bill (ext "mods:law") = [] ->
  proc_item E pid bill st
  = (Continue,
     add_event (LogError ("Could not get law data for " ++ bill_id b ++ ": " ++ title h))
       st1)
  /\ written st1 = written st
  /\ law_congress st1 = law_congress st.
Proof.
  intros Hreach Hm Hlaws.
  rewrite (proc_item_reaches E pid _ _ _ _ _ _ _ Hreach).
  destruct Hreach as (_ & Hb & _).
  split; [| split].
  - apply bind_continue. unfold derive_action. rewrite Hlaws, Hm. reflexivity.
  - exact (keeps_read_bill_reference written bill h (fun _ _ => eq_refl) _ _ _ Hb).
  - exact (keeps_read_bill_reference law_congress bill h (fun _ _ => eq_refl) _ _ _ Hb).
Qed.

(** *** The plaintext step *)

(** Once the plaintext step is reached, the way the item ends is
    decided by what the tool call answers. *)
Lemma plaintext_step (E : Env) pid bill st h cs b srcs action s2 u args :
  reaches_plaintext E pid bill st h cs b srcs action s2 u args ->
  proc_item E pid bill st
  = let s3 := after_call E h cs b srcs action s2 u args in
    match check_output E args with
    | inr _ => (Ret tt, s3)
    | inl (OSError errno) =>
        (Ret tt,
         set_plaintext (OBool false)
           (if errno =? 2
            then add_event (LogError "pdftotext not available") s3 else s3))
    | inl (CalledProcessError msg) =>
        (Raise UnboundLocalError, add_event (Printed msg) s3)
    | inl e => (Raise e, s3)
    end.
Proof.
  intros (st1 & ty & num & cong & ver & Hreach & Hd & Hlc & Hu & Hon & Hsplit & ->).
  rewrite (proc_item_reaches E pid _ _ _ _ _ _ _ Hreach), (bind_ret _ _ _ _ _ Hd).
  unfold output_item.
  unfold bind at 1, gets at 1. cbv beta iota zeta. rewrite Hlc.
  rewrite String.eqb_refl. cbn [negb]. cbv beta iota.
  unfold bind at 1, gets at 1. cbv beta iota.
  unfold bind at 1, modify at 1. cbv beta iota.
  unfold bind at 1, find_text. rewrite Hu. unfold ret at 1. cbv beta iota.
  unfold bind at 1, modify at 1. cbv beta iota.
  unfold bind at 1, gets at 1. cbv beta iota.
  cbn [plaintext add_output]. rewrite Hon.
  unfold try_except_OSError, output_bill_plaintext, plaintext_output_for.
  unfold bind at 1. unfold bind at 1. unfold bind at 1. unfold lift at 1.
  rewrite Hsplit.
  unfold ret at 1. cbv beta iota. unfold ret at 1. cbv beta iota.
  unfold subprocess_check_output, bind at 1, modify at 1. cbv beta iota.
  unfold lift, after_call, record_of, stub_of.
  destruct (check_output E _) as [e | out]; [| reflexivity].
  destruct e; try reflexivity.
  unfold raise at 1. cbv beta iota.
  destruct (errno =? 2); reflexivity.
Qed.

(** X6.  When the tool call succeeds, the item ends normally: record
    and stub are written, the call is recorded with the PDF location and
    the path [data_dir/congress/bills/type/type+number/text-versions/
    version/document.txt], nothing is logged and plaintext stays
    requested for the following items. *)
Theorem extraction_success_keeps_plaintext_on
    (E : Env) (pid : option string) (bill : element) (st : state)
    (h : header) (cs : list value) (b : bill_ref) (srcs : list value)
    (action : value) (s2 : state) (u : element) (args : list (option string))
    (out : string) :
  reaches_plaintext E pid bill st h cs b srcs action s2 u args ->
  check_output E args = inr out ->
  exists st',
    proc_item E pid bill st = (Ret tt, st')
    /\ written st'
       = (written s2 ++ [record_of E h cs b srcs action s2; stub_of E b action u])%list
    /\ invoked st' = (invoked s2 ++ [args])%list
    /\ trace st' = trace s2
    /\ plaintext st' = plaintext s2.
Proof.
  intros Hreach Hout. rewrite (plaintext_step _ _ _ _ _ _ _ _ _ _ _ _ Hreach), Hout.
  eexists. split; [reflexivity |]. simpl. rewrite <- app_assoc.
  repeat split; reflexivity.
Qed.

(** X7.  When the tool runs and fails ([CalledProcessError]), the
    helper prints the error and then reads a variable it never bound:
    the item ends in [UnboundLocalError], which the caller's handler for
    [OSError] does not catch.  Record and stub are already written and
    plaintext stays requested. *)
Theorem failed_extraction_raises_unbound_local
    (E : Env) (pid : option string) (bill : element) (st : state)
    (h : header) (cs : list value) (b : bill_ref) (srcs : list value)
    (action : value) (s2 : state) (u : element) (args : list (option string))
    (msg : string) :
  reaches_plaintext E pid bill st h cs b srcs action s2 u args ->
  check_output E args = inl (CalledProcessError msg) ->
  exists st',
    proc_item E pid bill st = (Raise UnboundLocalError, st')
    /\ written st'
       = (written s2 ++ [record_of E h cs b srcs action s2; stub_of E b action u])%list
    /\ trace st' = (trace s2 ++ [Printed msg])%list
    /\ plaintext st' = plaintext s2
    /\ forall rest,
         for_each (bill :: rest) (proc_item E pid) st = (Raise UnboundLocalError, st').
Proof.
  intros Hreach Hout.
  pose proof (plaintext_step _ _ _ _ _ _ _ _ _ _ _ _ Hreach) as Hrun.
  rewrite Hout in Hrun. cbv zeta in Hrun.
  eexists. split; [exact Hrun |]. simpl. rewrite <- app_assoc.
  repeat split; try reflexivity.
  intros rest. now rewrite Hrun.
Qed.

(** X8.  Any [OSError] of the tool call switches plaintext off and lets
    the item end normally, but only errno 2 is logged: with another
    errno the trace stays as it was. *)
Theorem other_oserror_disables_silently
    (E : Env) (pid : option string) (bill : element) (st : state)
    (h : header) (cs : list value) (b : bill_ref) (srcs : list value)
    (action : value) (s2 : state) (u : element) (args : list (option string))
    (errno : Z) :
  reaches_plaintext E pid bill st h cs b srcs action s2 u args ->
  check_output E args = inl (OSError errno) ->
  errno <> 2 ->
  exists st',
    proc_item E pid bill st = (Ret tt, st')
    /\ plaintext st' = OBool false
    /\ trace st' = trace s2
    /\ invoked st' = (invoked s2 ++ [args])%list.
Proof.
  intros Hreach Hout Hne.
  rewrite (plaintext_step _ _ _ _ _ _ _ _ _ _ _ _ Hreach), Hout.
  apply Z.eqb_neq in Hne. cbv zeta. rewrite Hne.
  eexists. split; [reflexivity |]. repeat split; reflexivity.
Qed.

(** X9.  A volume processed without the plaintext option (absent, or a
    false value) never runs the tool, whatever its items are and however
    it ends. *)
Theorem no_plaintext_no_tool
    (E : Env) (path : string) (options : gmap string optval) (st : state) :
  truthy (default (OBool false) (options !! "plaintext")) = false ->
  invoked (snd (proc_statute E path options st)) = invoked st.
Proof.
  intros Hoff.
  destruct (proc_statute E path options st) as [r s'] eqn:H. simpl.
  unfold proc_statute in H.
  unfold bind at 1, modify at 1 in H. cbv beta iota in H.
  unfold bind at 1, lift in H.
  destruct (parse E (path ++ "/mods.xml")) as [e | mods];
    [unfold raise in H; now inversion H |].
  unfold ret at 1 in H. cbv beta iota in H.
  unfold bind at 1, modify at 1 in H. cbv beta iota in H.
  unfold bind at 1, find_text at 1 in H.
  destruct (find mods volume_congress) as [ce|];
    [| unfold raise in H; now inversion H].
  unfold ret at 1 in H. cbv beta iota in H.
  unfold bind at 1, modify at 1 in H. cbv beta iota in H.
  unfold bind at 1, logging_warn, modify at 1 in H. cbv beta iota in H.
  unfold bind at 1, find_text at 1 in H.
  destruct (find mods volume_access_id) as [ae|];
    [| unfold raise in H; now inversion H].
  unfold ret at 1 in H. cbv beta iota in H.
  unfold bind in H.
  match type of H with
  | context [for_each ?items ?body ?s0] =>
      destruct (for_each items body s0) as [res s1] eqn:Hloop;
      destruct (loop_plaintext_off E (text ae) items s0 res s1 Hoff Hloop) as [Hi _]
  end.
  destruct res as [[]| |e]; inversion H; subst; exact Hi.
Qed.

(** *** Missing and unexpected fields *)

(** X10.  A committee reference whose chamber code is none of H, S, J,
    or that has no chamber attribute, ends the item in [KeyError]:
    nothing is logged or written, and the items after it in the volume
    are not processed. *)
Theorem unknown_chamber_raises_key_error
    (E : Env) (pid : option string) (bill : element) (st : state)
    (h : header) (cc : element) :
  read_item bill st = (Ret h, st) ->
  classify bill h st = (Ret tt, st) ->
  find bill (ext "mods:congCommittee") = Some cc ->
  (get_attr "chamber" cc = None
   \/ exists code, get_attr "chamber" cc = Some code
                   /\ ~ In code ["H"; "S"; "J"]) ->
  proc_item E pid bill st = (Raise KeyError, st)
  /\ forall rest, for_each (bill :: rest) (proc_item E pid) st = (Raise KeyError, st).
Proof.
  intros Hh Hc Hcc Hcode.
  assert (Hrun : proc_item E pid bill st = (Raise KeyError, st)).
  { unfold proc_item.
    rewrite (bind_ret _ _ _ _ _ Hh), (bind_ret _ _ _ _ _ Hc).
    apply bind_raise. unfold read_committees. rewrite Hcc.
    unfold bind at 1, attr.
    destruct Hcode as [-> | (code & -> & Hnot)]; [reflexivity |].
    unfold ret at 1. cbv beta iota. unfold bind at 1, subscript, chambers.
    destruct (String.eqb_spec code "H") as [-> | _];
      [exfalso; apply Hnot; simpl; auto |].
    destruct (String.eqb_spec code "S") as [-> | _];
      [exfalso; apply Hnot; simpl; auto |].
    destruct (String.eqb_spec code "J") as [-> | _];
      [exfalso; apply Hnot; simpl; auto |].
    reflexivity. }
  split; [exact Hrun |]. intros rest. simpl. now rewrite Hrun.
Qed.

(** X11.  When the first bill sub-record lacks its congress, type or
    number attribute, the item is not skipped: it ends in [KeyError]
    with nothing written. *)
Theorem bill_attribute_missing_raises_key_error
    (E : Env) (pid : option string) (bill : element) (st : state)
    (h : header) (cs : list value) (b0 : element) (more : list element) :
  reaches_bill_reference bill st h cs ->
  findall bill (ext "mods:bill") = b0 :: more ->
  (get_attr "congress" b0 = None \/ get_attr "type" b0 = None
   \/ get_attr "number" b0 = None) ->
  exists st',
    proc_item E pid bill st = (Raise KeyError, st')
    /\ written st' = written st
    /\ trace st'
       = (trace st ++ anomaly (b0 :: more)
            ("Multiple bills associated with " ++ Py.fmt (access_id h)))%list.
Proof.
  intros (H1 & H2 & H3) Hf Hmiss.
  assert (Hb : exists st',
            read_bill_reference bill h st = (Raise KeyError, st')
            /\ written st' = written st
            /\ trace st'
               = (trace st ++ anomaly (b0 :: more)
                    ("Multiple bills associated with " ++ Py.fmt (access_id h)))%list).
  { unfold read_bill_reference. rewrite Hf.
    unfold bind, attr, logging_error, modify, ret, raise.
    destruct more, (get_attr "congress" b0), (get_attr "type" b0),
      (get_attr "number" b0);
      try (destruct Hmiss as [Hm | [Hm | Hm]]; discriminate Hm);
      eexists; (split; [reflexivity |]); simpl; rewrite ?app_nil_r; auto. }
  destruct Hb as (st' & Hb & Hw & Ht).
  exists st'. split; [| auto]. unfold proc_item.
  rewrite (bind_ret _ _ _ _ _ H1), (bind_ret _ _ _ _ _ H2), (bind_ret _ _ _ _ _ H3).
  now apply bind_raise.
Qed.

(** X12.  An item without a title element, or whose title element has
    no text, ends in [AttributeError] whatever its class, front matter
    included, before anything is logged; the items after it are not
    processed. *)
Theorem missing_title_raises_attribute_error
    (E : Env) (pid : option string) (bill : element) (st : state) :
  (find bill [Tag "mods:titleInfo"; Tag "mods:title"] = None
   \/ exists t, find bill [Tag "mods:titleInfo"; Tag "mods:title"] = Some t
                /\ text t = None) ->
  proc_item E pid bill st = (Raise AttributeError, st)
  /\ forall rest,
       for_each (bill :: rest) (proc_item E pid) st = (Raise AttributeError, st).
Proof.
  intros Ht.
  assert (Hrun : proc_item E pid bill st = (Raise AttributeError, st)).
  { unfold proc_item. apply bind_raise. unfold read_item.
    destruct Ht as [Hn | (t & Hs & Hnone)].
    - apply bind_raise. unfold find_text. now rewrite Hn.
    - rewrite (bind_ret _ _ (text t) st st) by (unfold find_text; now rewrite Hs).
      rewrite Hnone. now apply bind_raise. }
  split; [exact Hrun |]. intros rest. simpl. now rewrite Hrun.
Qed.

(** *** The head of the volume *)

Lemma find_second_extension (mods : element) (t : string) :
  (length (List.filter (has_tag "mods:extension") (children mods)) < 2)%nat ->
  find mods [TagPos "mods:extension" 2; Tag t] = None.
Proof.
  intros Hlen. unfold find, findall. simpl.
  destruct (List.filter (has_tag "mods:extension") (children mods)) as [|x [|y l]];
    [reflexivity | reflexivity | simpl in Hlen; lia].
Qed.

(** X13.  The congress and the package id are read from the second
    extension block of the document.  A document with fewer than two
    extension blocks ends the volume in [AttributeError] before the
    volume is announced: nothing is logged, no item is processed. *)
Theorem volume_needs_second_extension
    (E : Env) (path : string) (options : gmap string optval) (st : state)
    (mods : element) :
  parse E (path ++ "/mods.xml") = inr mods ->
  (length (List.filter (has_tag "mods:extension") (children mods)) < 2)%nat ->
  exists st',
    proc_statute E path options st = (Raise AttributeError, st')
    /\ trace st' = trace st
    /\ written st' = written st
    /\ invoked st' = invoked st.
Proof.
  intros Hp Hlen. unfold proc_statute.
  unfold bind at 1, modify at 1. cbv beta iota.
  unfold bind at 1, lift. rewrite Hp. unfold ret at 1. cbv beta iota.
  unfold bind at 1, modify at 1. cbv beta iota.
  unfold bind at 1, find_text at 1. unfold volume_congress.
  rewrite (find_second_extension mods _ Hlen). unfold raise.
  eexists. split; [reflexivity |]. repeat split; reflexivity.
Qed.

(** *** More on batch selection *)

Lemma range_of_malformed (E : Env) (v : string) (st : state) :
  (length (Py.split "-" v) <> 2%nat
   \/ exists a b, Py.split "-" v = [a; b] /\ (Py.int a = None \/ Py.int b = None)) ->
  range_of E (OStr v) st = (Raise ValueError, st).
Proof.
  intros Hbad. unfold range_of.
  unfold bind at 1, ret at 1. cbv beta iota.
  destruct Hbad as [Hlen | (a & b & Hs & Hint)].
  - destruct (Py.split "-" v) as [|a [|b [|c l]]]; try reflexivity.
    now contradiction Hlen.
  - rewrite Hs. unfold bind at 1, ret at 1. cbv beta iota.
    unfold bind at 1, int_of.
    destruct (Py.int a) as [lo|]; [| reflexivity].
    unfold ret at 1. cbv beta iota. unfold bind at 1.
    destruct Hint as [Ha | Hb]; [discriminate Ha |]. now rewrite Hb.
Qed.

(** X14.  A range that does not split at exactly one dash, or one of
    whose endpoints is not a number, ends the run in [ValueError] before
    anything is logged or any batch is processed. *)
Theorem malformed_range_raises_value_error
    (E : Env) (options : gmap string optval) (st : state) (v : string) :
  (options !! "volume" = None /\ options !! "volumes" = Some (OStr v))
  \/ (options !! "volume" = None /\ options !! "volumes" = None
      /\ options !! "year" = None /\ options !! "years" = Some (OStr v)) ->
  (length (Py.split "-" v) <> 2%nat
   \/ exists a b, Py.split "-" v = [a; b] /\ (Py.int a = None \/ Py.int b = None)) ->
  run E options st = (Raise ValueError, st).
Proof.
  intros Hmode Hbad. pose proof (range_of_malformed E v st Hbad) as Hr.
  unfold run. apply bind_raise. unfold to_fetch.
  destruct Hmode as [(Hv & Hvs) | (Hv & Hvs & Hy & Hys)].
  - rewrite Hv, Hvs. now apply bind_raise.
  - rewrite Hv, Hvs, Hy, Hys. now apply bind_raise.
Qed.

(** X15.  A range whose upper endpoint is below its lower endpoint
    selects no batch and is no error: the run logs a count of zero and
    ends normally. *)
Theorem reversed_range_selects_nothing
    (E : Env) (options : gmap string optval) (st : state) (v a b : string)
    (lo hi : Z) :
  (options !! "volume" = None /\ options !! "volumes" = Some (OStr v))
  \/ (options !! "volume" = None /\ options !! "volumes" = None
      /\ options !! "year" = None /\ options !! "years" = Some (OStr v)) ->
  Py.split "-" v = [a; b] ->
  Py.int a = Some lo ->
  Py.int b = Some hi ->
  - maxint E - 1 <= lo <= maxint E ->
  - maxint E - 1 <= hi + 1 <= maxint E ->
  hi < lo ->
  to_fetch E options st = (Ret [], st)
  /\ run E options st = (Ret tt, add_event (LogWarn "Going to process 0 volumes") st).
Proof.
  intros Hmode Hs Ha Hb Hlo Hhi Hrev.
  destruct (range_of_ok E v a b lo hi st Hs Ha Hb Hlo Hhi ltac:(lia)) as (r & Hr & Hin).
  assert (r = []) as ->.
  { destruct r as [|n r]; [reflexivity |].
    assert (lo <= n <= hi) by (apply Hin; now left). lia. }
  assert (Hsel : to_fetch E options st = (Ret [], st)).
  { unfold to_fetch. destruct Hmode as [(Hv & Hvs) | (Hv & Hvs & Hy & Hys)].
    - rewrite Hv, Hvs. now rewrite (bind_ret _ _ _ _ _ Hr).
    - rewrite Hv, Hvs, Hy, Hys. now rewrite (bind_ret _ _ _ _ _ Hr). }
  split; [exact Hsel |]. unfold run. now rewrite (bind_ret _ _ _ _ _ Hsel).
Qed.

(** X16.  The selection options are tried in the order volume,
    volumes, year, years, and the first one present decides alone: the
    options after it are ignored. *)
Theorem selection_precedence
    (E : Env) (options : gmap string optval) (st : state) (v : optval) :
  (options !! "volume" = Some v ->
   to_fetch E options st = to_fetch E {["volume" := v]} st)
  /\ (options !! "volume" = None -> options !! "volumes" = Some v ->
      to_fetch E options st = to_fetch E {["volumes" := v]} st)
  /\ (options !! "volume" = None -> options !! "volumes" = None ->
      options !! "year" = Some v ->
      to_fetch E options st = to_fetch E {["year" := v]} st)
  /\ (options !! "volume" = None -> options !! "volumes" = None ->
      options !! "year" = None -> options !! "years" = Some v ->
      to_fetch E options st = to_fetch E {["years" := v]} st).
Proof.
  unfold to_fetch. repeat split.
  - intros ->. now rewrite lookup_singleton_eq.
  - intros -> ->.
    rewrite lookup_singleton_ne by discriminate. now rewrite lookup_singleton_eq.
  - intros -> -> ->.
    rewrite !lookup_singleton_ne by discriminate. now rewrite lookup_singleton_eq.
  - intros -> -> -> ->.
    rewrite !lookup_singleton_ne by discriminate. now rewrite lookup_singleton_eq.
Qed.

Lemma insert_sorted_perm (x : string) (l : list string) :
  Permutation (insert_sorted x l) (x :: l).
Proof.
  induction l as [|y l IH]; simpl; [reflexivity |].
  destruct (String.leb x y); [reflexivity |].
  rewrite IH. apply perm_swap.
Qed.

Lemma sorted_perm (l : list string) : Permutation (sorted l) l.
Proof.
  induction l as [|x l IH]; simpl; [reflexivity |].
  rewrite insert_sorted_perm. now constructor.
Qed.

Lemma insert_sorted_keeps_order (x : string) (l : list string) :
  Sorted (fun a b => String.leb a b = true) l ->
  Sorted (fun a b => String.leb a b = true) (insert_sorted x l).
Proof.
  induction 1 as [| y l Hl IH Hhd]; simpl.
  - repeat constructor.
  - destruct (String.leb x y) eqn:Hxy.
    + constructor; [constructor; assumption | constructor; exact Hxy].
    + constructor; [exact IH |].
      assert (Hyx : String.leb y x = true).
      { destruct (String.leb_total x y) as [H | H]; [congruence | exact H]. }
      destruct l as [|z l]; simpl.
      * constructor. exact Hyx.
      * destruct (String.leb x z); constructor; [exact Hyx |].
        now inversion Hhd.
Qed.

Lemma sorted_in_order (l : list string) :
  Sorted (fun a b => String.leb a b = true) (sorted l).
Proof.
  induction l as [|x l IH]; simpl; [constructor |].
  now apply insert_sorted_keeps_order.
Qed.

(** X17.  Without any selection option, every batch of the directory
    listing is selected exactly as often as it is listed, in ascending
    byte order of the paths. *)
Theorem unrestricted_selection_is_sorted
    (E : Env) (options : gmap string optval) (st : state) :
  options !! "volume" = None ->
  options !! "volumes" = None ->
  options !! "year" = None ->
  options !! "years" = None ->
  exists sel,
    to_fetch E options st = (Ret sel, st)
    /\ Permutation sel (glob E (root_dir E ++ "/*/STATUTE-*"))
    /\ Sorted (fun a b => String.leb a b = true) sel.
Proof.
  intros Hv Hvs Hy Hys. unfold to_fetch. rewrite Hv, Hvs, Hy, Hys.
  eexists. split; [reflexivity |].
  split; [apply sorted_perm | apply sorted_in_order].
Qed.

(** *** Titles and identifiers *)

Lemma replace_dquotes_plain (s : string) :
  no_doubled_quotes s = true -> Py.replace_dquotes s = s.
Proof.
  induction s as [|a s IH]; [reflexivity |].
  destruct s as [|b s']; [reflexivity |].
  intros H. change (no_doubled_quotes (String a (String b s')))
    with (negb (Ascii.eqb a Py.dquote && Ascii.eqb b Py.dquote)
          && no_doubled_quotes (String b s'))%bool in H.
  apply andb_true_iff in H. destruct H as [Hq Hrest].
  apply negb_true_iff in Hq.
  change (Py.replace_dquotes (String a (String b s')))
    with (if (Ascii.eqb a Py.dquote && Ascii.eqb b Py.dquote)%bool
          then String Py.dquote (Py.replace_dquotes s')
          else String a (Py.replace_dquotes (String b s'))).
  rewrite Hq. now rewrite (IH Hrest).
Qed.

Lemma replace_dquotes_length (s : string) :
  (String.length (Py.replace_dquotes s) <= String.length s)%nat
  /\ forall a,
       (String.length (Py.replace_dquotes (String a s)) <= S (String.length s))%nat.
Proof.
  induction s as [|b s [IH1 IH2]].
  - split; [simpl; lia | intros a; simpl; lia].
  - split; [apply IH2 |]. intros a.
    change (Py.replace_dquotes (String a (String b s)))
      with (if (Ascii.eqb a Py.dquote && Ascii.eqb b Py.dquote)%bool
            then String Py.dquote (Py.replace_dquotes s)
            else String a (Py.replace_dquotes (String b s))).
    destruct (Ascii.eqb a Py.dquote && Ascii.eqb b Py.dquote)%bool; simpl.
    + lia.
    + specialize (IH2 b). simpl in IH2. lia.
Qed.

Lemma replace_dquotes_pair (pre post : string) :
  no_quote pre = true ->
  Py.replace_dquotes (pre ++ String Py.dquote (String Py.dquote post))
  = pre ++ String Py.dquote (Py.replace_dquotes post).
Proof.
  induction pre as [|a pre IH]; intros Hpre; [reflexivity |].
  simpl in Hpre. apply andb_true_iff in Hpre. destruct Hpre as [Ha Hpre].
  apply negb_true_iff in Ha. specialize (IH Hpre).
  change (String a pre ++ String Py.dquote (String Py.dquote post))
    with (String a (pre ++ String Py.dquote (String Py.dquote post))).
  change (String a pre ++ String Py.dquote (Py.replace_dquotes post))
    with (String a (pre ++ String Py.dquote (Py.replace_dquotes post))).
  rewrite <- IH.
  destruct (pre ++ String Py.dquote (String Py.dquote post)) as [|b rest] eqn:Hrest.
  - destruct pre; discriminate Hrest.
  - change (Py.replace_dquotes (String a (String b rest)))
      with (if (Ascii.eqb a Py.dquote && Ascii.eqb b Py.dquote)%bool
            then String Py.dquote (Py.replace_dquotes rest)
            else String a (Py.replace_dquotes (String b rest))).
    now rewrite Ha.
Qed.

(** X18.  The title of an item is the text of its title element with
    doubled double quotes undone, scanning from the left: a pair of
    double quotes after a quote-free beginning becomes one double quote
    and the rest is treated the same way.  So the title is never longer
    than the text, and a text without two double quotes in a row is
    taken as it is.  The title is the single title entry, marked official
    and enacted. *)
Theorem title_is_unescaped_text
    (bill : element) (st : state) (h : header) (t : element) (s : string) :
  read_item bill st = (Ret h, st) ->
  find bill [Tag "mods:titleInfo"; Tag "mods:title"] = Some t ->
  text t = Some s ->
  title h = Py.replace_dquotes s
  /\ (forall pre post,
        no_quote pre = true ->
        s = pre ++ String Py.dquote (String Py.dquote post) ->
        title h = pre ++ String Py.dquote (Py.replace_dquotes post))
  /\ titles h = [VDict [("title", VStr (title h)); ("as", VStr "enacted");
                        ("type", VStr "official")]]
  /\ (String.length (title h) <= String.length s)%nat
  /\ (no_doubled_quotes s = true -> title h = s).
Proof.
  intros Hh Ht Hs. unfold read_item in Hh.
  unfold bind at 1, find_text at 1 in Hh. rewrite Ht in Hh.
  unfold ret at 1 in Hh. cbv beta iota in Hh. rewrite Hs in Hh.
  unfold bind at 1, ret at 1 in Hh. cbv beta iota zeta in Hh.
  unfold bind, find_text in Hh.
  destruct (find bill (ext "mods:granuleClass")); [| discriminate Hh].
  unfold ret at 1 in Hh.
  destruct (find bill (ext "mods:accessId")); [| discriminate Hh].
  unfold ret at 1 in Hh.
  destruct (find bill (ext "mods:granuleDate")); [| discriminate Hh].
  unfold ret in Hh. injection Hh as <-. simpl.
  split; [reflexivity |].
  split; [intros pre post Hpre ->; now apply replace_dquotes_pair |].
  split; [reflexivity |].
  split; [apply replace_dquotes_length | apply replace_dquotes_plain].
Qed.

Lemma lower_char_idem (c : ascii) : Py.lower_char (Py.lower_char c) = Py.lower_char c.
Proof. destruct c as [[] [] [] [] [] [] [] []]; reflexivity. Qed.

Lemma lower_idem (s : string) : Py.lower (Py.lower s) = Py.lower s.
Proof.
  induction s as [|c s IH]; [reflexivity |].
  simpl. now rewrite lower_char_idem, IH.
Qed.

(** X19.  In every Bill Record written, the bill type is in lower case
    (lower-casing it again changes nothing), and the bill id is that
    type, the number, a dash and the congress. *)
Theorem record_type_is_lower_case
    (E : Env) (pid : option string) (bill : element) (st : state)
    (new : list output) (bd : value) :
  written (snd (proc_item E pid bill st)) = (written st ++ new)%list ->
  In (BillRecord bd) new ->
  exists ty num cong,
    get "bill_type" bd = Some (VStr ty)
    /\ get "number" bd = Some (VStr num)
    /\ get "congress" bd = Some (VStr cong)
    /\ get "bill_id" bd = Some (VStr (ty ++ num ++ "-" ++ cong))
    /\ Py.lower ty = ty.
Proof.
  intros Hnew Hin.
  destruct (written_record_inv E pid bill st new bd Hnew Hin)
    as (h & cs & b & srcs & action & s1 & s2 & s3 & Hb & _ & _ & Hrec).
  injection Hrec as ->.
  exists (bill_type b), (bill_number b), (bill_congress b).
  rewrite <- (bill_id_shape _ _ _ _ _ Hb).
  repeat (split; [reflexivity |]).
  destruct (findall bill (ext "mods:bill")) as [|b0 more] eqn:Hf.
  - unfold read_bill_reference in Hb. rewrite Hf in Hb.
    unfold bind, logging_error, modify, continue in Hb. discriminate Hb.
  - destruct (read_bill_reference_first _ _ _ _ _ _ _ Hf Hb)
      as (_ & _ & t & _ & _ & _ & ->).
    simpl. apply lower_idem.
Qed.

(** *** Items and volumes that go through *)

(** X20.  An item with one bill sub-record, one law sub-record of the
    same congress and a PDF rendition, processed with plaintext off,
    ends normally without a single log line: it writes its record and its
    stub, runs no tool and leaves [law_congress] bound to its congress. *)
Theorem well_formed_law_item_is_silent
    (E : Env) (pid : option string) (bill : element) (st : state)
    (h : header) (cs : list value) (b : bill_ref) (srcs : list value) (st1 : state)
    (b0 l0 u : element) (lc ln lp : string) :
  reaches_action pid bill st h cs b srcs st1 ->
  findall bill (ext "mods:bill") = [b0] ->
  findall bill (ext "mods:law") = [l0] ->
  get_attr "congress" l0 = Some lc ->
  get_attr "number" l0 = Some ln ->
  get_attr "isPrivate" l0 = Some lp ->
  lc = bill_congress b ->
  find bill pdf_rendition = Some u ->
  truthy (plaintext st) = false ->
  exists st',
    proc_item E pid bill st = (Ret tt, st')
    /\ trace st' = trace st
    /\ written st'
       = (written st
          ++ [record_of E h cs b srcs (enacted_action h lc ln (law_type_of lp)) st;
              stub_of E b (enacted_action h lc ln (law_type_of lp)) u])%list
    /\ invoked st' = invoked st
    /\ law_congress st' = Some lc.
Proof.
  intros Hreach Hbills Hlaws Hc Hn Hp -> Hu Hoff.
  rewrite (proc_item_reaches E pid _ _ _ _ _ _ _ Hreach).
  destruct Hreach as (_ & Hb & _).
  destruct (read_bill_reference_first _ _ _ _ _ _ _ Hbills Hb) as (_ & -> & _).
  rewrite (bind_ret _ _ _ _ _ (derive_action_law bill h b st _ _ _ _ _ Hlaws Hc Hn Hp)).
  unfold output_item.
  unfold bind at 1, gets at 1. cbv beta iota zeta.
  cbn [law_congress set_law_congress]. rewrite String.eqb_refl. cbn [negb].
  cbv beta iota.
  unfold bind at 1, gets at 1. cbv beta iota.
  unfold bind at 1, modify at 1. cbv beta iota.
  unfold bind at 1, find_text. rewrite Hu. unfold ret at 1. cbv beta iota.
  unfold bind at 1, modify at 1. cbv beta iota.
  unfold bind at 1, gets at 1. cbv beta iota.
  cbn [plaintext add_output set_law_congress]. rewrite Hoff.
  eexists. split; [reflexivity |]. simpl. rewrite <- app_assoc.
  repeat split; reflexivity.
Qed.

Lemma loop_of_skipped_items (E : Env) (pid : option string) (items : list element) :
  Forall (fun bill =>
            exists h, (forall s, read_item bill s = (Ret h, s))
                      /\ member (granule_class h) classes = false) items ->
  forall st, for_each items (proc_item E pid) st = (Ret tt, st).
Proof.
  induction 1 as [| bill items (h & Hh & Hc) _ IH]; intros st; [reflexivity |].
  simpl. rewrite (skipped_class E pid bill st h (Hh st) Hc). apply IH.
Qed.

(** X21.  A volume all of whose items are of other classes (front
    matter and the like) goes through: it writes nothing, logs only the
    line that announces the volume, and still answers [ok] and [saved]. *)
Theorem volume_of_skipped_items_reports_saved
    (E : Env) (path : string) (options : gmap string optval) (st : state)
    (mods ce ae : element) :
  parse E (path ++ "/mods.xml") = inr mods ->
  find mods volume_congress = Some ce ->
  find mods volume_access_id = Some ae ->
  Forall (fun bill =>
            exists h, (forall s, read_item bill s = (Ret h, s))
                      /\ member (granule_class h) classes = false)
    (findall mods [Tag "mods:relatedItem"]) ->
  proc_statute E path options st
  = (Ret (VDict [("ok", VBool true); ("saved", VBool true)]),
     loop_entry E path options (text ce) st)
  /\ written (loop_entry E path options (text ce) st) = written st
  /\ trace (loop_entry E path options (text ce) st)
     = (trace st ++ [LogWarn ("Processing " ++ path ++ " (Congress "
                              ++ Py.fmt (text ce) ++ ")")])%list.
Proof.
  intros Hp Hce Hae Hall.
  rewrite (proc_statute_loop E path options st mods ce ae Hp Hce Hae).
  unfold bind. rewrite (loop_of_skipped_items E (text ae) _ Hall).
  repeat split; reflexivity.
Qed.

(** *** The further properties at the sample documents *)

Lemma record_has_one_known_action_witness :
  exists a ty status,
    get "actions"
      (first_record (written (snd (proc_item Demo.E Demo.pid Demo.public_law Demo.start))))
    = Some (VList [a])
    /\ get "type" a = Some (VStr ty) /\ In ty ["vote"; "enacted"]
    /\ get "status" a = Some (VStr status) /\ In status statuses.
Proof.
  apply (record_has_one_known_action Demo.E Demo.pid Demo.public_law Demo.start
           (written (snd (proc_item Demo.E Demo.pid Demo.public_law Demo.start)))).
  - reflexivity.
  - left. reflexivity.
Defined.

Lemma enacted_record_congress_agrees_witness :
  exists c,
    get "congress" Sample.public_law_action = Some (VStr c)
    /\ get "congress"
         (first_record
            (written (snd (proc_item Demo.E Demo.pid Demo.public_law Demo.start))))
       = Some (VStr c).
Proof.
  apply (enacted_record_congress_agrees Demo.E Demo.pid Demo.public_law Demo.start
           (written (snd (proc_item Demo.E Demo.pid Demo.public_law Demo.start)))).
  - reflexivity.
  - left. reflexivity.
  - reflexivity.
  - reflexivity.
Defined.

Lemma law_item_without_law_is_skipped_witness :
  proc_item Demo.E Demo.pid Demo.law_without_law Demo.start
  = (Continue,
     add_event
       (LogError "Could not get law data for hr9-82: An Act Whose law number is missing.")
       Demo.start).
Proof.
  apply (law_item_without_law_is_skipped Demo.E Demo.pid Demo.law_without_law
           Demo.start
           (Demo.header_of "PRIVATELAW" "An Act Whose law number is missing.") []
           (Demo.ref "82" "HR" "9") Demo.sources Demo.start).
  - repeat split; reflexivity.
  - reflexivity.
  - reflexivity.
Defined.

Lemma reaches_plaintext_sample (tool : list (option string) -> exn + string) :
  reaches_plaintext (Demo.env tool) Demo.pid Demo.public_law Sample.requested
    Sample.public_law_header [] (Demo.ref "82" "hr" "1") Demo.sources
    Sample.public_law_action
    (set_law_congress (Some "82") Sample.requested) Sample.pdf Sample.pdftotext_hr1.
Proof.
  exists Sample.requested, "hr", "1", "82", "enr". repeat split; reflexivity.
Defined.

Lemma extraction_success_keeps_plaintext_on_witness :
  exists st',
    proc_item (Demo.env Sample.tool_talking) Demo.pid Demo.public_law Sample.requested
    = (Ret tt, st')
    /\ invoked st' = [Sample.pdftotext_hr1]
    /\ trace st' = []
    /\ plaintext st' = OBool true.
Proof.
  destruct (extraction_success_keeps_plaintext_on
              (Demo.env Sample.tool_talking) Demo.pid Demo.public_law Sample.requested
              Sample.public_law_header [] (Demo.ref "82" "hr" "1") Demo.sources
              Sample.public_law_action
              (set_law_congress (Some "82") Sample.requested) Sample.pdf
              Sample.pdftotext_hr1 "some output"
              (reaches_plaintext_sample Sample.tool_talking) eq_refl)
    as (st' & Hrun & _ & Hi & Ht & Hp).
  exists st'. split; [exact Hrun | split; [exact Hi | split; [exact Ht | exact Hp]]].
Defined.

Lemma failed_extraction_raises_unbound_local_witness :
  exists st',
    proc_item (Demo.env Sample.tool_failing) Demo.pid Demo.public_law Sample.requested
    = (Raise UnboundLocalError, st')
    /\ trace st' = [Printed "Command pdftotext returned non-zero exit status 1"]
    /\ plaintext st' = OBool true.
Proof.
  destruct (failed_extraction_raises_unbound_local
              (Demo.env Sample.tool_failing) Demo.pid Demo.public_law Sample.requested
              Sample.public_law_header [] (Demo.ref "82" "hr" "1") Demo.sources
              Sample.public_law_action
              (set_law_congress (Some "82") Sample.requested) Sample.pdf
              Sample.pdftotext_hr1 "Command pdftotext returned non-zero exit status 1"
              (reaches_plaintext_sample Sample.tool_failing) eq_refl)
    as (st' & Hrun & _ & Ht & Hp & _).
  exists st'. split; [exact Hrun | split; [exact Ht | exact Hp]].
Defined.

Lemma other_oserror_disables_silently_witness :
  exists st',
    proc_item (Demo.env Sample.tool_denied) Demo.pid Demo.public_law Sample.requested
    = (Ret tt, st')
    /\ plaintext st' = OBool false
    /\ trace st' = [].
Proof.
  destruct (other_oserror_disables_silently
              (Demo.env Sample.tool_denied) Demo.pid Demo.public_law Sample.requested
              Sample.public_law_header [] (Demo.ref "82" "hr" "1") Demo.sources
              Sample.public_law_action
              (set_law_congress (Some "82") Sample.requested) Sample.pdf
              Sample.pdftotext_hr1 13
              (reaches_plaintext_sample Sample.tool_denied) eq_refl
              ltac:(discriminate))
    as (st' & Hrun & Hp & Ht & _).
  exists st'. split; [exact Hrun | split; [exact Hp | exact Ht]].
Defined.

Lemma no_plaintext_no_tool_witness :
  invoked (snd (proc_statute Demo.E_missing Demo.volume_65 ∅ Demo.start)) = [].
Proof.
  apply (no_plaintext_no_tool Demo.E_missing Demo.volume_65 ∅ Demo.start).
  reflexivity.
Defined.

Lemma unknown_chamber_raises_key_error_witness :
  proc_item Demo.E Demo.pid Sample.odd_committee Demo.start
  = (Raise KeyError, Demo.start).
Proof.
  apply (unknown_chamber_raises_key_error Demo.E Demo.pid Sample.odd_committee
           Demo.start (Demo.header_of "PUBLICLAW" "An Act With an odd committee.")
           (Sample.committee "X")).
  - reflexivity.
  - reflexivity.
  - reflexivity.
  - right. exists "X". split; [reflexivity |].
    simpl. intros [H | [H | [H | []]]]; discriminate H.
Defined.

Lemma bill_attribute_missing_raises_key_error_witness :
  exists st',
    proc_item Demo.E Demo.pid Sample.bill_without_number Demo.start
    = (Raise KeyError, st')
    /\ written st' = []
    /\ trace st' = [].
Proof.
  apply (bill_attribute_missing_raises_key_error Demo.E Demo.pid
           Sample.bill_without_number Demo.start
           (Demo.header_of "PUBLICLAW" "An Act With half a bill.") []
           (Element "mods:bill" [("congress", "82"); ("type", "HR")] None []) []).
  - repeat split; reflexivity.
  - reflexivity.
  - right. right. reflexivity.
Defined.

Lemma missing_title_raises_attribute_error_witness :
  proc_item Demo.E Demo.pid Sample.untitled Demo.start
  = (Raise AttributeError, Demo.start).
Proof.
  apply (missing_title_raises_attribute_error Demo.E Demo.pid Sample.untitled
           Demo.start).
  left. reflexivity.
Defined.

Lemma volume_needs_second_extension_witness :
  exists st',
    proc_statute Sample.E "data/fdsys/STATUTE/1949/STATUTE-63" ∅ Demo.start
    = (Raise AttributeError, st')
    /\ trace st' = []
    /\ written st' = [].
Proof.
  destruct (volume_needs_second_extension Sample.E
              "data/fdsys/STATUTE/1949/STATUTE-63" ∅ Demo.start Sample.one_extension)
    as (st' & Hrun & Ht & Hw & _).
  - reflexivity.
  - simpl. lia.
  - exists st'. split; [exact Hrun | split; [exact Ht | exact Hw]].
Defined.

Lemma malformed_range_raises_value_error_witness :
  run Demo.E {["volumes" := OStr "65"]} Demo.start = (Raise ValueError, Demo.start).
Proof.
  apply (malformed_range_raises_value_error Demo.E {["volumes" := OStr "65"]}
           Demo.start "65").
  - left. split; reflexivity.
  - left. simpl. discriminate.
Defined.

Lemma reversed_range_selects_nothing_witness :
  to_fetch Demo.E {["volumes" := OStr "67-65"]} Demo.start = (Ret [], Demo.start)
  /\ run Demo.E {["volumes" := OStr "67-65"]} Demo.start
     = (Ret tt, add_event (LogWarn "Going to process 0 volumes") Demo.start).
Proof.
  apply (reversed_range_selects_nothing Demo.E {["volumes" := OStr "67-65"]}
           Demo.start "67-65" "67" "65" 67 65).
  - left. split; reflexivity.
  - reflexivity.
  - reflexivity.
  - reflexivity.
  - simpl. lia.
  - simpl. lia.
  - lia.
Defined.

Lemma unrestricted_selection_is_sorted_witness :
  exists sel,
    to_fetch Demo.E ∅ Demo.start = (Ret sel, Demo.start)
    /\ Permutation sel (glob Demo.E (root_dir Demo.E ++ "/*/STATUTE-*"))
    /\ Sorted (fun a b => String.leb a b = true) sel.
Proof.
  apply (unrestricted_selection_is_sorted Demo.E ∅ Demo.start); reflexivity.
Defined.

Lemma title_is_unescaped_text_witness :
  read_item Sample.quoted Demo.start
  = (Ret (Demo.header_of "PUBLICLAW" Sample.unescaped_title), Demo.start)
  /\ text (Demo.el "mods:title" Sample.escaped_title)
     = Some ("An Act To name the "
             ++ String Py.dquote (String Py.dquote
                  ("Capitol" ++ String Py.dquote (String Py.dquote " building."))))
  /\ title (Demo.header_of "PUBLICLAW" Sample.unescaped_title)
     = "An Act To name the "
       ++ String Py.dquote ("Capitol" ++ String Py.dquote " building.").
Proof.
  split; [reflexivity | split; [reflexivity |]].
  destruct (title_is_unescaped_text Sample.quoted Demo.start
              (Demo.header_of "PUBLICLAW" Sample.unescaped_title)
              (Demo.el "mods:title" Sample.escaped_title) Sample.escaped_title
              eq_refl eq_refl eq_refl) as (_ & Hpair & _).
  rewrite (Hpair "An Act To name the "
             ("Capitol" ++ String Py.dquote (String Py.dquote " building."))
             eq_refl eq_refl).
  reflexivity.
Defined.

Lemma record_type_is_lower_case_witness :
  let bd :=
    first_record (written (snd (proc_item Demo.E Demo.pid Demo.private_law Demo.start)))
  in
  exists ty num cong,
    get "bill_type" bd = Some (VStr ty)
    /\ get "number" bd = Some (VStr num)
    /\ get "congress" bd = Some (VStr cong)
    /\ get "bill_id" bd = Some (VStr (ty ++ num ++ "-" ++ cong))
    /\ Py.lower ty = ty.
Proof.
  apply (record_type_is_lower_case Demo.E Demo.pid Demo.private_law Demo.start
           (written (snd (proc_item Demo.E Demo.pid Demo.private_law Demo.start)))).
  - reflexivity.
  - left. reflexivity.
Defined.

Lemma well_formed_law_item_is_silent_witness :
  exists st',
    proc_item Demo.E Demo.pid Demo.public_law Demo.start = (Ret tt, st')
    /\ trace st' = []
    /\ invoked st' = []
    /\ law_congress st' = Some "82".
Proof.
  destruct (well_formed_law_item_is_silent Demo.E Demo.pid Demo.public_law Demo.start
              Sample.public_law_header [] (Demo.ref "82" "hr" "1") Demo.sources
              Demo.start (Demo.bill_el "82" "hr" "1") (Demo.law_el "82" "100" "false")
              Sample.pdf "82" "100" "false")
    as (st' & Hrun & Ht & _ & Hi & Hlc).
  - repeat split; reflexivity.
  - reflexivity.
  - reflexivity.
  - reflexivity.
  - reflexivity.
  - reflexivity.
  - reflexivity.
  - reflexivity.
  - reflexivity.
  - exists st'. split; [exact Hrun | split; [exact Ht | split; [exact Hi | exact Hlc]]].
Defined.

Lemma volume_of_skipped_items_reports_saved_witness :
  proc_statute Sample.E Sample.volume_64 ∅ Demo.start
  = (Ret (VDict [("ok", VBool true); ("saved", VBool true)]),
     loop_entry Sample.E Sample.volume_64 ∅ (Some "81") Demo.start)
  /\ written (loop_entry Sample.E Sample.volume_64 ∅ (Some "81") Demo.start) = [].
Proof.
  destruct (volume_of_skipped_items_reports_saved Sample.E Sample.volume_64 ∅
              Demo.start
              (Demo.document "81" [Demo.front_matter; Demo.front_matter])
              (Demo.el "mods:congress" "81") (Demo.el "mods:accessId" "STATUTE-66"))
    as (Hrun & Hw & _).
  - reflexivity.
  - reflexivity.
  - reflexivity.
  - repeat constructor;
      (exists (Demo.header_of "FRONTMATTER" "Title page");
       split; [intros s; reflexivity | reflexivity]).
  - split; [exact Hrun | exact Hw].
Defined.
